(** * Threshold-triggered actuation control loop (go2_webrtc BCI examples)

    A shallow embedding of the two example controllers
      examples/data_channel/bci_control/brainflow_robot_control.py
      examples/data_channel/bci_control/emotiv_control.py
    Every call into an external collaborator (BrainFlow, Cortex, the Go2
    WebRTC driver, asyncio.sleep) is answered by an oracle that may return a
    value or raise; the controller code is written in a small monad that
    threads the controller object, the trace of observable events and
    Python's exception propagation. *)

From Stdlib Require Import ZArith List String Floats Lia Bool.
From stdpp Require Import base option list gmap strings.

Set Warnings "-inexact-float".

Local Open Scope string_scope.
Local Open Scope Z_scope.

(** ** Python values that cross the boundary *)

Inductive pyval : Type :=
  | PyNone
  | PyInt (n : Z)
  | PyFloat (f : float)
  | PyStr (s : string).

(** ** Exceptions

    [Exception] stands for every subclass of Python's [Exception]; the other
    two derive from [BaseException] only, so [except Exception] lets them
    through. *)
Inductive exn : Type :=
  | Exception (msg : string)
  | KeyboardInterrupt
  | CancelledError.

(** ** External calls *)

Inductive BoardIds : Type :=
  | SYNTHETIC_BOARD
  | OTHER_BOARD (id : Z).

Inductive WebRTCConnectionMethod : Type :=
  | LocalSTA
  | LocalAP
  | Remote.

(** Keys of the driver's [RTC_TOPIC] and [SPORT_CMD] tables; the tables
    themselves belong to go2_webrtc_driver. *)
Inductive topic : Type :=
  | RTC_TOPIC (key : string).

Inductive api : Type :=
  | api_literal (n : Z)
  | SPORT_CMD (key : string).

Inductive parameter : Type :=
  | param_name (name : string)
  | param_xyz (x y z : pyval).

Record request : Type := Request { api_id : api; req_parameter : parameter }.

(** What the controller reads of a numpy array: [data.size], and the number
    of rows a [for] loop over it visits. *)
Record ndarray : Type := NdArray { size : nat; rows : nat }.

Inductive call : Type -> Type :=
  (* BrainFlow *)
  | enable_dev_board_logger : call unit
  | BoardShim_new (board_id : BoardIds) (serial_port ip_address : string) : call unit
  | prepare_session : call unit
  | start_stream : call unit
  | MLModel_new (metric : string) : call unit
  | model_prepare : call unit
  | get_current_board_data (num_samples : Z) : call ndarray
  | get_eeg_channels (board_id : BoardIds) : call (list nat)
  | ndarray_getitem (data : ndarray) (channels : list nat) : call ndarray
  | perform_bandpass (row : nat) (sampling_rate : Z) (start_freq stop_freq : float)
                     (order : Z) (filter_type : string) (ripple : Z) : call unit
  | get_avg_band_powers (eeg_data : ndarray) (sampling_rate : Z) (apply_filter : bool) : call unit
  | model_predict : call float
  | stop_stream : call unit
  | release_session : call unit
  | model_release : call unit
  (* Emotiv Cortex *)
  | Cortex_new (client_id client_secret : string) : call unit
  | cortex_open : call unit
  | request_access : call unit
  | authenticate : call unit
  | query_headsets : call (list (gmap string string))
  | connect_headset (id : string) : call unit
  | create_session (activate : bool) : call unit
  | query_profile : call (list string)
  | load_profile (name : string) : call unit
  | setup_profile (name : string) : call unit
  | train_mc (action : string) : call unit
  | save_profile : call unit
  | subscribe (streams : list string) : call unit
  | receive_data : call (option (gmap string pyval))
  | cortex_close : call unit
  (* Go2 WebRTC driver *)
  | Go2WebRTCConnection_new (method : WebRTCConnectionMethod) (ip : string) : call unit
  | connect : call unit
  | publish_request_new (t : topic) (r : request) : call unit
  | disconnect : call unit
  (* asyncio *)
  | sleep (seconds : float) : call unit.

Inductive outcome (R : Type) : Type :=
  | Returns (r : R)
  | Raises (e : exn).
Arguments Returns {R} r.
Arguments Raises {R} e.

Inductive level : Type := INFO | ERROR.

Inductive logarg : Type :=
  | no_arg
  | arg_str (s : string)
  | arg_int (n : Z)
  | arg_float (f : float).

(** ** Observable events, in the order they happen *)
Inductive event : Type :=
  | Called {R : Type} (c : call R) (o : outcome R)
  | Logged (lvl : level) (msg : string) (arg : logarg)
  | Printed (msg : string)
  | Entered (fn : string).

(** The environment: it sees everything that happened so far and the call
    being made, and answers. *)
Definition oracle : Type := list event -> forall R, call R -> outcome R.

(** ** The controller monad *)

Inductive result (A : Type) : Type :=
  | Done (a : A)
  | Raised (e : exn)
  | OutOfFuel.
Arguments Done {A} a.
Arguments Raised {A} e.
Arguments OutOfFuel {A}.

Record world (St : Type) : Type := World { self : St; trace : list event }.
Arguments World {St} self trace.
Arguments self {St} w.
Arguments trace {St} w.

Definition M (St A : Type) : Type := oracle -> world St -> result A * world St.

(** The attribute a call looks up on its handle: the method, and for a
    publish the [datachannel] of the connection.  The constructors, the
    static functions of BrainFlow and [asyncio.sleep] go through no handle. *)
Definition attribute_of {R : Type} (c : call R) : string :=
  match c with
  | prepare_session => "prepare_session"
  | start_stream => "start_stream"
  | model_prepare => "prepare"
  | get_current_board_data _ => "get_current_board_data"
  | model_predict => "predict"
  | stop_stream => "stop_stream"
  | release_session => "release_session"
  | model_release => "release"
  | cortex_open => "open"
  | request_access => "request_access"
  | authenticate => "authenticate"
  | query_headsets => "query_headsets"
  | connect_headset _ => "connect_headset"
  | create_session _ => "create_session"
  | query_profile => "query_profile"
  | load_profile _ => "load_profile"
  | setup_profile _ => "setup_profile"
  | train_mc _ => "train_mc"
  | save_profile => "save_profile"
  | subscribe _ => "subscribe"
  | receive_data => "receive_data"
  | cortex_close => "close"
  | connect => "connect"
  | publish_request_new _ _ => "datachannel"
  | disconnect => "disconnect"
  | _ => ""
  end.

(** What Python raises for [obj.name] when [obj] is [None]. *)
Definition attribute_error (name : string) : exn :=
  Exception ("'NoneType' object has no attribute '" ++ name ++ "'").

Section Monad.
Context {St : Type}.

Definition ret {A} (a : A) : M St A := fun _ w => (Done a, w).

Definition bind {A B} (m : M St A) (k : A -> M St B) : M St B :=
  fun env w =>
    match m env w with
    | (Done a, w1) => k a env w1
    | (Raised e, w1) => (Raised e, w1)
    | (OutOfFuel, w1) => (OutOfFuel, w1)
    end.

Definition raise {A} (e : exn) : M St A := fun _ w => (Raised e, w).

Definition emit (ev : event) : M St unit :=
  fun _ w => (Done tt, World (self w) (trace w ++ [ev])).

Definition get : M St St := fun _ w => (Done (self w), w).

Definition modify (f : St -> St) : M St unit :=
  fun _ w => (Done tt, World (f (self w)) (trace w)).

(** An external call: the oracle answers, the answer is recorded. *)
Definition ext {R} (c : call R) : M St R :=
  fun env w =>
    let o := env (trace w) R c in
    let w1 := World (self w) (trace w ++ [Called c o]) in
    match o with
    | Returns r => (Done r, w1)
    | Raises e => (Raised e, w1)
    end.

(** A method call [self.attr.method(...)]: an [AttributeError] when the
    attribute is still [None]. *)
Definition via {R} (attr : St -> bool) (c : call R) : M St R :=
  fun env w =>
    if attr (self w) then ext c env w else raise (attribute_error (attribute_of c)) env w.

(** [try: m except Exception as e: h (str e)] *)
Definition try_except {A} (m : M St A) (h : string -> M St A) : M St A :=
  fun env w =>
    match m env w with
    | (Raised (Exception msg), w1) => h msg env w1
    | rw => rw
    end.

(** [try: m except KeyboardInterrupt: h] *)
Definition try_except_interrupt {A} (m : M St A) (h : M St A) : M St A :=
  fun env w =>
    match m env w with
    | (Raised KeyboardInterrupt, w1) => h env w1
    | rw => rw
    end.

(** [try: m finally: fin].  An exception of [fin] replaces the pending
    outcome of [m]; a computation that ran out of fuel has not reached its
    [finally] yet. *)
Definition try_finally {A} (m : M St A) (fin : M St unit) : M St A :=
  fun env w =>
    match m env w with
    | (OutOfFuel, w1) => (OutOfFuel, w1)
    | (r, w1) =>
        match fin env w1 with
        | (Done _, w2) => (r, w2)
        | (Raised e, w2) => (Raised e, w2)
        | (OutOfFuel, w2) => (OutOfFuel, w2)
        end
    end.

Definition when (b : bool) (m : M St unit) : M St unit :=
  if b then m else ret tt.

(** [for row in range(n): body row] *)
Fixpoint for_range (start n : nat) (body : nat -> M St unit) : M St unit :=
  match n with
  | O => ret tt
  | S n' => bind (body start) (fun _ => for_range (S start) n' body)
  end.

(** [while cond: body], cut off after [fuel] iterations. *)
Fixpoint while (fuel : nat) (cond : St -> bool) (body : M St unit) : M St unit :=
  match fuel with
  | O => fun _ w => if cond (self w) then (OutOfFuel, w) else (Done tt, w)
  | S fuel' =>
      bind get (fun s =>
        if cond s then bind body (fun _ => while fuel' cond body) else ret tt)
  end.

End Monad.

Declare Scope py_scope.
Delimit Scope py_scope with py.
Notation "x <- c ;; k" := (bind c (fun x => k))
  (at level 100, c at next level, right associativity) : py_scope.
Notation "c ;; k" := (bind c (fun _ => k))
  (at level 100, right associativity) : py_scope.
Local Open Scope py_scope.

Definition info {St} (msg : string) (arg : logarg) : M St unit := emit (Logged INFO msg arg).
Definition error {St} (msg : string) (arg : logarg) : M St unit := emit (Logged ERROR msg arg).

(** What [main] prints on a keyboard interrupt: a line break, then the
    text. *)
Definition line_break : Ascii.ascii :=
  Ascii.Ascii false true false true false false false false.

Definition interrupt_notice : string :=
  String line_break "Program interrupted by user".

(** ** The Go2 robot side, identical in both scripts *)

Record RobotConfig : Type := mkRobotConfig {
  connection_method : WebRTCConnectionMethod;
  ip : string;
  move_speed : float;
  move_duration : float
}.

(** The controller object: the back-end specific fields [bci] and the
    fields both classes share.  A handle field is [true] when the Python
    attribute holds an object and [false] when it is [None]. *)
Record controller (B : Type) : Type := Controller {
  bci : B;
  robot_config : RobotConfig;
  robot_conn : bool;
  running : bool
}.
Arguments Controller {B} bci robot_config robot_conn running.
Arguments bci {B} c.
Arguments robot_config {B} c.
Arguments robot_conn {B} c.
Arguments running {B} c.

Definition set_bci {B} (f : B -> B) (c : controller B) : controller B :=
  Controller (f (bci c)) (robot_config c) (robot_conn c) (running c).
Definition set_robot_conn {B} (b : bool) (c : controller B) : controller B :=
  Controller (bci c) (robot_config c) b (running c).
Definition set_running {B} (b : bool) (c : controller B) : controller B :=
  Controller (bci c) (robot_config c) (robot_conn c) b.

Definition mode_request (mode : string) : request :=
  Request (api_literal 1002) (param_name mode).

Definition move_request (cfg : RobotConfig) : request :=
  Request (SPORT_CMD "Move") (param_xyz (PyFloat (move_speed cfg)) (PyInt 0) (PyInt 0)).

Definition stop_request : request :=
  Request (SPORT_CMD "Move") (param_xyz (PyInt 0) (PyInt 0) (PyInt 0)).

Section Robot.
Context {B : Type}.
#[local] Abbreviation Ctl := (M (controller B)).

(** [await self.robot_conn.datachannel.pub_sub.publish_request_new(t, r)] *)
Definition publish (t : topic) (r : request) : Ctl unit :=
  via robot_conn (publish_request_new t r).

Definition _set_motion_mode (mode : string) : Ctl unit :=
  publish (RTC_TOPIC "MOTION_SWITCHER") (mode_request mode) ;;
  ext (sleep 2).

Definition setup_robot : Ctl unit :=
  try_except
    (s <- get ;;
     ext (Go2WebRTCConnection_new (connection_method (robot_config s)) (ip (robot_config s))) ;;
     modify (set_robot_conn true) ;;
     via robot_conn connect ;;
     _set_motion_mode "normal" ;;
     info "Robot connection established" no_arg)
    (fun msg =>
       error "Robot setup failed: " (arg_str msg) ;;
       raise (Exception msg)).

Definition move_forward : Ctl unit :=
  try_except
    (s <- get ;;
     publish (RTC_TOPIC "SPORT_MOD") (move_request (robot_config s)) ;;
     info "Moving forward" no_arg ;;
     ext (sleep (move_duration (robot_config s))) ;;
     (* Stop movement *)
     publish (RTC_TOPIC "SPORT_MOD") stop_request)
    (fun msg => error "Movement execution failed: " (arg_str msg)).

End Robot.

(** ** brainflow_robot_control.py *)

Module BrainFlow.

Record BCIConfig : Type := mkBCIConfig {
  board_id : BoardIds;
  serial_port : string;
  ip_address : string;
  command_threshold : float;
  window_size : Z;
  sampling_rate : Z
}.

Record fields : Type := Fields {
  bci_config : BCIConfig;
  board : bool;
  concentration_model : bool
}.

Definition set_board (b : bool) (f : fields) : fields :=
  Fields (bci_config f) b (concentration_model f).
Definition set_concentration_model (b : bool) (f : fields) : fields :=
  Fields (bci_config f) (board f) b.

Abbreviation BrainFlowRobotController := (controller fields).
#[local] Abbreviation Ctl := (M BrainFlowRobotController).

(** [__init__]: the fields, then [BoardShim.enable_dev_board_logger()]. *)
Definition new (bci_cfg : BCIConfig) (robot_cfg : RobotConfig) : BrainFlowRobotController :=
  Controller (Fields bci_cfg false false) robot_cfg false false.

Definition __init__ : Ctl unit := ext enable_dev_board_logger.

Definition setup_bci : Ctl unit :=
  try_except
    (s <- get ;;
     let cfg := bci_config (bci s) in
     ext (BoardShim_new (board_id cfg) (serial_port cfg) (ip_address cfg)) ;;
     modify (set_bci (set_board true)) ;;
     via (fun s => board (bci s)) prepare_session ;;
     via (fun s => board (bci s)) start_stream ;;
     ext (MLModel_new "CONCENTRATION") ;;
     modify (set_bci (set_concentration_model true)) ;;
     via (fun s => concentration_model (bci s)) model_prepare ;;
     info "BCI setup completed successfully" no_arg)
    (fun msg =>
       error "BCI setup failed: " (arg_str msg) ;;
       raise (Exception msg)).

(** The body of the [try] in [process_brain_data]: the score computation. *)
Definition compute_score (data : ndarray) : Ctl float :=
  s <- get ;;
  let cfg := bci_config (bci s) in
  eeg_channels <- ext (get_eeg_channels (board_id cfg)) ;;
  eeg_data <- ext (ndarray_getitem data eeg_channels) ;;
  for_range 0 (rows eeg_data) (fun channel =>
    ext (perform_bandpass channel (sampling_rate cfg) 8 30 3 "BUTTERWORTH" 0)) ;;
  ext (get_avg_band_powers eeg_data (sampling_rate cfg) true) ;;
  via (fun s => concentration_model (bci s)) model_predict.

Definition process_brain_data (data : ndarray) : Ctl float :=
  try_except
    (compute_score data)
    (fun msg =>
       error "Error processing brain data: " (arg_str msg) ;;
       ret 0%float).

(** [self.board.get_current_board_data(self.bci_config.window_size)] *)
Definition poll : Ctl ndarray :=
  s <- get ;;
  via (fun s => board (bci s)) (get_current_board_data (window_size (bci_config (bci s)))).

(** One iteration of the [while self.running] loop of [run]. *)
Definition cycle : Ctl unit :=
  data <- poll ;;
  when (0 <? size data)%nat
    (concentration <- process_brain_data data ;;
     s <- get ;;
     when (command_threshold (bci_config (bci s)) <=? concentration)%float
       (info "High concentration detected: " (arg_float concentration) ;;
        move_forward)) ;;
  ext (sleep 0.1).

Definition cleanup : Ctl unit :=
  emit (Entered "cleanup") ;;
  modify (set_running false) ;;
  s <- get ;;
  when (board (bci s))
    (ext stop_stream ;;
     ext release_session) ;;
  s <- get ;;
  when (concentration_model (bci s))
    (ext model_release) ;;
  s <- get ;;
  when (robot_conn s)
    (ext disconnect) ;;
  info "Cleanup completed" no_arg.

Definition run (fuel : nat) : Ctl unit :=
  try_finally
    (try_except
       (setup_bci ;;
        setup_robot ;;
        modify (set_running true) ;;
        info "Starting brain activity monitoring..." no_arg ;;
        while fuel running cycle)
       (fun msg => error "Runtime error: " (arg_str msg)))
    cleanup.

(** [main] after the two configuration objects are built. *)
Definition program (fuel : nat) : Ctl unit :=
  __init__ ;;
  try_finally
    (try_except_interrupt
       (run fuel)
       (emit (Printed interrupt_notice)))
    cleanup.

Definition main_bci_config : BCIConfig :=
  mkBCIConfig SYNTHETIC_BOARD "COM3" "" 0.6 256 250.

Definition main_robot_config : RobotConfig :=
  mkRobotConfig LocalSTA "192.168.8.181" 0.5 2.

Definition start (bci_cfg : BCIConfig) (robot_cfg : RobotConfig) : world BrainFlowRobotController :=
  World (new bci_cfg robot_cfg) [].

Definition main (fuel : nat) (env : oracle) : result unit * world BrainFlowRobotController :=
  program fuel env (start main_bci_config main_robot_config).

End BrainFlow.

(** ** Python comparisons used by the event-driven controller *)

(** [v == s] for a string literal [s]. *)
Definition py_eq_str (v : pyval) (s : string) : bool :=
  match v with
  | PyStr s' => String.eqb s' s
  | _ => false
  end.

(** [n >= t] for an int [n] and a float [t]: Python compares the exact
    values, without rounding [n]. *)
Definition int_ge_float (n : Z) (t : float) : bool :=
  match Prim2SF t with
  | S754_nan => false
  | S754_infinity negative => negative
  | S754_zero _ => 0 <=? n
  | S754_finite negative m e =>
      let v := if negative then Z.neg m else Z.pos m in
      if 0 <=? e then v * 2 ^ e <=? n else v <=? n * 2 ^ (- e)
  end.

(** [v >= t] for a float [t]; ordering a [str] or [None] against a float is
    a [TypeError]. *)
Definition py_ge (v : pyval) (t : float) : outcome bool :=
  match v with
  | PyFloat f => Returns (t <=? f)%float
  | PyInt n => Returns (int_ge_float n t)
  | PyStr _ => Raises (Exception "'>=' not supported between instances of 'str' and 'float'")
  | PyNone => Raises (Exception "'>=' not supported between instances of 'NoneType' and 'float'")
  end.

(** [{v}] in an f-string. *)
Definition format_value (v : pyval) : logarg :=
  match v with
  | PyFloat f => arg_float f
  | PyInt n => arg_int n
  | PyStr s => arg_str s
  | PyNone => arg_str "None"
  end.

Definition lift_outcome {St R} (o : outcome R) : M St R :=
  match o with
  | Returns r => ret r
  | Raises e => raise e
  end.

(** ** emotiv_control.py *)

Module Emotiv.

Record BCIConfig : Type := mkBCIConfig {
  client_id : string;
  client_secret : string;
  command_threshold : float;
  profile_name : string
}.

Record fields : Type := Fields {
  bci_config : BCIConfig;
  cortex : bool
}.

Definition set_cortex (b : bool) (f : fields) : fields :=
  Fields (bci_config f) b.

Abbreviation BCIRobotController := (controller fields).
#[local] Abbreviation Ctl := (M BCIRobotController).
#[local] Abbreviation the_cortex := (fun s : BCIRobotController => cortex (bci s)).

Definition new (bci_cfg : BCIConfig) (robot_cfg : RobotConfig) : BCIRobotController :=
  Controller (Fields bci_cfg false) robot_cfg false false.

(** [__init__]: [self.cortex = Cortex(client_id, client_secret)]. *)
Definition __init__ : Ctl unit :=
  s <- get ;;
  ext (Cortex_new (client_id (bci_config (bci s))) (client_secret (bci_config (bci s)))) ;;
  modify (set_bci (set_cortex true)).

Definition setup_training : Ctl unit :=
  try_except
    (s <- get ;;
     (* Create new profile *)
     via the_cortex (setup_profile (profile_name (bci_config (bci s)))) ;;
     (* Train "push" command *)
     info "Starting mental command training for 'push'..." no_arg ;;
     via the_cortex (train_mc "push") ;;
     (* Save the training profile *)
     via the_cortex save_profile ;;
     info "Training completed and profile saved" no_arg)
    (fun msg =>
       error "Training setup failed: " (arg_str msg) ;;
       raise (Exception msg)).

Definition setup_bci : Ctl unit :=
  try_except
    (via the_cortex cortex_open ;;
     via the_cortex request_access ;;
     via the_cortex authenticate ;;
     (* Get headset details *)
     headsets <- via the_cortex query_headsets ;;
     when (length headsets <? 1)%nat
       (raise (Exception "No headset detected")) ;;
     (* Connect to first available headset *)
     id <- match headsets with
           | h :: _ =>
               match h !! "id" with
               | Some id => ret id
               | None => raise (Exception "'id'")
               end
           | [] => raise (Exception "list index out of range")
           end ;;
     via the_cortex (connect_headset id) ;;
     via the_cortex (create_session true) ;;
     (* Load or create training profile *)
     profiles <- via the_cortex query_profile ;;
     s <- get ;;
     (if negb (bool_decide (profile_name (bci_config (bci s)) ∈ profiles))
      then setup_training
      else via the_cortex (load_profile (profile_name (bci_config (bci s))))) ;;
     info "BCI setup completed successfully" no_arg)
    (fun msg =>
       error "BCI setup failed: " (arg_str msg) ;;
       raise (Exception msg)).

(** [not mental_command_data]: [None] and the empty dict are falsy. *)
Definition falsy (mental_command_data : option (gmap string pyval)) : bool :=
  match mental_command_data with
  | None => true
  | Some d => bool_decide (d = ∅)
  end.

Definition process_mental_commands
    (mental_command_data : option (gmap string pyval)) : Ctl unit :=
  if falsy mental_command_data then ret tt else
  let d : gmap string pyval := default ∅ mental_command_data in
  let command := default PyNone (d !! "command") in
  let power := default (PyInt 0) (d !! "power") in
  s <- get ;;
  (* [command == 'push' and power >= threshold]: [and] short-circuits *)
  fire <- (if py_eq_str command "push"
           then lift_outcome (py_ge power (command_threshold (bci_config (bci s))))
           else ret false) ;;
  when fire
    (info "Push command detected with power: " (format_value power) ;;
     move_forward).

(** One iteration of the [while self.running] loop of [run]. *)
Definition cycle : Ctl unit :=
  mental_command <- via the_cortex receive_data ;;
  process_mental_commands mental_command.

Definition cleanup : Ctl unit :=
  emit (Entered "cleanup") ;;
  modify (set_running false) ;;
  s <- get ;;
  when (cortex (bci s))
    (ext cortex_close) ;;
  s <- get ;;
  when (robot_conn s)
    (ext disconnect) ;;
  info "Cleanup completed" no_arg.

Definition run (fuel : nat) : Ctl unit :=
  try_finally
    (try_except
       (setup_bci ;;
        setup_robot ;;
        modify (set_running true) ;;
        info "Starting mental command monitoring..." no_arg ;;
        (* Subscribe to mental command stream *)
        via the_cortex (subscribe ["com"]) ;;
        while fuel running cycle)
       (fun msg => error "Runtime error: " (arg_str msg)))
    cleanup.

Definition program (fuel : nat) : Ctl unit :=
  __init__ ;;
  try_finally
    (try_except_interrupt
       (run fuel)
       (emit (Printed interrupt_notice)))
    cleanup.

Definition main_bci_config : BCIConfig :=
  mkBCIConfig "your_emotiv_client_id" "your_emotiv_client_secret" 0.5 "Go2Control".

Definition main_robot_config : RobotConfig :=
  mkRobotConfig LocalSTA "192.168.8.181" 0.5 2.

Definition start (bci_cfg : BCIConfig) (robot_cfg : RobotConfig) : world BCIRobotController :=
  World (new bci_cfg robot_cfg) [].

Definition main (fuel : nat) (env : oracle) : result unit * world BCIRobotController :=
  program fuel env (start main_bci_config main_robot_config).

End Emotiv.

(** ** Reading a trace *)

(** The requests published to the robot, in order. *)
Definition dispatch_of (ev : event) : option (topic * request) :=
  match ev with
  | Called (publish_request_new t r) _ => Some (t, r)
  | _ => None
  end.

Definition dispatches (tr : list event) : list (topic * request) :=
  omap dispatch_of tr.

(** The teardown operations of the spec, as the two scripts spell them. *)
Inductive teardown_step : Type :=
  | StopStreaming
  | CloseSession
  | ReleaseExtractor
  | DisconnectActuator.

Definition teardown_of (ev : event) : option teardown_step :=
  match ev with
  | Called stop_stream _ => Some StopStreaming
  | Called release_session _ => Some CloseSession
  | Called cortex_close _ => Some CloseSession
  | Called model_release _ => Some ReleaseExtractor
  | Called disconnect _ => Some DisconnectActuator
  | _ => None
  end.

Definition teardown (tr : list event) : list teardown_step :=
  omap teardown_of tr.

(** The exceptions the environment raised, in order. *)
Definition raise_of (ev : event) : option exn :=
  match ev with
  | Called _ (Raises e) => Some e
  | _ => None
  end.

Definition raises (tr : list event) : list exn := omap raise_of tr.

(** How many times [cleanup] was entered. *)
Definition cleanup_entry (ev : event) : option unit :=
  match ev with
  | Entered fn => if String.eqb fn "cleanup" then Some tt else None
  | _ => None
  end.

Definition cleanups (tr : list event) : nat := length (omap cleanup_entry tr).

(** The board sessions that were opened: [prepare_session] returned. *)
Definition sessions_prepared (tr : list event) : nat :=
  length (omap (fun ev => match ev with
                          | Called prepare_session (Returns _) => Some tt
                          | _ => None
                          end) tr).

(** The polls of the signal source. *)
Definition poll_of (ev : event) : option unit :=
  match ev with
  | Called (get_current_board_data _) _ => Some tt
  | Called receive_data _ => Some tt
  | _ => None
  end.

Definition polls (tr : list event) : nat := length (omap poll_of tr).

Definition error_logs (tr : list event) : list (string * logarg) :=
  omap (fun ev => match ev with Logged ERROR msg a => Some (msg, a) | _ => None end) tr.

Definition SPORT_MOD : topic := RTC_TOPIC "SPORT_MOD".
Definition MOTION_SWITCHER : topic := RTC_TOPIC "MOTION_SWITCHER".

Definition topic_eqb (a b : topic) : bool :=
  match a, b with RTC_TOPIC x, RTC_TOPIC y => String.eqb x y end.

(** The movement commands (requests on the sport topic) among dispatches. *)
Definition movements (ds : list (topic * request)) : list request :=
  omap (fun d => if topic_eqb (fst d) SPORT_MOD then Some (snd d) else None) ds.

(** The mode switches among dispatches. *)
Definition mode_sets (ds : list (topic * request)) : list request :=
  omap (fun d => if topic_eqb (fst d) MOTION_SWITCHER then Some (snd d) else None) ds.

(** The connections the driver established. *)
Definition connection_of (ev : event) : option unit :=
  match ev with
  | Called connect (Returns _) => Some tt
  | _ => None
  end.

Definition connections (tr : list event) : nat := length (omap connection_of tr).

(** Calls other than a publish or a connect. *)
Definition quiet_call {R : Type} (c : call R) : bool :=
  match c with
  | publish_request_new _ _ => false
  | connect => false
  | _ => true
  end.

(** Nothing is published and [cleanup] is not entered. *)
Definition quiet (d : list event) : Prop :=
  dispatches d = [] /\ cleanups d = 0%nat /\ connections d = 0%nat.

(** The steps [cleanup] has to take for the handles the controller holds. *)
Definition brainflow_plan (s : BrainFlow.BrainFlowRobotController) : list teardown_step :=
  (if BrainFlow.board (bci s) then [StopStreaming; CloseSession] else []) ++
  (if BrainFlow.concentration_model (bci s) then [ReleaseExtractor] else []) ++
  (if robot_conn s then [DisconnectActuator] else []).

Definition emotiv_plan (s : Emotiv.BCIRobotController) : list teardown_step :=
  (if Emotiv.cortex (bci s) then [CloseSession] else []) ++
  (if robot_conn s then [DisconnectActuator] else []).

(** ** Concrete environments *)

(** What a well-behaved collaborator returns. *)
Definition answer (score : float) {R : Type} (c : call R) : R :=
  match c in call R return R with
  | get_current_board_data _ => NdArray 1024 4
  | get_eeg_channels _ => [1; 2; 3; 4]%nat
  | ndarray_getitem data channels => NdArray (length channels * 256) (length channels)
  | model_predict => score
  | query_headsets => [{["id" := "EPOCX-1"]}]
  | query_profile => ["Go2Control"]
  | receive_data => Some {["command" := PyStr "push"; "power" := PyFloat score]}
  | _ => tt
  end.

(** Every call returns. *)
Definition obliging (score : float) : oracle :=
  fun _ R c => Returns (answer score c).

(** [env], except that the calls selected by [sel] raise [e]. *)
Definition failing (sel : forall R, call R -> bool) (e : exn) (env : oracle) : oracle :=
  fun tr R c => if sel R c then Raises e else env tr R c.

Definition is_move_dispatch (R : Type) (c : call R) : bool :=
  match c with
  | publish_request_new (RTC_TOPIC key) (Request _ (param_xyz (PyFloat _) _ _)) =>
      String.eqb key "SPORT_MOD"
  | _ => false
  end.

Definition is_stop_stream (R : Type) (c : call R) : bool :=
  match c with stop_stream => true | _ => false end.

Definition is_start_stream (R : Type) (c : call R) : bool :=
  match c with start_stream => true | _ => false end.

Definition is_prepare_session (R : Type) (c : call R) : bool :=
  match c with prepare_session => true | _ => false end.

Definition is_connect (R : Type) (c : call R) : bool :=
  match c with connect => true | _ => false end.

Definition is_poll (R : Type) (c : call R) : bool :=
  match c with get_current_board_data _ => true | receive_data => true | _ => false end.

Definition is_band_powers (R : Type) (c : call R) : bool :=
  match c with get_avg_band_powers _ _ _ => true | _ => false end.

(** Scenario A of the spec: the scores of the successive polls, and an
    external interrupt at the poll after the last one. *)
Definition scenario_scores : list float := [0.2; 0.3; 0.7; 0.1]%float.

Definition scenario_A : oracle :=
  fun tr R c =>
    if is_poll R c && (length scenario_scores <=? polls tr)%nat
    then Raises KeyboardInterrupt
    else Returns (answer (nth (polls tr - 1) scenario_scores 0%float) c).

(** A controller after a successful setup. *)
Definition brainflow_ready : world BrainFlow.BrainFlowRobotController :=
  World (Controller (BrainFlow.Fields BrainFlow.main_bci_config true true)
                    BrainFlow.main_robot_config true true) [].

Definition emotiv_ready : world Emotiv.BCIRobotController :=
  World (Controller (Emotiv.Fields Emotiv.main_bci_config true)
                    Emotiv.main_robot_config true true) [].

(** ** Vocabulary of the properties *)

Local Open Scope list_scope.

(** The dispatches of one triggered movement: the move alone, or the move
    and its stop. *)
Definition move_block (cfg : RobotConfig) (ds : list (topic * request)) : Prop :=
  ds = [(SPORT_MOD, move_request cfg)] \/
  ds = [(SPORT_MOD, move_request cfg); (SPORT_MOD, stop_request)].

(** What a [move_forward] that starts after the events [tr] publishes on a
    connected robot, read off the answers of the environment: the move, and
    after it the stop unless the move dispatch or the wait raises. *)
Definition move_forward_dispatches (env : oracle) (cfg : RobotConfig) (tr : list event)
    : list (topic * request) :=
  let move := publish_request_new SPORT_MOD (move_request cfg) in
  match env tr unit move with
  | Raises _ => [(SPORT_MOD, move_request cfg)]
  | Returns _ =>
      match env ((tr ++ [Called move (Returns tt)]) ++ [Logged INFO "Moving forward" no_arg])
                unit (sleep (move_duration cfg)) with
      | Raises _ => [(SPORT_MOD, move_request cfg)]
      | Returns _ => [(SPORT_MOD, move_request cfg); (SPORT_MOD, stop_request)]
      end
  end.

(** The mode switch [setup_robot] publishes. *)
Definition mode_dispatch : topic * request := (MOTION_SWITCHER, mode_request "normal").

(** A computation that leaves the controller as it is, publishes nothing and
    comes to an end. *)
Definition silent {St A} (m : M St A) : Prop :=
  forall env w,
    exists d, trace (snd (m env w)) = trace w ++ d /\
      self (snd (m env w)) = self w /\ quiet d /\ fst (m env w) <> OutOfFuel.

(** What a computation on a connected, mode-set robot may append: no
    cleanup, no new connection, and at most one block of movement
    dispatches. *)
Definition steady (cfg : RobotConfig) (d : list event) : Prop :=
  cleanups d = 0%nat /\ connections d = 0%nat /\
  (dispatches d = [] \/ move_block cfg (dispatches d)).

(** A run of movement dispatches: blocks of a move alone (its dispatch or
    the wait after it raised) or a move followed by its stop. *)
Inductive move_blocks (cfg : RobotConfig) : list (topic * request) -> Prop :=
  | blocks_nil : move_blocks cfg []
  | blocks_cons b ds : move_block cfg b -> move_blocks cfg ds -> move_blocks cfg (b ++ ds).

(** What a whole session may publish: one mode switch per connection, at
    most one connection, and movement blocks only after it. *)
Definition protocol (cfg : RobotConfig) (d : list event) : Prop :=
  (connections d <= 1)%nat /\
  exists bl, dispatches d = repeat mode_dispatch (connections d) ++ bl /\
    move_blocks cfg bl /\ (connections d = 0%nat -> bl = []).

(** How often [cleanup] has run once a computation has ended: not at all
    while it is still looping. *)
Definition cleanups_due {A} (r : result A) (n : nat) : nat :=
  match r with
  | OutOfFuel => 0%nat
  | _ => n
  end.

(** The log line of [process_mental_commands]. *)
Definition push_log (power : pyval) : event :=
  Logged INFO "Push command detected with power: " (format_value power).

(** The world after [self.logger.error(what + msg)]. *)
Definition logged_error {St} (w : world St) (what msg : string) : world St :=
  World (self w) (trace w ++ [Logged ERROR what (arg_str msg)]).

(** The polls and the movement dispatches of a trace, in order. *)
Inductive beat : Type :=
  | Polled
  | Dispatched (r : request).

Definition beat_of (ev : event) : option beat :=
  match ev with
  | Called (get_current_board_data _) _ => Some Polled
  | Called receive_data _ => Some Polled
  | Called (publish_request_new t r) _ =>
      if topic_eqb t SPORT_MOD then Some (Dispatched r) else None
  | _ => None
  end.

Definition timeline (tr : list event) : list beat := omap beat_of tr.

(** The scores the classifier returned, in order. *)
Definition scores (tr : list event) : list float :=
  omap (fun ev => match ev with
                  | Called model_predict (Returns s) => Some s
                  | _ => None
                  end) tr.

(** The shape of [run] and [main] in both scripts, over the parts in which
    they differ: the constructor, the setup of the signal source, the
    monitoring loop (with what precedes it after the robot setup) and
    [cleanup]. *)
Definition lifecycle_session {F} (setup_source : M (controller F) unit)
    (monitor : nat -> M (controller F) unit) (fuel : nat) : M (controller F) unit :=
  setup_source ;;
  setup_robot ;;
  monitor fuel.

Definition lifecycle_run {F} (setup_source : M (controller F) unit)
    (monitor : nat -> M (controller F) unit) (teardown : M (controller F) unit)
    (fuel : nat) : M (controller F) unit :=
  try_finally
    (try_except
       (lifecycle_session setup_source monitor fuel)
       (fun msg => error "Runtime error: " (arg_str msg)))
    teardown.

Definition lifecycle_program {F} (construct setup_source : M (controller F) unit)
    (monitor : nat -> M (controller F) unit) (teardown : M (controller F) unit)
    (fuel : nat) : M (controller F) unit :=
  construct ;;
  try_finally
    (try_except_interrupt
       (lifecycle_run setup_source monitor teardown fuel)
       (emit (Printed interrupt_notice)))
    teardown.

(** What follows the robot setup in [run]. *)
Definition brainflow_monitor (fuel : nat) : M BrainFlow.BrainFlowRobotController unit :=
  modify (set_running true) ;;
  info "Starting brain activity monitoring..." no_arg ;;
  while fuel running BrainFlow.cycle.

Definition emotiv_monitor (fuel : nat) : M Emotiv.BCIRobotController unit :=
  modify (set_running true) ;;
  info "Starting mental command monitoring..." no_arg ;;
  via (fun s => Emotiv.cortex (bci s)) (subscribe ["com"]) ;;
  while fuel running Emotiv.cycle.

(** ** Vocabulary of the properties of the single functions *)

(** An outcome that is not an [Exception]: a normal return, or one of the
    exceptions that [except Exception] lets through. *)
Definition not_an_exception {A} (r : result A) : Prop :=
  match r with
  | Done _ => True
  | Raised e => e = KeyboardInterrupt \/ e = CancelledError
  | OutOfFuel => False
  end.

(** The external calls of a trace, counted. *)
Definition external_calls (tr : list event) : nat :=
  length (omap (fun ev => match ev with Called _ _ => Some tt | _ => None end) tr).

(** The band-pass call of [process_brain_data] on one row, returning. *)
Definition bandpass_event (cfg : BrainFlow.BCIConfig) (channel : nat) : event :=
  Called (perform_bandpass channel (BrainFlow.sampling_rate cfg) 8 30 3 "BUTTERWORTH" 0)
         (Returns tt).

(** The headset lists [query_headsets] returned. *)
Definition headsets_seen (tr : list event) : list (list (gmap string string)) :=
  omap (fun ev => match ev with
                  | Called query_headsets (Returns hs) => Some hs
                  | _ => None
                  end) tr.

(** The headsets the controller asked to connect to. *)
Definition headsets_connected (tr : list event) : list string :=
  omap (fun ev => match ev with
                  | Called (connect_headset id) _ => Some id
                  | _ => None
                  end) tr.

(** How many boards, classifier models and robot connections were
    constructed. *)
Definition boards_built (tr : list event) : nat :=
  length (omap (fun ev => match ev with
                          | Called (BoardShim_new _ _ _) (Returns _) => Some tt
                          | _ => None
                          end) tr).

Definition models_built (tr : list event) : nat :=
  length (omap (fun ev => match ev with
                          | Called (MLModel_new _) (Returns _) => Some tt
                          | _ => None
                          end) tr).

Definition robots_built (tr : list event) : nat :=
  length (omap (fun ev => match ev with
                          | Called (Go2WebRTCConnection_new _ _) (Returns _) => Some tt
                          | _ => None
                          end) tr).

(** What [setup_bci] of the Emotiv controller did about the training
    profile: the profile lists [query_profile] returned, the profiles it
    asked to load, the profiles it asked to create, the actions it asked to
    train. *)
Definition profiles_seen (tr : list event) : list (list string) :=
  omap (fun ev => match ev with
                  | Called query_profile (Returns ps) => Some ps
                  | _ => None
                  end) tr.

Definition profiles_loaded (tr : list event) : list string :=
  omap (fun ev => match ev with
                  | Called (load_profile name) _ => Some name
                  | _ => None
                  end) tr.

Definition profiles_set_up (tr : list event) : list string :=
  omap (fun ev => match ev with
                  | Called (setup_profile name) _ => Some name
                  | _ => None
                  end) tr.

Definition trainings (tr : list event) : list string :=
  omap (fun ev => match ev with
                  | Called (train_mc action) _ => Some action
                  | _ => None
                  end) tr.

(** A BrainFlow controller after a successful setup, for any configuration
    and history. *)
Definition brainflow_ready_with (bci_cfg : BrainFlow.BCIConfig) (robot_cfg : RobotConfig)
    (tr : list event) : world BrainFlow.BrainFlowRobotController :=
  World (Controller (BrainFlow.Fields bci_cfg true true) robot_cfg true true) tr.

(** An Emotiv controller after its constructor, for any configuration. *)
Definition emotiv_constructed (bci_cfg : Emotiv.BCIConfig) (robot_cfg : RobotConfig)
    : world Emotiv.BCIRobotController :=
  World (Controller (Emotiv.Fields bci_cfg true) robot_cfg false false) [].

(** The move and the stop of one triggered movement. *)
Definition move_stop_pair (cfg : RobotConfig) : list (topic * request) :=
  [(SPORT_MOD, move_request cfg); (SPORT_MOD, stop_request)].

(** Environments in which single calls misbehave. *)
Definition is_sleep (R : Type) (c : call R) : bool :=
  match c with sleep _ => true | _ => false end.

Definition is_train_mc (R : Type) (c : call R) : bool :=
  match c with train_mc _ => true | _ => false end.

(** No headset is found. *)
Definition no_headset : oracle :=
  fun tr R c =>
    match c in call R return outcome R with
    | query_headsets => Returns []
    | c' => obliging 0.7 tr _ c'
    end.

(** The stored profiles do not include the configured one. *)
Definition no_profile : oracle :=
  fun tr R c =>
    match c in call R return outcome R with
    | query_profile => Returns ["Other"]
    | c' => obliging 0.7 tr _ c'
    end.

(** Every event is a 'push' whose power is the string [power]. *)
Definition push_with_text (power : string) : oracle :=
  fun tr R c =>
    match c in call R return outcome R with
    | receive_data => Returns (Some {["command" := PyStr "push"; "power" := PyStr power]})
    | c' => obliging 0.7 tr _ c'
    end.

(** * Properties *)

(** ** Float comparison *)

Lemma SFltb_not_SFleb x y : SFltb x y = true -> SFleb y x = false.
Proof.
  unfold SFltb, SFleb, SFcompare.
  destruct x as [sx | sx | | sx mx ex], y as [sy | sy | | sy my ey];
    try destruct sx; try destruct sy; try discriminate; try reflexivity.
  all: change (PosDef.Pos.compare_cont Eq mx my) with (Pos.compare mx my);
       change (PosDef.Pos.compare_cont Eq my mx) with (Pos.compare my mx);
       destruct (Z.compare_spec ex ey), (Z.compare_spec ey ex); try lia;
       try discriminate; try reflexivity;
       destruct (Pos.compare_spec mx my), (Pos.compare_spec my mx); try lia;
       try discriminate; try reflexivity.
Qed.

(** [x < y] excludes [x >= y], also for infinities (and no NaN is [<]). *)
Lemma ltb_not_leb (x y : float) : (x <? y)%float = true -> (y <=? x)%float = false.
Proof. rewrite ltb_spec, leb_spec. apply SFltb_not_SFleb. Qed.

(** The int [0] is not [>=] a positive float. *)
Lemma int_zero_below_positive (t : float) :
  (0 <? t)%float = true -> int_ge_float 0 t = false.
Proof.
  rewrite ltb_spec. unfold int_ge_float.
  change (Prim2SF 0) with (S754_zero false).
  destruct (Prim2SF t) as [s | s | | s m e]; unfold SFltb, SFcompare;
    try destruct s; try discriminate; try reflexivity.
  intros _. cbn zeta. destruct (0 <=? e)%Z eqn:He.
  - apply Z.leb_gt. apply Z.mul_pos_pos; [ apply Pos2Z.is_pos | ].
    apply Z.pow_pos_nonneg; [ lia | ]. apply Z.leb_le. assumption.
  - reflexivity.
Qed.

(** ** Traces are read piecewise *)

Lemma dispatches_app (a b : list event) : dispatches (a ++ b) = dispatches a ++ dispatches b.
Proof. apply omap_app. Qed.

Lemma teardown_app (a b : list event) : teardown (a ++ b) = teardown a ++ teardown b.
Proof. apply omap_app. Qed.

Lemma raises_app (a b : list event) : raises (a ++ b) = raises a ++ raises b.
Proof. apply omap_app. Qed.

Lemma cleanups_app (a b : list event) : cleanups (a ++ b) = (cleanups a + cleanups b)%nat.
Proof. unfold cleanups. rewrite omap_app, length_app. reflexivity. Qed.

Lemma polls_app (a b : list event) : polls (a ++ b) = (polls a + polls b)%nat.
Proof. unfold polls. rewrite omap_app, length_app. reflexivity. Qed.

Lemma error_logs_app (a b : list event) : error_logs (a ++ b) = error_logs a ++ error_logs b.
Proof. apply omap_app. Qed.

(** ** Symbolic execution *)

Ltac unfold_monad_in H :=
  unfold when, info, error, via, lift_outcome in H;
  unfold bind, ret, raise, emit, get, modify, ext, try_except,
    try_except_interrupt, try_finally in H;
  cbn in H.

(** Splits on every answer of the environment that [H] scrutinises. *)
Ltac split_answers H :=
  repeat match type of H with
  | context [match ?env ?tr ?R ?c with Returns _ => _ | Raises _ => _ end] =>
      let o := fresh "o" in let E := fresh "E" in
      destruct (env tr R c) as [? | o] eqn:E; [ | try destruct o ];
      cbn in H
  end.

Ltac finish_trace :=
  repeat rewrite <- app_assoc; reflexivity.

(** Symbolic execution through the answers of the environment and through
    the values the code inspects: a list, a dictionary lookup, a membership
    test.  The lookups and tests themselves are left as they are. *)
Ltac step_in H :=
  cbv beta iota zeta delta
    [self trace bci robot_config robot_conn running
     Emotiv.bci_config Emotiv.cortex
     set_bci set_robot_conn set_running Emotiv.set_cortex
     length Nat.ltb Nat.leb negb fst snd] in H.

Ltac unfold_program_in H :=
  unfold when, info, error, via, lift_outcome in H;
  unfold bind, ret, raise, emit, get, modify, ext, try_except,
    try_except_interrupt, try_finally in H;
  step_in H.

Ltac explore H :=
  repeat first
    [ match type of H with
      | context [match ?env ?tr ?R ?c with Returns _ => _ | Raises _ => _ end] =>
          let o := fresh "o" in let E := fresh "E" in
          destruct (env tr R c) as [? | o] eqn:E; [ | try destruct o ]; step_in H
      end
    | match type of H with
      | context [match ?l with [] => _ | _ :: _ => _ end] =>
          is_var l; destruct l; step_in H
      end
    | match type of H with
      | context [match ?x !! ?k with Some _ => _ | None => _ end] =>
          let E := fresh "E" in destruct (x !! k) eqn:E; step_in H
      end
    | match type of H with
      | context [bool_decide ?P] =>
          let E := fresh "E" in destruct (bool_decide P) eqn:E; step_in H
      end ].

(** ** Cleanup *)

Ltac pick_prefix :=
  first [ exists 0%nat; reflexivity | exists 1%nat; reflexivity | exists 2%nat; reflexivity
        | exists 3%nat; reflexivity | exists 4%nat; reflexivity ].

Lemma brainflow_cleanup_spec env w r w' :
  BrainFlow.cleanup env w = (r, w') ->
  exists d, trace w' = trace w ++ d /\
    cleanups d = 1%nat /\ dispatches d = [] /\ polls d = 0%nat /\
    connections d = 0%nat /\
    self w' = set_running false (self w) /\
    (exists k, teardown d = take k (brainflow_plan (self w))) /\
    match r with
    | Done _ => raises d = [] /\ teardown d = brainflow_plan (self w)
    | Raised e => raises d = [e] /\ exists R (c : call R), last d = Some (Called c (Raises e))
    | OutOfFuel => False
    end.
Proof.
  destruct w as [[[cfg board model] rc conn run] tr].
  unfold BrainFlow.cleanup. intros H.
  destruct board, model, conn; unfold_monad_in H; split_answers H;
    injection H as <- <-; cbn [self trace];
    (eexists; split; [ finish_trace | ]);
    cbn; repeat split; try reflexivity; try pick_prefix; eauto.
Qed.

Lemma emotiv_cleanup_spec env w r w' :
  Emotiv.cleanup env w = (r, w') ->
  exists d, trace w' = trace w ++ d /\
    cleanups d = 1%nat /\ dispatches d = [] /\ polls d = 0%nat /\
    connections d = 0%nat /\
    self w' = set_running false (self w) /\
    (exists k, teardown d = take k (emotiv_plan (self w))) /\
    match r with
    | Done _ => raises d = [] /\ teardown d = emotiv_plan (self w)
    | Raised e => raises d = [e] /\ exists R (c : call R), last d = Some (Called c (Raises e))
    | OutOfFuel => False
    end.
Proof.
  destruct w as [[[cfg cortex] rc conn run] tr].
  unfold Emotiv.cleanup. intros H.
  destruct cortex, conn; unfold_monad_in H; split_answers H;
    injection H as <- <-; cbn [self trace];
    (eexists; split; [ finish_trace | ]);
    cbn; repeat split; try reflexivity; try pick_prefix; eauto.
Qed.

(** C2, as the code has it: [cleanup] has no handler of its own.  Its
    teardown steps run until the first one raises; that exception is the
    last thing that happens and is the outcome of [cleanup], so the steps
    after it are not attempted.  Only when no step raises are all steps of
    the handles held attempted and does [cleanup] return. *)
Theorem cleanup_stops_at_first_failure :
  (forall env w,
     exists d, trace (snd (BrainFlow.cleanup env w)) = trace w ++ d /\
       match raises d with
       | [] => fst (BrainFlow.cleanup env w) = Done tt /\
               teardown d = brainflow_plan (self w)
       | e :: later =>
           later = [] /\ fst (BrainFlow.cleanup env w) = Raised e /\
           exists R (c : call R), last d = Some (Called c (Raises e))
       end) /\
  (forall env w,
     exists d, trace (snd (Emotiv.cleanup env w)) = trace w ++ d /\
       match raises d with
       | [] => fst (Emotiv.cleanup env w) = Done tt /\
               teardown d = emotiv_plan (self w)
       | e :: later =>
           later = [] /\ fst (Emotiv.cleanup env w) = Raised e /\
           exists R (c : call R), last d = Some (Called c (Raises e))
       end).
Proof.
  split; intros env w.
  - destruct (BrainFlow.cleanup env w) as [r w'] eqn:E.
    destruct (brainflow_cleanup_spec _ _ _ _ E) as (d & Ht & _ & _ & _ & _ & _ & _ & Hr).
    exists d. split; [ exact Ht | ]. cbn [fst].
    destruct r as [[] | e | ]; [ | | contradiction ].
    + destruct Hr as [-> Hp]. auto.
    + destruct Hr as [-> Hl]. auto.
  - destruct (Emotiv.cleanup env w) as [r w'] eqn:E.
    destruct (emotiv_cleanup_spec _ _ _ _ E) as (d & Ht & _ & _ & _ & _ & _ & _ & Hr).
    exists d. split; [ exact Ht | ]. cbn [fst].
    destruct r as [[] | e | ]; [ | | contradiction ].
    + destruct Hr as [-> Hp]. auto.
    + destruct Hr as [-> Hl]. auto.
Qed.

(** C2 fails as stated: when [stop_stream] raises, [cleanup] raises the
    same exception and none of release_session, model.release and
    disconnect is attempted. *)
Lemma cleanup_propagates_stop_stream_error :
  let env := failing is_stop_stream (Exception "stream is not running") (obliging 0.7) in
  fst (BrainFlow.cleanup env brainflow_ready) = Raised (Exception "stream is not running") /\
  teardown (trace (snd (BrainFlow.cleanup env brainflow_ready))) = [StopStreaming] /\
  brainflow_plan (self brainflow_ready)
    = [StopStreaming; CloseSession; ReleaseExtractor; DisconnectActuator].
Proof. vm_compute. auto. Qed.

(** C4, as the code has it: the steps [cleanup] attempts are an initial
    part of: stop streaming, close the session, release the feature
    extractor, disconnect the actuator (each only for a handle that is held;
    the Emotiv script has a session and an actuator only), and all of it when
    nothing raises. *)
Theorem cleanup_order :
  (forall env w,
     exists d k, trace (snd (BrainFlow.cleanup env w)) = trace w ++ d /\
       teardown d = take k (brainflow_plan (self w)) /\
       (raises d = [] -> teardown d = brainflow_plan (self w))) /\
  (forall env w,
     exists d k, trace (snd (Emotiv.cleanup env w)) = trace w ++ d /\
       teardown d = take k (emotiv_plan (self w)) /\
       (raises d = [] -> teardown d = emotiv_plan (self w))) /\
  brainflow_plan (self brainflow_ready)
    = [StopStreaming; CloseSession; ReleaseExtractor; DisconnectActuator] /\
  emotiv_plan (self emotiv_ready) = [CloseSession; DisconnectActuator].
Proof.
  split; [ | split; [ | split; reflexivity ] ]; intros env w.
  - destruct (BrainFlow.cleanup env w) as [r w'] eqn:E.
    destruct (brainflow_cleanup_spec _ _ _ _ E) as (d & Ht & _ & _ & _ & _ & _ & [k Hk] & Hr).
    exists d, k. repeat split; auto.
    destruct r as [[] | e | ]; [ tauto | | contradiction ].
    destruct Hr as [-> _]. discriminate.
  - destruct (Emotiv.cleanup env w) as [r w'] eqn:E.
    destruct (emotiv_cleanup_spec _ _ _ _ E) as (d & Ht & _ & _ & _ & _ & _ & [k Hk] & Hr).
    exists d, k. repeat split; auto.
    destruct r as [[] | e | ]; [ tauto | | contradiction ].
    destruct Hr as [-> _]. discriminate.
Qed.

(** C4 fails as stated: with every handle held and nothing raising, the
    session is closed (release_session) before the feature extractor is
    released (model.release), not after. *)
Lemma cleanup_closes_session_before_extractor :
  teardown (trace (snd (BrainFlow.cleanup (obliging 0.7) brainflow_ready)))
    = [StopStreaming; CloseSession; ReleaseExtractor; DisconnectActuator].
Proof. vm_compute. reflexivity. Qed.

(** ** The robot side *)

Lemma connections_app (a b : list event) :
  connections (a ++ b) = (connections a + connections b)%nat.
Proof. unfold connections. rewrite omap_app, length_app. reflexivity. Qed.

Lemma quiet_nil : quiet [].
Proof. repeat split. Qed.

Lemma quiet_app (a b : list event) : quiet a -> quiet b -> quiet (a ++ b).
Proof.
  intros (Ha & Ha' & Ha'') (Hb & Hb' & Hb''). unfold quiet.
  rewrite dispatches_app, cleanups_app, connections_app, Ha, Ha', Ha'', Hb, Hb', Hb''.
  repeat split.
Qed.

Lemma move_forward_spec {B} env (w : world (controller B)) r w' :
  robot_conn (self w) = true ->
  move_forward env w = (r, w') ->
  exists d, trace w' = trace w ++ d /\ self w' = self w /\
    cleanups d = 0%nat /\ connections d = 0%nat /\
    move_block (robot_config (self w)) (dispatches d) /\
    (raises d = [] ->
       r = Done tt /\
       dispatches d = [(SPORT_MOD, move_request (robot_config (self w))); (SPORT_MOD, stop_request)]) /\
    match r with
    | Done _ => True
    | Raised e => e = KeyboardInterrupt \/ e = CancelledError
    | OutOfFuel => False
    end.
Proof.
  destruct w as [[b rc conn run] tr]. cbn [self robot_conn]. intros -> H.
  unfold move_forward, publish in H. unfold_monad_in H. split_answers H;
    injection H as <- <-; cbn [self trace];
    (eexists; split; [ finish_trace | ]);
    cbn; unfold move_block; repeat split; auto; try discriminate;
    repeat match goal with u : unit |- _ => destruct u end; reflexivity.
Qed.

Lemma move_forward_unconnected {B} env (w : world (controller B)) :
  robot_conn (self w) = false ->
  exists d, trace (snd (move_forward env w)) = trace w ++ d /\
    self (snd (move_forward env w)) = self w /\ quiet d /\
    fst (move_forward env w) = Done tt.
Proof.
  destruct w as [[b rc conn run] tr]. cbn [self robot_conn]. intros ->.
  unfold move_forward, publish. unfold when, info, error, via.
  unfold bind, ret, raise, emit, get, try_except. cbn.
  eexists; split; [ finish_trace | ]. repeat split.
Qed.

Lemma move_forward_publishes {B} env (w : world (controller B)) d :
  robot_conn (self w) = true ->
  trace (snd (move_forward env w)) = trace w ++ d ->
  dispatches d = move_forward_dispatches env (robot_config (self w)) (trace w).
Proof.
  destruct w as [[b rc conn run] tr]. cbn [self robot_conn robot_config trace]. intros -> Ht.
  unfold move_forward_dispatches. cbv zeta.
  destruct (move_forward env _) as [r w'] eqn:H.
  unfold move_forward, publish in H. unfold_monad_in H. split_answers H;
    injection H as <- <-; cbn [snd trace] in Ht;
    repeat rewrite <- app_assoc in Ht; apply app_inv_head in Ht; subst d;
    repeat match goal with u : unit |- _ => destruct u end;
    unfold SPORT_MOD;
    repeat match goal with Heq : env _ _ _ = _ |- _ => try rewrite Heq; clear Heq end;
    reflexivity.
Qed.

Lemma setup_robot_spec {B} env (w : world (controller B)) r w' :
  setup_robot env w = (r, w') ->
  exists d, trace w' = trace w ++ d /\
    cleanups d = 0%nat /\
    bci (self w') = bci (self w) /\ robot_config (self w') = robot_config (self w) /\
    running (self w') = running (self w) /\
    (connections d <= 1)%nat /\
    dispatches d = repeat mode_dispatch (connections d) /\
    match r with
    | Done _ => robot_conn (self w') = true /\ connections d = 1%nat
    | Raised _ => True
    | OutOfFuel => False
    end.
Proof.
  destruct w as [[b rc conn run] tr]. intros H.
  unfold setup_robot, _set_motion_mode, publish in H. unfold_monad_in H. split_answers H;
    injection H as <- <-; cbn [self trace];
    (eexists; split; [ finish_trace | ]);
    cbn; repeat split; auto.
Qed.

(** ** Computations that leave the controller and the robot alone *)

Section Silent.
Context {St : Type}.

Lemma silent_ret {A} (a : A) : silent (ret a : M St A).
Proof.
  intros env w. exists []. cbn. rewrite app_nil_r. auto using quiet_nil.
Qed.

Lemma silent_raise {A} (e : exn) : silent (raise e : M St A).
Proof.
  intros env w. exists []. cbn. rewrite app_nil_r. auto using quiet_nil.
Qed.

Lemma silent_get : silent (get : M St St).
Proof.
  intros env w. exists []. cbn. rewrite app_nil_r. auto using quiet_nil.
Qed.

Lemma silent_log lvl msg arg : silent (emit (Logged lvl msg arg) : M St unit).
Proof.
  intros env w. eexists. cbn. split; [ reflexivity | ]. repeat split. discriminate.
Qed.

Lemma silent_ext {R} (c : call R) : quiet_call c = true -> silent (ext c : M St R).
Proof.
  intros Hc env w. unfold ext.
  exists [Called c (env (trace w) R c)].
  destruct (env (trace w) R c) as [x | e]; cbn [fst snd self trace];
    (split; [ reflexivity | ]); (split; [ reflexivity | ]);
    (split; [ | discriminate ]);
    destruct c; try discriminate Hc; repeat split.
Qed.

Lemma silent_via {R} (attr : St -> bool) (c : call R) :
  quiet_call c = true -> silent (via attr c).
Proof.
  intros Hc env w. unfold via. destruct (attr (self w)).
  - apply silent_ext, Hc.
  - apply silent_raise.
Qed.

Lemma silent_bind {A C} (m : M St A) (k : A -> M St C) :
  silent m -> (forall a, silent (k a)) -> silent (bind m k).
Proof.
  intros Hm Hk env w. unfold bind.
  destruct (Hm env w) as (d & Ht & Hs & Hq & Hf).
  destruct (m env w) as [[a | e | ] w1]; cbn [fst snd] in *.
  - destruct (Hk a env w1) as (d' & Ht' & Hs' & Hq' & Hf').
    exists (d ++ d'). rewrite Ht', Ht, Hs', Hs, app_assoc. auto using quiet_app.
  - exists d. repeat split; try apply Hq; auto; try discriminate.
  - contradiction.
Qed.

Lemma silent_try_except {A} (m : M St A) (h : string -> M St A) :
  silent m -> (forall msg, silent (h msg)) -> silent (try_except m h).
Proof.
  intros Hm Hh env w. unfold try_except.
  destruct (Hm env w) as (d & Ht & Hs & Hq & Hf).
  destruct (m env w) as [[a | [msg | | ] | ] w1]; cbn [fst snd] in *;
    try (exists d; repeat split; try apply Hq; auto; discriminate).
  destruct (Hh msg env w1) as (d' & Ht' & Hs' & Hq' & Hf').
  exists (d ++ d'). rewrite Ht', Ht, Hs', Hs, app_assoc. auto using quiet_app.
Qed.

Lemma silent_when (b : bool) (m : M St unit) : silent m -> silent (when b m).
Proof. destruct b; cbn; auto using silent_ret. Qed.

Lemma silent_for_range (body : nat -> M St unit) (n : nat) :
  (forall i, silent (body i)) -> forall start, silent (for_range start n body).
Proof.
  intros Hb. induction n as [ | n IH]; intros start; cbn [for_range].
  - apply silent_ret.
  - apply silent_bind; auto.
Qed.

End Silent.

Ltac silent_cases :=
  repeat first
    [ apply silent_bind | apply silent_try_except | apply silent_for_range
    | apply silent_when | apply silent_ret | apply silent_raise | apply silent_get
    | apply silent_log | apply silent_ext; reflexivity | apply silent_via; reflexivity
    | match goal with
      | |- silent (match ?x with _ => _ end) => destruct x
      | |- silent _ => fail 1
      | |- _ => intro
      end ].

Lemma quiet_steady cfg d : quiet d -> steady cfg d.
Proof. intros (H1 & H2 & H3). repeat split; auto. Qed.

Lemma quiet_steady_app cfg a b : quiet a -> steady cfg b -> steady cfg (a ++ b).
Proof.
  intros (Ha & Ha' & Ha'') (Hb & Hb' & Hb''). unfold steady.
  rewrite dispatches_app, cleanups_app, connections_app, Ha, Ha', Ha'', Hb, Hb'.
  repeat split. exact Hb''.
Qed.

Lemma steady_quiet_app cfg a b : steady cfg a -> quiet b -> steady cfg (a ++ b).
Proof.
  intros (Ha & Ha' & Ha'') (Hb & Hb' & Hb''). unfold steady.
  rewrite dispatches_app, cleanups_app, connections_app, Ha, Ha', Hb, Hb', Hb'', app_nil_r.
  repeat split. exact Ha''.
Qed.

(** ** The BrainFlow controller *)

Lemma brainflow_poll_silent : silent BrainFlow.poll.
Proof. unfold BrainFlow.poll. silent_cases. Qed.

Lemma brainflow_compute_score_silent data : silent (BrainFlow.compute_score data).
Proof. unfold BrainFlow.compute_score. silent_cases. Qed.

Lemma brainflow_process_brain_data_silent data : silent (BrainFlow.process_brain_data data).
Proof.
  unfold BrainFlow.process_brain_data, error.
  apply silent_try_except; [ apply brainflow_compute_score_silent | silent_cases ].
Qed.

Lemma brainflow_setup_bci_spec env w r w' :
  BrainFlow.setup_bci env w = (r, w') ->
  exists d, trace w' = trace w ++ d /\ quiet d /\
    BrainFlow.bci_config (bci (self w')) = BrainFlow.bci_config (bci (self w)) /\
    robot_config (self w') = robot_config (self w) /\
    robot_conn (self w') = robot_conn (self w) /\
    running (self w') = running (self w) /\
    match r with
    | Done _ => BrainFlow.board (bci (self w')) = true /\
                BrainFlow.concentration_model (bci (self w')) = true
    | Raised _ => True
    | OutOfFuel => False
    end.
Proof.
  destruct w as [[[cfg board model] rc conn run] tr]. intros H.
  unfold BrainFlow.setup_bci in H. unfold_monad_in H. split_answers H;
    injection H as <- <-; cbn [self trace];
    (eexists; split; [ finish_trace | ]);
    cbn; repeat split; auto.
Qed.

Lemma sleep_silent {St} (seconds : float) : silent (ext (sleep seconds) : M St unit).
Proof. apply silent_ext. reflexivity. Qed.

Ltac four_parts := split; [ | split; [ | split ] ].

Lemma brainflow_cycle_spec env w r w' :
  robot_conn (self w) = true ->
  BrainFlow.cycle env w = (r, w') ->
  exists d, trace w' = trace w ++ d /\ self w' = self w /\
    steady (robot_config (self w)) d /\ r <> OutOfFuel.
Proof.
  intros Hconn H. unfold BrainFlow.cycle in H. unfold bind at 1 in H.
  destruct (brainflow_poll_silent env w) as (d0 & Ht0 & Hs0 & Hq0 & Hf0).
  destruct (BrainFlow.poll env w) as [[data | e | ] w0]; cbn [fst snd] in *;
    [ | injection H as <- <-; exists d0; four_parts; auto using quiet_steady; discriminate
      | contradiction ].
  unfold bind at 1 in H.
  assert (Hw : exists d1, trace w' = trace w0 ++ d1 /\ self w' = self w0 /\
                 steady (robot_config (self w)) d1 /\ r <> OutOfFuel).
  { destruct (0 <? size data)%nat; cbn [when] in H.
    - unfold bind at 1 in H.
      destruct (brainflow_process_brain_data_silent data env w0) as (d1 & Ht1 & Hs1 & Hq1 & Hf1).
      destruct (BrainFlow.process_brain_data data env w0) as [[s | e | ] w1]; cbn [fst snd] in *;
        [ | injection H as <- <-; exists d1; four_parts; auto using quiet_steady; discriminate
          | contradiction ].
      unfold bind at 1, get at 1 in H. cbn beta iota in H.
      match type of H with context [when ?c _] => destruct c end; cbn [when] in H.
      + unfold bind at 1, info at 1, emit at 1 in H. cbn beta iota in H. cbn [self trace] in H.
        match type of H with
        | context [move_forward env ?w2] =>
            destruct (move_forward env w2) as [r2 w3] eqn:E2;
            apply move_forward_spec in E2; [ | cbn [self]; rewrite Hs1, Hs0; exact Hconn ]
        end.
        destruct E2 as (d2 & Ht2 & Hs2 & Hc2 & Hn2 & Hb2 & _ & Hr2). cbn [self trace] in *.
        assert (Hsteady : steady (robot_config (self w))
                  (d1 ++ [Logged INFO "High concentration detected: " (arg_float s)] ++ d2)).
        { apply quiet_steady_app; [ exact Hq1 | ].
          apply quiet_steady_app; [ repeat split | ].
          repeat split; auto. right. rewrite <- Hs0, <- Hs1. exact Hb2. }
        assert (Htr : trace w3 = trace w0 ++
                  d1 ++ [Logged INFO "High concentration detected: " (arg_float s)] ++ d2).
        { rewrite Ht2, Ht1. rewrite <- !app_assoc. reflexivity. }
        destruct r2 as [[] | e | ]; [ | | contradiction ].
        * destruct (sleep_silent 0.1 env w3) as (d3 & Ht3 & Hs3 & Hq3 & Hf3).
          unfold bind in H.
          destruct (ext (sleep 0.1) env w3) as [[[] | e | ] w4]; cbn [fst snd] in *;
            try contradiction; injection H as <- <-;
            (exists ((d1 ++ [Logged INFO "High concentration detected: " (arg_float s)] ++ d2) ++ d3));
            (four_parts;
             [ rewrite Ht3, Htr, <- !app_assoc; reflexivity
             | congruence
             | apply steady_quiet_app; assumption
             | discriminate ]).
        * injection H as <- <-. eexists. four_parts;
            [ exact Htr | congruence | exact Hsteady | discriminate ].
      + unfold ret at 1 in H.
        destruct (sleep_silent 0.1 env w1) as (d3 & Ht3 & Hs3 & Hq3 & Hf3).
        unfold bind in H.
        destruct (ext (sleep 0.1) env w1) as [[[] | e | ] w4]; cbn [fst snd] in *;
          try contradiction; injection H as <- <-;
          (exists (d1 ++ d3));
          (four_parts;
           [ rewrite Ht3, Ht1, <- !app_assoc; reflexivity
           | congruence
           | apply quiet_steady, quiet_app; assumption
           | discriminate ]).
    - unfold ret at 1 in H.
      destruct (sleep_silent 0.1 env w0) as (d3 & Ht3 & Hs3 & Hq3 & Hf3).
      unfold bind in H.
      destruct (ext (sleep 0.1) env w0) as [[[] | e | ] w4]; cbn [fst snd] in *;
        try contradiction; injection H as <- <-;
        (exists d3);
        (four_parts; [ assumption | assumption | apply quiet_steady; assumption | discriminate ]). }
  destruct Hw as (d1 & Ht1 & Hs1 & Hq1 & Hf1).
  exists (d0 ++ d1). four_parts;
    [ rewrite Ht1, Ht0, <- app_assoc; reflexivity | congruence
    | apply quiet_steady_app; assumption | assumption ].
Qed.

(** ** The monitoring loop *)

Lemma move_blocks_app cfg a b : move_blocks cfg a -> move_blocks cfg b -> move_blocks cfg (a ++ b).
Proof.
  induction 1 as [ | blk ds Hb Hds IH]; intros Hb'; [ exact Hb' | ].
  rewrite <- app_assoc. constructor; auto.
Qed.

Lemma move_blocks_one cfg b : move_block cfg b -> move_blocks cfg b.
Proof. intros H. rewrite <- (app_nil_r b). constructor; [ exact H | constructor ]. Qed.

(** The loop never leaves by itself: every cycle leaves [running] as it is. *)
Lemma while_steady {B} (body : M (controller B) unit) :
  (forall env w r w',
     robot_conn (self w) = true -> body env w = (r, w') ->
     exists d, trace w' = trace w ++ d /\ self w' = self w /\
       steady (robot_config (self w)) d /\ r <> OutOfFuel) ->
  forall fuel env w r w',
    robot_conn (self w) = true ->
    while fuel running body env w = (r, w') ->
    exists d, trace w' = trace w ++ d /\ self w' = self w /\
      cleanups d = 0%nat /\ connections d = 0%nat /\
      move_blocks (robot_config (self w)) (dispatches d).
Proof.
  intros Hbody. induction fuel as [ | fuel IH]; intros env w r w' Hconn H.
  - cbn in H. exists []. rewrite app_nil_r.
    destruct (running (self w)); injection H as <- <-; repeat split; constructor.
  - cbn [while] in H. unfold bind at 1, get at 1 in H.
    destruct (running (self w)).
    + unfold bind in H.
      destruct (body env w) as [rb wb] eqn:Eb.
      destruct (Hbody _ _ _ _ Hconn Eb) as (d & Ht & Hs & (Hc & Hn & Hd) & Hf).
      assert (Hblk : move_blocks (robot_config (self w)) (dispatches d)).
      { destruct Hd as [-> | Hd]; [ constructor | apply move_blocks_one, Hd ]. }
      destruct rb as [[] | e | ]; [ | | contradiction ].
      * assert (Hconn' : robot_conn (self wb) = true) by (rewrite Hs; exact Hconn).
        destruct (IH _ _ _ _ Hconn' H) as (d' & Ht' & Hs' & Hc' & Hn' & Hd').
        exists (d ++ d'). rewrite Ht', Ht, Hs', Hs, <- app_assoc.
        rewrite cleanups_app, connections_app, dispatches_app, Hc, Hc', Hn, Hn'.
        rewrite Hs in Hd'. repeat split. apply move_blocks_app; assumption.
      * injection H as <- <-. exists d. repeat split; assumption.
    + cbn in H. injection H as <- <-. exists []. rewrite app_nil_r.
      repeat split; constructor.
Qed.

Lemma quiet_protocol cfg d : quiet d -> protocol cfg d.
Proof.
  intros (Hd & _ & Hn). unfold protocol. rewrite Hn, Hd. split; [ lia | ].
  exists []. repeat split. constructor.
Qed.

Lemma protocol_mute_app cfg a b :
  protocol cfg a -> dispatches b = [] -> connections b = 0%nat -> protocol cfg (a ++ b).
Proof.
  intros (Hle & bl & Hd & Hb & H0) Hd' Hn'. unfold protocol.
  rewrite connections_app, dispatches_app, Hd', Hn', app_nil_r, Nat.add_0_r.
  split; [ exact Hle | ]. exists bl. auto.
Qed.

Lemma protocol_quiet_app cfg a b : protocol cfg a -> quiet b -> protocol cfg (a ++ b).
Proof. intros Ha (Hd & _ & Hn). apply protocol_mute_app; assumption. Qed.

Lemma quiet_protocol_app cfg a b : quiet a -> protocol cfg b -> protocol cfg (a ++ b).
Proof.
  intros (Hd' & _ & Hn') (Hle & bl & Hd & Hb & H0). unfold protocol.
  rewrite connections_app, dispatches_app, Hd', Hn'. cbn [app Nat.add].
  split; [ exact Hle | ]. exists bl. auto.
Qed.

Lemma protocol_blocks_app cfg a b :
  protocol cfg a -> connections a = 1%nat -> connections b = 0%nat ->
  move_blocks cfg (dispatches b) -> protocol cfg (a ++ b).
Proof.
  intros (Hle & bl & Hd & Hb & H0) Ha Hn Hblk. unfold protocol.
  rewrite connections_app, dispatches_app, Hn, Nat.add_0_r, Hd.
  split; [ exact Hle | ]. exists (bl ++ dispatches b).
  rewrite app_assoc. split; [ reflexivity | ]. split.
  - apply move_blocks_app; assumption.
  - rewrite Ha. discriminate.
Qed.

(** ** The lifecycle both scripts share

    [run] is: set up the source, set up the robot, monitor, with a handler
    that logs and a [finally] that cleans up; [main] constructs the
    controller and wraps [run] in a second [finally]. *)

Section Lifecycle.
Context {F : Type}.
Variable construct : M (controller F) unit.
Variable setup_source : M (controller F) unit.
Variable monitor : nat -> M (controller F) unit.
Variable teardown : M (controller F) unit.

Hypothesis construct_spec :
  forall env w r w', construct env w = (r, w') ->
    exists d, trace w' = trace w ++ d /\ quiet d /\
      robot_config (self w') = robot_config (self w) /\ r <> OutOfFuel.

Hypothesis setup_source_spec :
  forall env w r w', setup_source env w = (r, w') ->
    exists d, trace w' = trace w ++ d /\ quiet d /\
      robot_config (self w') = robot_config (self w) /\ r <> OutOfFuel.

Hypothesis monitor_spec :
  forall fuel env w r w',
    robot_conn (self w) = true -> monitor fuel env w = (r, w') ->
    exists d, trace w' = trace w ++ d /\ cleanups d = 0%nat /\ connections d = 0%nat /\
      move_blocks (robot_config (self w)) (dispatches d) /\
      robot_config (self w') = robot_config (self w).

Hypothesis teardown_spec :
  forall env w r w', teardown env w = (r, w') ->
    exists d, trace w' = trace w ++ d /\ cleanups d = 1%nat /\
      dispatches d = [] /\ connections d = 0%nat /\
      robot_config (self w') = robot_config (self w) /\ r <> OutOfFuel.

Lemma lifecycle_session_spec fuel env w r w' :
  lifecycle_session setup_source monitor fuel env w = (r, w') ->
  exists d, trace w' = trace w ++ d /\ cleanups d = 0%nat /\
    protocol (robot_config (self w)) d /\
    robot_config (self w') = robot_config (self w).
Proof.
  intros H. unfold lifecycle_session in H. unfold bind at 1 in H.
  destruct (setup_source env w) as [r1 w1] eqn:E1.
  destruct (setup_source_spec _ _ _ _ E1) as (d1 & Ht1 & Hq1 & Hrc1 & Hr1).
  destruct r1 as [[] | e | ]; [ | | contradiction ];
    [ | injection H as <- <-; exists d1;
        (four_parts; [ assumption | apply Hq1 | apply quiet_protocol, Hq1 | congruence ]) ].
  unfold bind at 1 in H.
  destruct (setup_robot env w1) as [r2 w2] eqn:E2.
  destruct (setup_robot_spec _ _ _ _ E2) as (d2 & Ht2 & Hc2 & _ & Hrc2 & _ & Hle2 & Hd2 & Hr2).
  assert (Hp2 : protocol (robot_config (self w)) d2).
  { split; [ exact Hle2 | ]. exists []. rewrite app_nil_r.
    split; [ exact Hd2 | ]. split; [ constructor | reflexivity ]. }
  assert (Hp12 : protocol (robot_config (self w)) (d1 ++ d2))
    by (apply quiet_protocol_app; assumption).
  assert (Hc12 : cleanups (d1 ++ d2) = 0%nat).
  { rewrite cleanups_app, Hc2. destruct Hq1 as (_ & -> & _). reflexivity. }
  assert (Ht12 : trace w2 = trace w ++ d1 ++ d2) by (rewrite Ht2, Ht1, app_assoc; reflexivity).
  destruct r2 as [[] | e | ]; [ | | contradiction ];
    [ | injection H as <- <-; exists (d1 ++ d2);
        (four_parts; [ assumption | assumption | assumption | congruence ]) ].
  destruct Hr2 as [Hconn2 Hn2].
  destruct (monitor_spec _ _ _ _ _ Hconn2 H) as (d3 & Ht3 & Hc3 & Hn3 & Hd3 & Hrc3).
  exists ((d1 ++ d2) ++ d3).
  split; [ rewrite Ht3, Ht12, <- !app_assoc; reflexivity | ].
  split; [ rewrite cleanups_app, Hc12, Hc3; reflexivity | ].
  split; [ | congruence ].
  apply protocol_blocks_app.
  - assumption.
  - rewrite connections_app. destruct Hq1 as (_ & _ & ->). rewrite Hn2. reflexivity.
  - exact Hn3.
  - rewrite <- Hrc1, <- Hrc2. exact Hd3.
Qed.

(** [teardown] after anything that kept to the protocol and has not
    cleaned up [n] times yet. *)
Lemma lifecycle_teardown_after env (w w1 : world (controller F)) d0 n r2 w2 :
  trace w1 = trace w ++ d0 -> cleanups d0 = n ->
  protocol (robot_config (self w)) d0 ->
  robot_config (self w1) = robot_config (self w) ->
  teardown env w1 = (r2, w2) ->
  r2 <> OutOfFuel /\
  exists d, trace w2 = trace w ++ d /\
    protocol (robot_config (self w)) d /\
    robot_config (self w2) = robot_config (self w) /\
    cleanups d = S n.
Proof.
  intros Ht0 Hc0 Hp0 Hrc0 Ec.
  destruct (teardown_spec _ _ _ _ Ec) as (d2 & Ht2 & Hc2 & Hd2 & Hn2 & Hrc2 & Hr2).
  split; [ exact Hr2 | ].
  exists (d0 ++ d2). four_parts.
  - rewrite Ht2, Ht0, app_assoc. reflexivity.
  - apply protocol_mute_app; assumption.
  - congruence.
  - rewrite cleanups_app, Hc0, Hc2. lia.
Qed.

Lemma lifecycle_run_spec fuel env w r w' :
  lifecycle_run setup_source monitor teardown fuel env w = (r, w') ->
  exists d, trace w' = trace w ++ d /\
    protocol (robot_config (self w)) d /\
    robot_config (self w') = robot_config (self w) /\
    cleanups d = cleanups_due r 1.
Proof.
  intros H. unfold lifecycle_run, try_finally, try_except in H.
  destruct (lifecycle_session setup_source monitor fuel env w) as [rs ws] eqn:Es.
  apply lifecycle_session_spec in Es. destruct Es as (d1 & Ht1 & Hc1 & Hp1 & Hrc1).
  destruct rs as [[] | [msg | | ] | ].
  - destruct (teardown env ws) as [r2 w2] eqn:Ec.
    destruct (lifecycle_teardown_after _ _ _ _ _ _ _ Ht1 Hc1 Hp1 Hrc1 Ec)
      as (Hne & d & Ht & Hp & Hrc & Hc).
    exists d. destruct r2 as [[] | e | ]; try contradiction;
      injection H as <- <-; auto.
  - unfold error, emit in H. cbn [self trace] in H.
    match type of H with
    | context [teardown env ?w1] =>
        destruct (teardown env w1) as [r2 w2] eqn:Ec;
        apply (lifecycle_teardown_after env w w1
                 (d1 ++ [Logged ERROR "Runtime error: " (arg_str msg)]) 0) in Ec
    end.
    + destruct Ec as (Hne & d & Ht & Hp & Hrc & Hc).
      exists d. destruct r2 as [[] | e | ]; try contradiction;
        injection H as <- <-; auto.
    + cbn [trace]. rewrite Ht1, app_assoc. reflexivity.
    + rewrite cleanups_app, Hc1. reflexivity.
    + apply protocol_quiet_app; [ assumption | repeat split ].
    + exact Hrc1.
  - destruct (teardown env ws) as [r2 w2] eqn:Ec.
    destruct (lifecycle_teardown_after _ _ _ _ _ _ _ Ht1 Hc1 Hp1 Hrc1 Ec)
      as (Hne & d & Ht & Hp & Hrc & Hc).
    exists d. destruct r2 as [[] | e | ]; try contradiction;
      injection H as <- <-; auto.
  - destruct (teardown env ws) as [r2 w2] eqn:Ec.
    destruct (lifecycle_teardown_after _ _ _ _ _ _ _ Ht1 Hc1 Hp1 Hrc1 Ec)
      as (Hne & d & Ht & Hp & Hrc & Hc).
    exists d. destruct r2 as [[] | e | ]; try contradiction;
      injection H as <- <-; auto.
  - injection H as <- <-. exists d1. auto.
Qed.

Lemma lifecycle_program_spec fuel env w r w' :
  lifecycle_program construct setup_source monitor teardown fuel env w = (r, w') ->
  exists d, trace w' = trace w ++ d /\
    protocol (robot_config (self w)) d /\
    cleanups d = match fst (construct env w) with
                 | Done _ => cleanups_due r 2
                 | _ => 0%nat
                 end.
Proof.
  intros H. unfold lifecycle_program in H. unfold bind at 1 in H.
  destruct (construct env w) as [r0 w0] eqn:E0. cbn [fst].
  destruct (construct_spec _ _ _ _ E0) as (d0 & Ht0 & Hq0 & Hrc0 & Hr0).
  destruct r0 as [[] | e0 | ]; [ | | contradiction ];
    [ | injection H as <- <-; exists d0; split; [ assumption | ];
        split; [ apply quiet_protocol, Hq0 | apply Hq0 ] ].
  unfold try_finally, try_except_interrupt in H.
  destruct (lifecycle_run setup_source monitor teardown fuel env w0) as [rs ws] eqn:Er.
  destruct (lifecycle_run_spec _ _ _ _ _ Er) as (d1 & Ht1 & Hp1 & Hrc1 & Hc1).
  rewrite Hrc0 in Hp1.
  assert (Hp01 : protocol (robot_config (self w)) (d0 ++ d1))
    by (apply quiet_protocol_app; assumption).
  assert (Ht01 : trace ws = trace w ++ d0 ++ d1)
    by (rewrite Ht1, Ht0, app_assoc; reflexivity).
  assert (Hc01 : cleanups (d0 ++ d1) = cleanups_due rs 1).
  { rewrite cleanups_app, Hc1. destruct Hq0 as (_ & -> & _). reflexivity. }
  assert (Hrc01 : robot_config (self ws) = robot_config (self w)) by congruence.
  destruct rs as [[] | [msg | | ] | ]; cbn [cleanups_due] in Hc01.
  - destruct (teardown env ws) as [r2 w2] eqn:Ec.
    destruct (lifecycle_teardown_after _ _ _ _ _ _ _ Ht01 Hc01 Hp01 Hrc01 Ec)
      as (Hne & d & Ht & Hp & Hrc & Hc).
    exists d. destruct r2 as [[] | e | ]; try contradiction; injection H as <- <-; auto.
  - destruct (teardown env ws) as [r2 w2] eqn:Ec.
    destruct (lifecycle_teardown_after _ _ _ _ _ _ _ Ht01 Hc01 Hp01 Hrc01 Ec)
      as (Hne & d & Ht & Hp & Hrc & Hc).
    exists d. destruct r2 as [[] | e | ]; try contradiction; injection H as <- <-; auto.
  - unfold emit in H. cbn [self trace] in H.
    match type of H with
    | context [teardown env ?w1] =>
        destruct (teardown env w1) as [r2 w2] eqn:Ec;
        apply (lifecycle_teardown_after env w w1
                 ((d0 ++ d1) ++ [Printed interrupt_notice]) 1) in Ec
    end.
    + destruct Ec as (Hne & d & Ht & Hp & Hrc & Hc).
      exists d. destruct r2 as [[] | e | ]; try contradiction; injection H as <- <-; auto.
    + cbn [trace]. rewrite Ht01, <- !app_assoc. reflexivity.
    + rewrite cleanups_app, Hc01. reflexivity.
    + apply protocol_quiet_app; [ assumption | repeat split ].
    + exact Hrc01.
  - destruct (teardown env ws) as [r2 w2] eqn:Ec.
    destruct (lifecycle_teardown_after _ _ _ _ _ _ _ Ht01 Hc01 Hp01 Hrc01 Ec)
      as (Hne & d & Ht & Hp & Hrc & Hc).
    exists d. destruct r2 as [[] | e | ]; try contradiction; injection H as <- <-; auto.
  - injection H as <- <-. exists (d0 ++ d1). auto.
Qed.

End Lifecycle.

(** ** One cycle of the BrainFlow loop *)

Lemma brainflow_process_brain_data_error env w data msg :
  fst (BrainFlow.compute_score data env w) = Raised (Exception msg) ->
  BrainFlow.process_brain_data data env w =
    (Done 0%float,
     World (self (snd (BrainFlow.compute_score data env w)))
           (trace (snd (BrainFlow.compute_score data env w)) ++
            [Logged ERROR "Error processing brain data: " (arg_str msg)])).
Proof.
  intros H. unfold BrainFlow.process_brain_data, try_except.
  destruct (BrainFlow.compute_score data env w) as [r w1]. cbn [fst snd] in *. subst r.
  reflexivity.
Qed.

Lemma brainflow_cycle_unfold env w data s :
  fst (BrainFlow.poll env w) = Done data ->
  (0 < size data)%nat ->
  fst (BrainFlow.process_brain_data data env (snd (BrainFlow.poll env w))) = Done s ->
  BrainFlow.cycle env w =
    (if (BrainFlow.command_threshold (BrainFlow.bci_config (bci (self w))) <=? s)%float
     then (info "High concentration detected: " (arg_float s) ;; move_forward) ;;
          ext (sleep 0.1)
     else ext (sleep 0.1))
      env (snd (BrainFlow.process_brain_data data env (snd (BrainFlow.poll env w)))).
Proof.
  intros Hp Hsz Hs. unfold BrainFlow.cycle. unfold bind at 1.
  destruct (brainflow_poll_silent env w) as (d0 & _ & Hs0 & _).
  destruct (BrainFlow.poll env w) as [r0 w0]. cbn [fst snd] in *. subst r0.
  apply Nat.ltb_lt in Hsz. rewrite Hsz. cbn [when].
  unfold bind at 1. unfold bind at 1.
  destruct (brainflow_process_brain_data_silent data env w0) as (d1 & _ & Hs1 & _).
  destruct (BrainFlow.process_brain_data data env w0) as [r1 w1]. cbn [fst snd] in *. subst r1.
  unfold bind at 1, get at 1. rewrite Hs1, Hs0.
  destruct (BrainFlow.command_threshold (BrainFlow.bci_config (bci (self w))) <=? s)%float;
    cbn [when].
  - reflexivity.
  - reflexivity.
Qed.

Lemma brainflow_cycle_below env w data s :
  fst (BrainFlow.poll env w) = Done data ->
  (0 < size data)%nat ->
  fst (BrainFlow.process_brain_data data env (snd (BrainFlow.poll env w))) = Done s ->
  (BrainFlow.command_threshold (BrainFlow.bci_config (bci (self w))) <=? s)%float = false ->
  exists d, trace (snd (BrainFlow.cycle env w)) = trace w ++ d /\ dispatches d = [].
Proof.
  intros Hp Hsz Hs Hthr. rewrite (brainflow_cycle_unfold _ _ _ _ Hp Hsz Hs), Hthr.
  destruct (brainflow_poll_silent env w) as (d0 & Ht0 & _ & (Hd0 & _) & _).
  destruct (brainflow_process_brain_data_silent data env (snd (BrainFlow.poll env w)))
    as (d1 & Ht1 & _ & (Hd1 & _) & _).
  match goal with
  | |- context [ext (sleep ?t) env ?w1] =>
      destruct (sleep_silent t env w1) as (d2 & Ht2 & _ & (Hd2 & _) & _)
  end.
  exists (d0 ++ d1 ++ d2). split.
  - rewrite Ht2, Ht1, Ht0, <- !app_assoc. reflexivity.
  - rewrite !dispatches_app, Hd0, Hd1, Hd2. reflexivity.
Qed.

Lemma brainflow_cycle_trigger env w data s :
  robot_conn (self w) = true ->
  fst (BrainFlow.poll env w) = Done data ->
  (0 < size data)%nat ->
  fst (BrainFlow.process_brain_data data env (snd (BrainFlow.poll env w))) = Done s ->
  (BrainFlow.command_threshold (BrainFlow.bci_config (bci (self w))) <=? s)%float = true ->
  exists d, trace (snd (BrainFlow.cycle env w)) = trace w ++ d /\
    dispatches d =
      move_forward_dispatches env (robot_config (self w))
        (trace (snd (BrainFlow.process_brain_data data env (snd (BrainFlow.poll env w)))) ++
         [Logged INFO "High concentration detected: " (arg_float s)]) /\
    move_block (robot_config (self w)) (dispatches d) /\
    (raises d = [] ->
     dispatches d = [(SPORT_MOD, move_request (robot_config (self w))); (SPORT_MOD, stop_request)]).
Proof.
  intros Hconn Hp Hsz Hs Hthr. rewrite (brainflow_cycle_unfold _ _ _ _ Hp Hsz Hs), Hthr.
  destruct (brainflow_poll_silent env w) as (d0 & Ht0 & Hs0 & (Hd0 & _) & _).
  destruct (brainflow_process_brain_data_silent data env (snd (BrainFlow.poll env w)))
    as (d1 & Ht1 & Hs1 & (Hd1 & _) & _).
  set (w1 := snd (BrainFlow.process_brain_data data env (snd (BrainFlow.poll env w)))) in *.
  unfold bind at 1. unfold bind at 1, info at 1, emit at 1. cbn [self trace].
  set (hi := Logged INFO "High concentration detected: " (arg_float s)).
  assert (Hconn1 : robot_conn (self (World (self w1) (trace w1 ++ [hi]))) = true)
    by (cbn [self]; rewrite Hs1, Hs0; exact Hconn).
  pose proof (fun d => move_forward_publishes env (World (self w1) (trace w1 ++ [hi])) d Hconn1)
    as Hpub.
  destruct (move_forward env (World (self w1) (trace w1 ++ [hi]))) as [r2 w2] eqn:E2.
  apply move_forward_spec in E2; [ | exact Hconn1 ].
  destruct E2 as (d2 & Ht2 & Hs2 & _ & _ & Hb2 & Hok2 & Hr2). cbn [self trace snd] in *.
  specialize (Hpub d2 Ht2). rewrite Hs1, Hs0 in Hpub.
  rewrite Hs1, Hs0 in Hb2, Hok2.
  assert (Hfront : forall dz (w3 : world (controller BrainFlow.fields)),
            trace w3 = trace w2 ++ dz -> dispatches dz = [] ->
            exists d, trace w3 = trace w ++ d /\
              dispatches d =
                move_forward_dispatches env (robot_config (self w)) (trace w1 ++ [hi]) /\
              move_block (robot_config (self w)) (dispatches d) /\
              (raises d = [] ->
               dispatches d = [(SPORT_MOD, move_request (robot_config (self w)));
                               (SPORT_MOD, stop_request)])).
  { intros dz w3 Ht3 Hdz. exists (d0 ++ d1 ++ [hi] ++ d2 ++ dz). split; [ | split; [ | split ] ].
    - rewrite Ht3, Ht2, Ht1, Ht0, <- !app_assoc. reflexivity.
    - rewrite !dispatches_app, Hd0, Hd1, Hdz, app_nil_r. exact Hpub.
    - rewrite !dispatches_app, Hd0, Hd1, Hdz, app_nil_r. exact Hb2.
    - rewrite !raises_app, !dispatches_app, Hd0, Hd1, Hdz, app_nil_r. intros Hno.
      apply Hok2. apply app_eq_nil in Hno as [_ Hno]. apply app_eq_nil in Hno as [_ Hno].
      apply app_eq_nil in Hno as [_ Hno]. apply app_eq_nil in Hno as [Hno _]. exact Hno. }
  destruct r2 as [[] | e | ]; [ | | contradiction ].
  - destruct (sleep_silent 0.1 env w2) as (d3 & Ht3 & _ & (Hd3 & _) & _).
    apply (Hfront d3); assumption.
  - cbn [snd]. apply (Hfront []); [ rewrite app_nil_r | ]; reflexivity.
Qed.

(** ** The event-driven controller *)

Lemma move_forward_extends {B} env (w : world (controller B)) :
  exists d, trace (snd (move_forward env w)) = trace w ++ d /\
    self (snd (move_forward env w)) = self w /\
    cleanups d = 0%nat /\ connections d = 0%nat /\
    (dispatches d = [] \/ move_block (robot_config (self w)) (dispatches d)) /\
    fst (move_forward env w) <> OutOfFuel.
Proof.
  destruct (robot_conn (self w)) eqn:Hc.
  - destruct (move_forward env w) as [r w'] eqn:E.
    destruct (move_forward_spec _ _ _ _ Hc E) as (d & Ht & Hs & Hcl & Hn & Hb & _ & Hr).
    exists d. cbn [fst snd]. repeat split; auto. destruct r; try discriminate. contradiction.
  - destruct (move_forward_unconnected env w Hc) as (d & Ht & Hs & (Hd & Hcl & Hn) & Hr).
    exists d. repeat split; auto. rewrite Hr. discriminate.
Qed.

Lemma emotiv_process_unfold env w mental_command_data :
  Emotiv.process_mental_commands mental_command_data env w =
    if Emotiv.falsy mental_command_data then (Done tt, w) else
    let ev : gmap string pyval := default ∅ mental_command_data in
    let power := default (PyInt 0) (ev !! "power") in
    if py_eq_str (default PyNone (ev !! "command")) "push" then
      match py_ge power (Emotiv.command_threshold (Emotiv.bci_config (bci (self w)))) with
      | Returns true => move_forward env (World (self w) (trace w ++ [push_log power]))
      | Returns false => (Done tt, w)
      | Raises e => (Raised e, w)
      end
    else (Done tt, w).
Proof.
  unfold Emotiv.process_mental_commands.
  destruct (Emotiv.falsy mental_command_data); [ reflexivity | ].
  cbv zeta. unfold bind at 1, get at 1. unfold bind at 1.
  destruct (py_eq_str (default PyNone (default ∅ mental_command_data !! "command")) "push").
  - destruct (py_ge _ _) as [[ | ] | e]; reflexivity.
  - reflexivity.
Qed.

Lemma py_eq_str_true v s : py_eq_str v s = true -> v = PyStr s.
Proof.
  destruct v; cbn; try discriminate. intros H. apply String.eqb_eq in H. congruence.
Qed.

Lemma py_eq_str_push (ev : gmap string pyval) :
  py_eq_str (default PyNone (ev !! "command")) "push" = true ->
  ev !! "command" = Some (PyStr "push").
Proof.
  intros H. apply py_eq_str_true in H.
  destruct (ev !! "command") as [v | ]; cbn in H; [ congruence | discriminate ].
Qed.

(** C10: [process_mental_commands] publishes something only for an event
    whose command is 'push' and whose power (0 without a power field) is at
    least the threshold; a None or empty event leaves no trace at all, an
    event with another command publishes nothing, and neither does an event
    without a power field when the threshold is positive. *)
Theorem push_only_above_threshold :
  forall env (w : world Emotiv.BCIRobotController) mental_command_data,
    let threshold := Emotiv.command_threshold (Emotiv.bci_config (bci (self w))) in
    exists d,
      trace (snd (Emotiv.process_mental_commands mental_command_data env w)) = trace w ++ d /\
      (dispatches d <> [] ->
       exists ev : gmap string pyval,
         mental_command_data = Some ev /\
         ev !! "command" = Some (PyStr "push") /\
         py_ge (default (PyInt 0) (ev !! "power")) threshold = Returns true) /\
      (mental_command_data = None \/ mental_command_data = Some ∅ -> d = []) /\
      (forall ev : gmap string pyval,
         mental_command_data = Some ev ->
         ev !! "command" <> Some (PyStr "push") -> dispatches d = []) /\
      (forall ev : gmap string pyval,
         mental_command_data = Some ev ->
         ev !! "power" = None -> (0 <? threshold)%float = true -> dispatches d = []).
Proof.
  intros env w mcd threshold. rewrite emotiv_process_unfold.
  destruct (Emotiv.falsy mcd) eqn:Hf.
  { exists []. cbn [snd]. rewrite app_nil_r. split; [ reflexivity | ].
    split; [ intros H; contradiction H; reflexivity | repeat split; auto ]. }
  destruct mcd as [ev | ]; [ | discriminate Hf ].
  change (default (∅ : gmap string pyval) (Some ev)) with ev. cbv zeta.
  assert (Hne : ev <> ∅).
  { cbn in Hf. apply bool_decide_eq_false in Hf. exact Hf. }
  destruct (py_eq_str (default PyNone (ev !! "command")) "push") eqn:Hcmd.
  - apply py_eq_str_push in Hcmd.
    fold threshold.
    destruct (py_ge (default (PyInt 0) (ev !! "power")) threshold) as [[ | ] | e] eqn:Hge.
    + destruct (move_forward_extends env
                  (World (self w) (trace w ++ [push_log (default (PyInt 0) (ev !! "power"))])))
        as (d & Ht & _).
      cbn [trace] in Ht. eexists. split; [ rewrite Ht, <- app_assoc; reflexivity | ].
      split; [ | split; [ | split ] ].
      * intros _. exists ev. auto.
      * intros [H | H]; [ discriminate H | ]. injection H as ->. contradiction.
      * intros ev' [= <-] Hno. contradiction.
      * intros ev' [= <-] Hnone Hpos. rewrite Hnone in Hge. cbn in Hge.
        rewrite (int_zero_below_positive _ Hpos) in Hge. discriminate Hge.
    + exists []. cbn [snd]. rewrite app_nil_r. split; [ reflexivity | ].
      split; [ intros H; contradiction H; reflexivity | repeat split; auto ].
    + exists []. cbn [snd]. rewrite app_nil_r. split; [ reflexivity | ].
      split; [ intros H; contradiction H; reflexivity | repeat split; auto ].
  - exists []. cbn [snd]. rewrite app_nil_r. split; [ reflexivity | ].
    split; [ intros H; contradiction H; reflexivity | repeat split; auto ].
Qed.

Lemma emotiv_push_trigger env (w : world Emotiv.BCIRobotController) (ev : gmap string pyval) :
  robot_conn (self w) = true ->
  ev !! "command" = Some (PyStr "push") ->
  py_ge (default (PyInt 0) (ev !! "power"))
        (Emotiv.command_threshold (Emotiv.bci_config (bci (self w)))) = Returns true ->
  exists d,
    trace (snd (Emotiv.process_mental_commands (Some ev) env w)) = trace w ++ d /\
    dispatches d =
      move_forward_dispatches env (robot_config (self w))
        (trace w ++ [push_log (default (PyInt 0) (ev !! "power"))]) /\
    move_block (robot_config (self w)) (dispatches d) /\
    (raises d = [] ->
     dispatches d = [(SPORT_MOD, move_request (robot_config (self w))); (SPORT_MOD, stop_request)]).
Proof.
  intros Hconn Hcmd Hge. rewrite emotiv_process_unfold.
  assert (Hf : Emotiv.falsy (Some ev) = false).
  { cbn. apply bool_decide_eq_false. intros ->. rewrite lookup_empty in Hcmd. discriminate. }
  rewrite Hf. change (default (∅ : gmap string pyval) (Some ev)) with ev. cbv zeta.
  rewrite Hcmd. cbn [default from_option id py_eq_str String.eqb Ascii.eqb Bool.eqb].
  cbn [default from_option id] in Hge. rewrite Hge.
  match goal with
  | |- context [move_forward env ?w1] =>
      pose proof (fun d => move_forward_publishes env w1 d Hconn) as Hpub;
      destruct (move_forward env w1) as [r w'] eqn:E;
      apply move_forward_spec in E; [ | exact Hconn ]
  end.
  destruct E as (d & Ht & _ & _ & _ & Hb & Hok & _). cbn [self trace snd] in *.
  specialize (Hpub d Ht).
  eexists. split; [ rewrite Ht, <- app_assoc; reflexivity | ].
  rewrite dispatches_app, raises_app. cbn [app]. split; [ exact Hpub | ]. split; [ exact Hb | ].
  intros Hno. apply Hok. apply app_eq_nil in Hno as [_ Hno]. exact Hno.
Qed.

Lemma emotiv_push_below env (w : world Emotiv.BCIRobotController) (ev : gmap string pyval) :
  py_ge (default (PyInt 0) (ev !! "power"))
        (Emotiv.command_threshold (Emotiv.bci_config (bci (self w)))) = Returns false ->
  exists d,
    trace (snd (Emotiv.process_mental_commands (Some ev) env w)) = trace w ++ d /\
    dispatches d = [].
Proof.
  intros Hge. rewrite emotiv_process_unfold. exists [].
  destruct (Emotiv.falsy (Some ev)); [ cbn [snd]; rewrite app_nil_r; auto | ].
  change (default (∅ : gmap string pyval) (Some ev)) with ev. cbv zeta.
  cbn [default from_option id] in Hge |- *. rewrite Hge.
  destruct (py_eq_str _ _); cbn [snd]; rewrite app_nil_r; auto.
Qed.

(** C1, as the code has it.  A cycle whose score is at least the threshold
    dispatches exactly one move command, and after it the stop command
    exactly when neither the move dispatch nor the wait after it raises:
    when one of them raises, the stop is not dispatched.  So there is at
    most one stop, and exactly one when no call of the cycle raised.  A
    cycle whose score is below the threshold dispatches nothing.  The same
    holds for a 'push' event of the Emotiv controller and its power (a
    float or an int, 0 when the event has none). *)
Theorem threshold_dispatch :
  (forall env (w : world BrainFlow.BrainFlowRobotController) data s,
     let threshold := BrainFlow.command_threshold (BrainFlow.bci_config (bci (self w))) in
     robot_conn (self w) = true ->
     fst (BrainFlow.poll env w) = Done data ->
     (0 < size data)%nat ->
     fst (BrainFlow.process_brain_data data env (snd (BrainFlow.poll env w))) = Done s ->
     exists d, trace (snd (BrainFlow.cycle env w)) = trace w ++ d /\
       ((threshold <=? s)%float = true ->
          dispatches d =
            move_forward_dispatches env (robot_config (self w))
              (trace (snd (BrainFlow.process_brain_data data env (snd (BrainFlow.poll env w)))) ++
               [Logged INFO "High concentration detected: " (arg_float s)]) /\
          move_block (robot_config (self w)) (dispatches d) /\
          (raises d = [] ->
           dispatches d = [(SPORT_MOD, move_request (robot_config (self w)));
                           (SPORT_MOD, stop_request)])) /\
       ((s <? threshold)%float = true -> dispatches d = [])) /\
  (forall env (w : world Emotiv.BCIRobotController) (ev : gmap string pyval),
     let threshold := Emotiv.command_threshold (Emotiv.bci_config (bci (self w))) in
     let power := default (PyInt 0) (ev !! "power") in
     robot_conn (self w) = true ->
     ev !! "command" = Some (PyStr "push") ->
     exists d,
       trace (snd (Emotiv.process_mental_commands (Some ev) env w)) = trace w ++ d /\
       (py_ge power threshold = Returns true ->
          dispatches d =
            move_forward_dispatches env (robot_config (self w)) (trace w ++ [push_log power]) /\
          move_block (robot_config (self w)) (dispatches d) /\
          (raises d = [] ->
           dispatches d = [(SPORT_MOD, move_request (robot_config (self w)));
                           (SPORT_MOD, stop_request)])) /\
       (py_ge power threshold = Returns false -> dispatches d = []) /\
       (forall f, power = PyFloat f -> (f <? threshold)%float = true -> dispatches d = [])).
Proof.
  split.
  - intros env w data s threshold Hconn Hp Hsz Hs.
    destruct (threshold <=? s)%float eqn:Hthr.
    + destruct (brainflow_cycle_trigger _ _ _ _ Hconn Hp Hsz Hs Hthr)
        as (d & Ht & Hpub & Hb & Hok).
      exists d. split; [ exact Ht | ]. split; [ auto | ].
      intros Hlt. apply ltb_not_leb in Hlt. fold threshold in Hthr. congruence.
    + destruct (brainflow_cycle_below _ _ _ _ Hp Hsz Hs Hthr) as (d & Ht & Hd).
      exists d. split; [ exact Ht | ]. split; [ discriminate | auto ].
  - intros env w ev threshold power Hconn Hcmd.
    destruct (py_ge power threshold) as [[ | ] | e] eqn:Hge.
    + destruct (emotiv_push_trigger env w ev Hconn Hcmd Hge) as (d & Ht & Hpub & Hb & Hok).
      exists d. split; [ exact Ht | ]. split; [ auto | ]. split; [ discriminate | ].
      intros f Hf Hlt. apply ltb_not_leb in Hlt. fold power in Hge. rewrite Hf in Hge.
      cbn in Hge. fold threshold in Hge. congruence.
    + destruct (emotiv_push_below env w ev Hge) as (d & Ht & Hd).
      exists d. split; [ exact Ht | ]. split; [ discriminate | auto ].
    + exists []. rewrite emotiv_process_unfold.
      destruct (Emotiv.falsy (Some ev)); [ cbn [snd]; rewrite app_nil_r; repeat split; discriminate | ].
      change (default (∅ : gmap string pyval) (Some ev)) with ev. cbv zeta.
      fold power. fold threshold. rewrite Hge.
      destruct (py_eq_str _ _); cbn [snd]; rewrite app_nil_r; repeat split; discriminate.
Qed.

Lemma threshold_dispatch_witness :
  exists d,
    trace (snd (BrainFlow.cycle (obliging 0.7) brainflow_ready)) = trace brainflow_ready ++ d /\
    dispatches d = [(SPORT_MOD, move_request BrainFlow.main_robot_config);
                    (SPORT_MOD, stop_request)].
Proof.
  destruct (proj1 threshold_dispatch (obliging 0.7) brainflow_ready (NdArray 1024 4) 0.7%float
              eq_refl eq_refl ltac:(cbn; lia) eq_refl) as (d & Ht & Hge & _).
  exists d. split; [ exact Ht | ].
  rewrite (proj1 (Hge eq_refl)). reflexivity.
Defined.

(** C1 fails as stated: the score 0.7 reaches the threshold 0.6, the move
    dispatch raises, and the cycle has dispatched one move command and no
    stop command. *)
Lemma failed_move_is_not_followed_by_stop :
  let env := failing is_move_dispatch (Exception "send failed") (obliging 0.7) in
  fst (BrainFlow.process_brain_data (NdArray 1024 4) env (snd (BrainFlow.poll env brainflow_ready)))
    = Done 0.7%float /\
  (BrainFlow.command_threshold BrainFlow.main_bci_config <=? 0.7)%float = true /\
  dispatches (trace (snd (BrainFlow.cycle env brainflow_ready)))
    = [(SPORT_MOD, move_request BrainFlow.main_robot_config)].
Proof. vm_compute. auto. Qed.

(** C9: when the score computation raises an [Exception],
    [process_brain_data] returns the score 0.0; and with a positive
    threshold a cycle whose score computation raised publishes nothing. *)
Theorem score_error_scores_zero :
  (forall env (w : world BrainFlow.BrainFlowRobotController) data msg,
     fst (BrainFlow.compute_score data env w) = Raised (Exception msg) ->
     fst (BrainFlow.process_brain_data data env w) = Done 0%float) /\
  (forall env (w : world BrainFlow.BrainFlowRobotController) data msg,
     (0 <? BrainFlow.command_threshold (BrainFlow.bci_config (bci (self w))))%float = true ->
     fst (BrainFlow.poll env w) = Done data ->
     (0 < size data)%nat ->
     fst (BrainFlow.compute_score data env (snd (BrainFlow.poll env w))) = Raised (Exception msg) ->
     exists d, trace (snd (BrainFlow.cycle env w)) = trace w ++ d /\ dispatches d = []).
Proof.
  split.
  - intros env w data msg H. rewrite (brainflow_process_brain_data_error _ _ _ _ H). reflexivity.
  - intros env w data msg Hpos Hp Hsz H.
    apply (brainflow_cycle_below env w data 0%float Hp Hsz).
    + rewrite (brainflow_process_brain_data_error _ _ _ _ H). reflexivity.
    + apply ltb_not_leb, Hpos.
Qed.

Lemma score_error_scores_zero_witness :
  let env := failing is_band_powers (Exception "not enough data") (obliging 0.7) in
  fst (BrainFlow.process_brain_data (NdArray 1024 4) env brainflow_ready) = Done 0%float /\
  exists d, trace (snd (BrainFlow.cycle env brainflow_ready)) = trace brainflow_ready ++ d /\
            dispatches d = [].
Proof.
  split.
  - apply (proj1 score_error_scores_zero _ brainflow_ready (NdArray 1024 4) "not enough data").
    reflexivity.
  - apply (proj2 score_error_scores_zero _ brainflow_ready (NdArray 1024 4) "not enough data");
      [ reflexivity | reflexivity | cbn; lia | reflexivity ].
Defined.

Lemma brainflow_poll_error_ends_cycle env w msg :
  fst (BrainFlow.poll env w) = Raised (Exception msg) ->
  BrainFlow.cycle env w = (Raised (Exception msg), snd (BrainFlow.poll env w)).
Proof.
  intros H. unfold BrainFlow.cycle. unfold bind at 1.
  destruct (BrainFlow.poll env w) as [r w0]. cbn [fst snd] in *. subst r. reflexivity.
Qed.

(** C5, as the code has it.  An [Exception] of the score computation is
    logged by [process_brain_data], which returns 0.0, and the cycle goes on
    as a cycle with score 0.0 does.  An [Exception] of the poll call is not
    handled inside the loop: it ends the cycle and the loop, and the handler
    of [run] logs it as a runtime error (after which [run] cleans up). *)
Theorem loop_error_policy :
  (forall env (w : world BrainFlow.BrainFlowRobotController) data msg,
     fst (BrainFlow.compute_score data env w) = Raised (Exception msg) ->
     BrainFlow.process_brain_data data env w =
       (Done 0%float,
        logged_error (snd (BrainFlow.compute_score data env w))
                     "Error processing brain data: " msg)) /\
  (forall env (w : world BrainFlow.BrainFlowRobotController) data msg,
     fst (BrainFlow.poll env w) = Done data ->
     (0 < size data)%nat ->
     fst (BrainFlow.compute_score data env (snd (BrainFlow.poll env w))) = Raised (Exception msg) ->
     BrainFlow.cycle env w =
       (if (BrainFlow.command_threshold (BrainFlow.bci_config (bci (self w))) <=? 0)%float
        then (info "High concentration detected: " (arg_float 0) ;; move_forward) ;;
             ext (sleep 0.1)
        else ext (sleep 0.1))
         env
         (logged_error (snd (BrainFlow.compute_score data env (snd (BrainFlow.poll env w))))
                       "Error processing brain data: " msg)) /\
  (forall fuel env (w : world BrainFlow.BrainFlowRobotController) msg,
     running (self w) = true ->
     fst (BrainFlow.poll env w) = Raised (Exception msg) ->
     while (S fuel) running BrainFlow.cycle env w
       = (Raised (Exception msg), snd (BrainFlow.poll env w)) /\
     try_except (while (S fuel) running BrainFlow.cycle)
                (fun msg => error "Runtime error: " (arg_str msg)) env w
       = (Done tt, logged_error (snd (BrainFlow.poll env w)) "Runtime error: " msg)).
Proof.
  split; [ | split ].
  - intros env w data msg H. apply brainflow_process_brain_data_error, H.
  - intros env w data msg Hp Hsz H.
    pose proof (brainflow_process_brain_data_error _ _ _ _ H) as E.
    rewrite (brainflow_cycle_unfold env w data 0%float Hp Hsz); rewrite E; reflexivity.
  - intros fuel env w msg Hrun H.
    assert (Hw : while (S fuel) running BrainFlow.cycle env w
                 = (Raised (Exception msg), snd (BrainFlow.poll env w))).
    { cbn [while]. unfold bind at 1, get at 1. rewrite Hrun. unfold bind at 1.
      rewrite (brainflow_poll_error_ends_cycle _ _ _ H). reflexivity. }
    split; [ exact Hw | ]. unfold try_except. rewrite Hw. reflexivity.
Qed.

Lemma loop_error_policy_witness :
  let env := failing is_poll (Exception "board is not ready") (obliging 0.7) in
  while 3 running BrainFlow.cycle env brainflow_ready
    = (Raised (Exception "board is not ready"), snd (BrainFlow.poll env brainflow_ready)).
Proof.
  intros env.
  exact (proj1 (proj2 (proj2 loop_error_policy) 2%nat env brainflow_ready "board is not ready"
                 eq_refl eq_refl)).
Defined.

(** C5 fails as stated: with fuel for three cycles, an [Exception] of the
    first poll ends the loop after that one poll; [run] logs a runtime error
    and the program cleans up and ends. *)
Lemma poll_error_ends_the_loop :
  let env := failing is_poll (Exception "board is not ready") (obliging 0.7) in
  polls (trace (snd (BrainFlow.main 3 env))) = 1%nat /\
  error_logs (trace (snd (BrainFlow.main 3 env)))
    = [("Runtime error: ", arg_str "board is not ready")] /\
  fst (BrainFlow.main 3 env) = Done tt /\
  cleanups (trace (snd (BrainFlow.main 3 env))) = 2%nat.
Proof. vm_compute. auto. Qed.

(** ** Setup failures *)

Lemma emotiv_setup_training_silent : silent Emotiv.setup_training.
Proof. unfold Emotiv.setup_training, info, error. silent_cases. Qed.

Lemma emotiv_setup_bci_silent : silent Emotiv.setup_bci.
Proof.
  unfold Emotiv.setup_bci, info, error.
  apply silent_try_except; [ | silent_cases ].
  silent_cases.
Qed.

Lemma movements_modes n : movements (repeat mode_dispatch n) = [].
Proof. induction n as [ | n IH]; [ reflexivity | exact IH ]. Qed.

Lemma movements_app a b : movements (a ++ b) = movements a ++ movements b.
Proof. apply omap_app. Qed.

(** [try: body except Exception as e: h e finally: fin], when [body] raises
    an [Exception] that [h] absorbs: what is left is [fin]. *)
Lemma try_finally_after_handled {St} (body : M St unit) h fin env (w w1 w2 : world St) msg :
  body env w = (Raised (Exception msg), w1) ->
  h msg env w1 = (Done tt, w2) ->
  try_finally (try_except body h) fin env w = fin env w2.
Proof.
  intros Hb Hh. unfold try_finally, try_except. rewrite Hb, Hh.
  destruct (fin env w2) as [[[] | e | ] w3]; reflexivity.
Qed.

(** No setup function calls a teardown operation. *)
Lemma brainflow_setup_bci_no_teardown env w d :
  trace (snd (BrainFlow.setup_bci env w)) = trace w ++ d -> teardown d = [].
Proof.
  destruct w as [[[cfg board model] rc conn run] tr]. intros Ht.
  destruct (BrainFlow.setup_bci env _) as [r w'] eqn:H.
  unfold BrainFlow.setup_bci in H. unfold_monad_in H. split_answers H;
    injection H as <- <-; cbn [snd trace] in Ht;
    repeat rewrite <- app_assoc in Ht; apply app_inv_head in Ht; subst d; reflexivity.
Qed.

Lemma emotiv_setup_bci_no_teardown env w d :
  trace (snd (Emotiv.setup_bci env w)) = trace w ++ d -> teardown d = [].
Proof.
  destruct w as [[[cfg cortex] rc conn run] tr]. intros Ht.
  destruct (Emotiv.setup_bci env _) as [r w'] eqn:H.
  unfold Emotiv.setup_bci, Emotiv.setup_training in H.
  destruct cortex; unfold_program_in H; explore H;
    injection H as <- <-; cbn [snd trace] in Ht;
    repeat rewrite <- app_assoc in Ht; apply app_inv_head in Ht; subst d; reflexivity.
Qed.

Lemma setup_robot_no_teardown {B} env (w : world (controller B)) d :
  trace (snd (setup_robot env w)) = trace w ++ d -> teardown d = [].
Proof.
  destruct w as [[b rc conn run] tr]. intros Ht.
  destruct (setup_robot env _) as [r w'] eqn:H.
  unfold setup_robot, _set_motion_mode, publish in H. unfold_monad_in H. split_answers H;
    injection H as <- <-; cbn [snd trace] in Ht;
    repeat rewrite <- app_assoc in Ht; apply app_inv_head in Ht; subst d; reflexivity.
Qed.

Lemma brainflow_source_failure fuel env w msg :
  fst (BrainFlow.setup_bci env w) = Raised (Exception msg) ->
  BrainFlow.run fuel env w =
    BrainFlow.cleanup env (logged_error (snd (BrainFlow.setup_bci env w)) "Runtime error: " msg) /\
  exists d, trace (snd (BrainFlow.run fuel env w)) = trace w ++ d /\
    dispatches d = [] /\ cleanups d = 1%nat /\
    (exists k, teardown d = take k (brainflow_plan (self (snd (BrainFlow.setup_bci env w))))) /\
    (fst (BrainFlow.run fuel env w) = Done tt ->
     teardown d = brainflow_plan (self (snd (BrainFlow.setup_bci env w)))).
Proof.
  intros H.
  pose proof (brainflow_setup_bci_no_teardown env w) as Hno.
  destruct (BrainFlow.setup_bci env w) as [r1 w1] eqn:E1. cbn [fst snd] in *. subst r1.
  assert (Hrun : BrainFlow.run fuel env w =
                 BrainFlow.cleanup env (logged_error w1 "Runtime error: " msg)).
  { unfold BrainFlow.run. apply try_finally_after_handled with (w1 := w1) (msg := msg); [ | reflexivity ].
    unfold bind at 1. rewrite E1. reflexivity. }
  split; [ exact Hrun | ]. rewrite Hrun.
  destruct (brainflow_setup_bci_spec _ _ _ _ E1) as (d1 & Ht1 & (Hd1 & Hc1 & _) & _).
  destruct (BrainFlow.cleanup env (logged_error w1 "Runtime error: " msg)) as [r2 w2] eqn:E2.
  destruct (brainflow_cleanup_spec _ _ _ _ E2) as (d2 & Ht2 & Hc2 & Hd2 & _ & _ & _ & Hk & Hr).
  cbn [fst snd logged_error trace self] in *.
  exists (d1 ++ [Logged ERROR "Runtime error: " (arg_str msg)] ++ d2).
  split; [ | split; [ | split; [ | split ] ] ].
  - rewrite Ht2, Ht1, <- !app_assoc. reflexivity.
  - rewrite !dispatches_app, Hd1, Hd2. reflexivity.
  - rewrite !cleanups_app, Hc1, Hc2. reflexivity.
  - rewrite !teardown_app, (Hno d1 Ht1). exact Hk.
  - intros ->. rewrite !teardown_app, (Hno d1 Ht1). apply Hr.
Qed.

Lemma brainflow_actuator_failure fuel env w msg :
  fst (BrainFlow.setup_bci env w) = Done tt ->
  fst (setup_robot env (snd (BrainFlow.setup_bci env w))) = Raised (Exception msg) ->
  BrainFlow.run fuel env w =
    BrainFlow.cleanup env
      (logged_error (snd (setup_robot env (snd (BrainFlow.setup_bci env w))))
                    "Runtime error: " msg) /\
  exists d, trace (snd (BrainFlow.run fuel env w)) = trace w ++ d /\
    movements (dispatches d) = [] /\ cleanups d = 1%nat /\
    (exists k, teardown d =
               take k (brainflow_plan
                         (self (snd (setup_robot env (snd (BrainFlow.setup_bci env w))))))) /\
    (fst (BrainFlow.run fuel env w) = Done tt ->
     teardown d =
       brainflow_plan (self (snd (setup_robot env (snd (BrainFlow.setup_bci env w)))))).
Proof.
  intros H1 H2.
  pose proof (brainflow_setup_bci_no_teardown env w) as Hno1.
  destruct (BrainFlow.setup_bci env w) as [r1 w1] eqn:E1. cbn [fst snd] in *. subst r1.
  pose proof (setup_robot_no_teardown env w1) as Hno2.
  destruct (setup_robot env w1) as [r2 w2] eqn:E2. cbn [fst snd] in *. subst r2.
  assert (Hrun : BrainFlow.run fuel env w =
                 BrainFlow.cleanup env (logged_error w2 "Runtime error: " msg)).
  { unfold BrainFlow.run. apply try_finally_after_handled with (w1 := w2) (msg := msg); [ | reflexivity ].
    unfold bind at 1. rewrite E1. unfold bind at 1. rewrite E2. reflexivity. }
  split; [ exact Hrun | ]. rewrite Hrun.
  destruct (brainflow_setup_bci_spec _ _ _ _ E1) as (d1 & Ht1 & (Hd1 & Hc1 & _) & _).
  destruct (setup_robot_spec _ _ _ _ E2) as (d2 & Ht2 & Hc2 & _ & _ & _ & _ & Hd2 & _).
  destruct (BrainFlow.cleanup env (logged_error w2 "Runtime error: " msg)) as [r3 w3] eqn:E3.
  destruct (brainflow_cleanup_spec _ _ _ _ E3) as (d3 & Ht3 & Hc3 & Hd3 & _ & _ & _ & Hk & Hr).
  cbn [fst snd logged_error trace self] in *.
  exists (d1 ++ d2 ++ [Logged ERROR "Runtime error: " (arg_str msg)] ++ d3).
  split; [ | split; [ | split; [ | split ] ] ].
  - rewrite Ht3, Ht2, Ht1, <- !app_assoc. reflexivity.
  - rewrite !dispatches_app, Hd1, Hd2, Hd3, !movements_app, movements_modes. reflexivity.
  - rewrite !cleanups_app, Hc1, Hc2, Hc3. reflexivity.
  - rewrite !teardown_app, (Hno1 d1 Ht1), (Hno2 d2 Ht2). exact Hk.
  - intros ->. rewrite !teardown_app, (Hno1 d1 Ht1), (Hno2 d2 Ht2). apply Hr.
Qed.

Lemma emotiv_source_failure fuel env w msg :
  fst (Emotiv.setup_bci env w) = Raised (Exception msg) ->
  Emotiv.run fuel env w =
    Emotiv.cleanup env (logged_error (snd (Emotiv.setup_bci env w)) "Runtime error: " msg) /\
  exists d, trace (snd (Emotiv.run fuel env w)) = trace w ++ d /\
    dispatches d = [] /\ cleanups d = 1%nat /\
    (exists k, teardown d = take k (emotiv_plan (self (snd (Emotiv.setup_bci env w))))) /\
    (fst (Emotiv.run fuel env w) = Done tt ->
     teardown d = emotiv_plan (self (snd (Emotiv.setup_bci env w)))).
Proof.
  intros H.
  pose proof (emotiv_setup_bci_no_teardown env w) as Hno.
  destruct (emotiv_setup_bci_silent env w) as (d1 & Ht1 & _ & (Hd1 & Hc1 & _) & _).
  destruct (Emotiv.setup_bci env w) as [r1 w1] eqn:E1. cbn [fst snd] in *. subst r1.
  assert (Hrun : Emotiv.run fuel env w =
                 Emotiv.cleanup env (logged_error w1 "Runtime error: " msg)).
  { unfold Emotiv.run.
    apply try_finally_after_handled with (w1 := w1) (msg := msg); [ | reflexivity ].
    unfold bind at 1. rewrite E1. reflexivity. }
  split; [ exact Hrun | ]. rewrite Hrun.
  destruct (Emotiv.cleanup env (logged_error w1 "Runtime error: " msg)) as [r2 w2] eqn:E2.
  destruct (emotiv_cleanup_spec _ _ _ _ E2) as (d2 & Ht2 & Hc2 & Hd2 & _ & _ & _ & Hk & Hr).
  cbn [fst snd logged_error trace self] in *.
  exists (d1 ++ [Logged ERROR "Runtime error: " (arg_str msg)] ++ d2).
  split; [ | split; [ | split; [ | split ] ] ].
  - rewrite Ht2, Ht1, <- !app_assoc. reflexivity.
  - rewrite !dispatches_app, Hd1, Hd2. reflexivity.
  - rewrite !cleanups_app, Hc1, Hc2. reflexivity.
  - rewrite !teardown_app, (Hno d1 Ht1). exact Hk.
  - intros ->. rewrite !teardown_app, (Hno d1 Ht1). apply Hr.
Qed.

Lemma emotiv_actuator_failure fuel env w msg :
  fst (Emotiv.setup_bci env w) = Done tt ->
  fst (setup_robot env (snd (Emotiv.setup_bci env w))) = Raised (Exception msg) ->
  Emotiv.run fuel env w =
    Emotiv.cleanup env
      (logged_error (snd (setup_robot env (snd (Emotiv.setup_bci env w))))
                    "Runtime error: " msg) /\
  exists d, trace (snd (Emotiv.run fuel env w)) = trace w ++ d /\
    movements (dispatches d) = [] /\ cleanups d = 1%nat /\
    (exists k, teardown d =
               take k (emotiv_plan
                         (self (snd (setup_robot env (snd (Emotiv.setup_bci env w))))))) /\
    (fst (Emotiv.run fuel env w) = Done tt ->
     teardown d = emotiv_plan (self (snd (setup_robot env (snd (Emotiv.setup_bci env w)))))).
Proof.
  intros H1 H2.
  pose proof (emotiv_setup_bci_no_teardown env w) as Hno1.
  destruct (emotiv_setup_bci_silent env w) as (d1 & Ht1 & _ & (Hd1 & Hc1 & _) & _).
  destruct (Emotiv.setup_bci env w) as [r1 w1] eqn:E1. cbn [fst snd] in *. subst r1.
  pose proof (setup_robot_no_teardown env w1) as Hno2.
  destruct (setup_robot env w1) as [r2 w2] eqn:E2. cbn [fst snd] in *. subst r2.
  assert (Hrun : Emotiv.run fuel env w =
                 Emotiv.cleanup env (logged_error w2 "Runtime error: " msg)).
  { unfold Emotiv.run.
    apply try_finally_after_handled with (w1 := w2) (msg := msg); [ | reflexivity ].
    unfold bind at 1. rewrite E1. unfold bind at 1. rewrite E2. reflexivity. }
  split; [ exact Hrun | ]. rewrite Hrun.
  destruct (setup_robot_spec _ _ _ _ E2) as (d2 & Ht2 & Hc2 & _ & _ & _ & _ & Hd2 & _).
  destruct (Emotiv.cleanup env (logged_error w2 "Runtime error: " msg)) as [r3 w3] eqn:E3.
  destruct (emotiv_cleanup_spec _ _ _ _ E3) as (d3 & Ht3 & Hc3 & Hd3 & _ & _ & _ & Hk & Hr).
  cbn [fst snd logged_error trace self] in *.
  exists (d1 ++ d2 ++ [Logged ERROR "Runtime error: " (arg_str msg)] ++ d3).
  split; [ | split; [ | split; [ | split ] ] ].
  - rewrite Ht3, Ht2, Ht1, <- !app_assoc. reflexivity.
  - rewrite !dispatches_app, Hd1, Hd2, Hd3, !movements_app, movements_modes. reflexivity.
  - rewrite !cleanups_app, Hc1, Hc2, Hc3. reflexivity.
  - rewrite !teardown_app, (Hno1 d1 Ht1), (Hno2 d2 Ht2). exact Hk.
  - intros ->. rewrite !teardown_app, (Hno1 d1 Ht1), (Hno2 d2 Ht2). apply Hr.
Qed.

(** C6, as the code has it.  When the setup of the signal source or of the
    actuator fails with an [Exception], [run] logs it as a runtime error,
    runs [cleanup] once and ends as that [cleanup] ends: it returns normally
    unless [cleanup] itself raises, so the setup failure is not passed on to
    the caller.  No movement command is issued.  What is closed is what
    [cleanup] gets to: the teardown steps of the handles the failed setup
    had set, in order, up to the first step that raises; all of them exactly
    when [run] returns normally.  A step that raises leaves the later
    sessions and connections open. *)
Theorem setup_failure_ends_in_cleanup :
  (forall fuel env (w : world BrainFlow.BrainFlowRobotController) msg,
     fst (BrainFlow.setup_bci env w) = Raised (Exception msg) ->
     BrainFlow.run fuel env w =
       BrainFlow.cleanup env
         (logged_error (snd (BrainFlow.setup_bci env w)) "Runtime error: " msg) /\
     exists d, trace (snd (BrainFlow.run fuel env w)) = trace w ++ d /\
       movements (dispatches d) = [] /\ cleanups d = 1%nat /\
       (exists k, teardown d = take k (brainflow_plan (self (snd (BrainFlow.setup_bci env w))))) /\
       (fst (BrainFlow.run fuel env w) = Done tt ->
        teardown d = brainflow_plan (self (snd (BrainFlow.setup_bci env w))))) /\
  (forall fuel env (w : world BrainFlow.BrainFlowRobotController) msg,
     fst (BrainFlow.setup_bci env w) = Done tt ->
     fst (setup_robot env (snd (BrainFlow.setup_bci env w))) = Raised (Exception msg) ->
     BrainFlow.run fuel env w =
       BrainFlow.cleanup env
         (logged_error (snd (setup_robot env (snd (BrainFlow.setup_bci env w))))
                       "Runtime error: " msg) /\
     exists d, trace (snd (BrainFlow.run fuel env w)) = trace w ++ d /\
       movements (dispatches d) = [] /\ cleanups d = 1%nat /\
       (exists k, teardown d =
                  take k (brainflow_plan
                            (self (snd (setup_robot env (snd (BrainFlow.setup_bci env w))))))) /\
       (fst (BrainFlow.run fuel env w) = Done tt ->
        teardown d =
          brainflow_plan (self (snd (setup_robot env (snd (BrainFlow.setup_bci env w))))))) /\
  (forall fuel env (w : world Emotiv.BCIRobotController) msg,
     fst (Emotiv.setup_bci env w) = Raised (Exception msg) ->
     Emotiv.run fuel env w =
       Emotiv.cleanup env
         (logged_error (snd (Emotiv.setup_bci env w)) "Runtime error: " msg) /\
     exists d, trace (snd (Emotiv.run fuel env w)) = trace w ++ d /\
       movements (dispatches d) = [] /\ cleanups d = 1%nat /\
       (exists k, teardown d = take k (emotiv_plan (self (snd (Emotiv.setup_bci env w))))) /\
       (fst (Emotiv.run fuel env w) = Done tt ->
        teardown d = emotiv_plan (self (snd (Emotiv.setup_bci env w))))) /\
  (forall fuel env (w : world Emotiv.BCIRobotController) msg,
     fst (Emotiv.setup_bci env w) = Done tt ->
     fst (setup_robot env (snd (Emotiv.setup_bci env w))) = Raised (Exception msg) ->
     Emotiv.run fuel env w =
       Emotiv.cleanup env
         (logged_error (snd (setup_robot env (snd (Emotiv.setup_bci env w))))
                       "Runtime error: " msg) /\
     exists d, trace (snd (Emotiv.run fuel env w)) = trace w ++ d /\
       movements (dispatches d) = [] /\ cleanups d = 1%nat /\
       (exists k, teardown d =
                  take k (emotiv_plan
                            (self (snd (setup_robot env (snd (Emotiv.setup_bci env w))))))) /\
       (fst (Emotiv.run fuel env w) = Done tt ->
        teardown d =
          emotiv_plan (self (snd (setup_robot env (snd (Emotiv.setup_bci env w))))))).
Proof.
  split; [ | split; [ | split ] ].
  - intros fuel env w msg H.
    destruct (brainflow_source_failure fuel env w msg H) as (Hr & d & Ht & Hd & Hc & Hk & Hall).
    split; [ exact Hr | ]. exists d. rewrite Hd. auto.
  - apply brainflow_actuator_failure.
  - intros fuel env w msg H.
    destruct (emotiv_source_failure fuel env w msg H) as (Hr & d & Ht & Hd & Hc & Hk & Hall).
    split; [ exact Hr | ]. exists d. rewrite Hd. auto.
  - apply emotiv_actuator_failure.
Qed.

Lemma setup_failure_ends_in_cleanup_witness :
  let env := failing is_connect (Exception "robot unreachable") (obliging 0.7) in
  let w := BrainFlow.start BrainFlow.main_bci_config BrainFlow.main_robot_config in
  BrainFlow.run 3 env w =
    BrainFlow.cleanup env
      (logged_error (snd (setup_robot env (snd (BrainFlow.setup_bci env w))))
                    "Runtime error: " "robot unreachable").
Proof.
  intros env w.
  exact (proj1 (proj1 (proj2 setup_failure_ends_in_cleanup) 3%nat env w "robot unreachable"
                 eq_refl eq_refl)).
Defined.

(** C6 fails as stated, twice.  When [prepare_session] raises, and likewise
    when [connect] raises, [run] returns normally and so does the program:
    the caller sees no error.  And a session can be left open: when
    [start_stream] raises after the session was prepared, and [stop_stream]
    raises in [cleanup], [release_session] is never called, neither by the
    cleanup of [run] nor by that of [main]. *)
Lemma setup_failure_is_not_surfaced :
  let no_board := failing is_prepare_session (Exception "board not found") (obliging 0.7) in
  let no_robot := failing is_connect (Exception "robot unreachable") (obliging 0.7) in
  let no_stream := failing is_stop_stream (Exception "stream is not running")
                     (failing is_start_stream (Exception "stream failed") (obliging 0.7)) in
  let w := BrainFlow.start BrainFlow.main_bci_config BrainFlow.main_robot_config in
  fst (BrainFlow.setup_bci no_board w) = Raised (Exception "board not found") /\
  fst (BrainFlow.run 3 no_board w) = Done tt /\
  fst (BrainFlow.main 3 no_board) = Done tt /\
  fst (setup_robot no_robot (snd (BrainFlow.setup_bci no_robot w)))
    = Raised (Exception "robot unreachable") /\
  fst (BrainFlow.run 3 no_robot w) = Done tt /\
  fst (BrainFlow.main 3 no_robot) = Done tt /\
  fst (BrainFlow.setup_bci no_stream w) = Raised (Exception "stream failed") /\
  sessions_prepared (trace (snd (BrainFlow.run 3 no_stream w))) = 1%nat /\
  teardown (trace (snd (BrainFlow.run 3 no_stream w))) = [StopStreaming] /\
  teardown (trace (snd (BrainFlow.main 3 no_stream))) = [StopStreaming; StopStreaming].
Proof. vm_compute. repeat split. Qed.

(** ** Scenario A *)

(** C8: with the threshold 0.6 of [main] and the polled scores 0.2, 0.3,
    0.7, 0.1 (the run is interrupted at the poll after them), the whole run
    dispatches one move and one stop, after the third poll and before the
    fourth, whatever fuel is left. *)
Theorem scenario_A_dispatches_one_pair :
  forall spare : nat,
    let out := BrainFlow.main (5 + spare) scenario_A in
    BrainFlow.command_threshold BrainFlow.main_bci_config = 0.6%float /\
    scores (trace (snd out)) = [0.2; 0.3; 0.7; 0.1]%float /\
    movements (dispatches (trace (snd out)))
      = [move_request BrainFlow.main_robot_config; stop_request] /\
    timeline (trace (snd out))
      = [Polled; Polled; Polled;
         Dispatched (move_request BrainFlow.main_robot_config); Dispatched stop_request;
         Polled; Polled] /\
    fst out = Done tt.
Proof. intros spare. vm_compute. repeat split. Qed.

(** ** The two programs are instances of the lifecycle *)

Lemma brainflow_program_shape fuel :
  BrainFlow.program fuel =
    lifecycle_program BrainFlow.__init__ BrainFlow.setup_bci brainflow_monitor
                      BrainFlow.cleanup fuel.
Proof. reflexivity. Qed.

Lemma emotiv_program_shape fuel :
  Emotiv.program fuel =
    lifecycle_program Emotiv.__init__ Emotiv.setup_bci emotiv_monitor Emotiv.cleanup fuel.
Proof. reflexivity. Qed.

Lemma brainflow_init_spec env w r w' :
  BrainFlow.__init__ env w = (r, w') ->
  exists d, trace w' = trace w ++ d /\ quiet d /\
    robot_config (self w') = robot_config (self w) /\ r <> OutOfFuel.
Proof.
  intros H. assert (Hs : silent BrainFlow.__init__) by (apply silent_ext; reflexivity).
  destruct (Hs env w) as (d & Ht & Hself & Hq & Hr). rewrite H in *. cbn [fst snd] in *.
  exists d. rewrite Hself. auto.
Qed.

Lemma emotiv_init_spec env w r w' :
  Emotiv.__init__ env w = (r, w') ->
  exists d, trace w' = trace w ++ d /\ quiet d /\
    robot_config (self w') = robot_config (self w) /\ r <> OutOfFuel.
Proof.
  destruct w as [[[cfg cortex] rc conn run] tr]. intros H.
  unfold Emotiv.__init__ in H. unfold_monad_in H. split_answers H;
    injection H as <- <-; cbn [self trace];
    (eexists; split; [ finish_trace | ]); cbn; repeat split; discriminate.
Qed.

Lemma brainflow_source_spec env w r w' :
  BrainFlow.setup_bci env w = (r, w') ->
  exists d, trace w' = trace w ++ d /\ quiet d /\
    robot_config (self w') = robot_config (self w) /\ r <> OutOfFuel.
Proof.
  intros H.
  destruct (brainflow_setup_bci_spec _ _ _ _ H) as (d & Ht & Hq & _ & Hrc & _ & _ & Hr).
  exists d. repeat split; auto; try apply Hq. intros ->. exact Hr.
Qed.

Lemma emotiv_source_spec env w r w' :
  Emotiv.setup_bci env w = (r, w') ->
  exists d, trace w' = trace w ++ d /\ quiet d /\
    robot_config (self w') = robot_config (self w) /\ r <> OutOfFuel.
Proof.
  intros H. destruct (emotiv_setup_bci_silent env w) as (d & Ht & Hself & Hq & Hr).
  rewrite H in *. cbn [fst snd] in *. exists d. rewrite Hself. auto.
Qed.

Lemma brainflow_teardown_spec env w r w' :
  BrainFlow.cleanup env w = (r, w') ->
  exists d, trace w' = trace w ++ d /\ cleanups d = 1%nat /\
    dispatches d = [] /\ connections d = 0%nat /\
    robot_config (self w') = robot_config (self w) /\ r <> OutOfFuel.
Proof.
  intros H.
  destruct (brainflow_cleanup_spec _ _ _ _ H) as (d & Ht & Hc & Hd & _ & Hn & Hs & _ & Hr).
  exists d. rewrite Hs. repeat split; auto. intros ->. exact Hr.
Qed.

Lemma emotiv_teardown_spec env w r w' :
  Emotiv.cleanup env w = (r, w') ->
  exists d, trace w' = trace w ++ d /\ cleanups d = 1%nat /\
    dispatches d = [] /\ connections d = 0%nat /\
    robot_config (self w') = robot_config (self w) /\ r <> OutOfFuel.
Proof.
  intros H.
  destruct (emotiv_cleanup_spec _ _ _ _ H) as (d & Ht & Hc & Hd & _ & Hn & Hs & _ & Hr).
  exists d. rewrite Hs. repeat split; auto. intros ->. exact Hr.
Qed.

Lemma emotiv_process_spec env (w : world Emotiv.BCIRobotController) mental_command_data :
  exists d,
    trace (snd (Emotiv.process_mental_commands mental_command_data env w)) = trace w ++ d /\
    self (snd (Emotiv.process_mental_commands mental_command_data env w)) = self w /\
    steady (robot_config (self w)) d /\
    fst (Emotiv.process_mental_commands mental_command_data env w) <> OutOfFuel.
Proof.
  rewrite emotiv_process_unfold.
  assert (Hnil : forall r : result unit, r <> OutOfFuel ->
            exists d, trace (snd (r, w)) = trace w ++ d /\ self (snd (r, w)) = self w /\
              steady (robot_config (self w)) d /\ fst (r, w) <> OutOfFuel).
  { intros r Hr. exists []. cbn [fst snd]. rewrite app_nil_r.
    repeat split; auto. }
  destruct (Emotiv.falsy mental_command_data); [ apply Hnil; discriminate | ].
  cbv zeta. destruct (py_eq_str _ _); [ | apply Hnil; discriminate ].
  destruct (py_ge _ _) as [[ | ] | e]; try (apply Hnil; discriminate).
  match goal with
  | |- context [move_forward env ?w1] =>
      destruct (move_forward_extends env w1) as (d & Ht & Hs & Hc & Hn & Hd & Hr)
  end.
  cbn [self trace] in *. eexists. split; [ rewrite Ht, <- app_assoc; reflexivity | ].
  split; [ exact Hs | ]. split; [ | exact Hr ].
  apply quiet_steady_app; [ repeat split | ]. repeat split; assumption.
Qed.

Lemma emotiv_cycle_spec env w r w' :
  robot_conn (self w) = true ->
  Emotiv.cycle env w = (r, w') ->
  exists d, trace w' = trace w ++ d /\ self w' = self w /\
    steady (robot_config (self w)) d /\ r <> OutOfFuel.
Proof.
  intros _ H. unfold Emotiv.cycle in H. unfold bind in H.
  assert (Hs : silent (via (fun s : Emotiv.BCIRobotController => Emotiv.cortex (bci s))
                           receive_data))
    by (apply silent_via; reflexivity).
  destruct (Hs env w) as (d0 & Ht0 & Hs0 & Hq0 & Hf0).
  destruct (via _ receive_data env w) as [[mc | e | ] w0]; cbn [fst snd] in *;
    [ | injection H as <- <-; exists d0; four_parts; auto using quiet_steady; discriminate
      | contradiction ].
  destruct (emotiv_process_spec env w0 mc) as (d1 & Ht1 & Hs1 & Hst1 & Hf1).
  rewrite H in *. cbn [fst snd] in *.
  exists (d0 ++ d1). four_parts.
  - rewrite Ht1, Ht0, app_assoc. reflexivity.
  - congruence.
  - apply quiet_steady_app; [ assumption | ]. rewrite <- Hs0. exact Hst1.
  - exact Hf1.
Qed.

Lemma brainflow_monitor_spec fuel env w r w' :
  robot_conn (self w) = true -> brainflow_monitor fuel env w = (r, w') ->
  exists d, trace w' = trace w ++ d /\ cleanups d = 0%nat /\ connections d = 0%nat /\
    move_blocks (robot_config (self w)) (dispatches d) /\
    robot_config (self w') = robot_config (self w).
Proof.
  intros Hconn H. unfold brainflow_monitor in H.
  unfold bind at 1, modify at 1 in H. unfold bind at 1, info at 1, emit at 1 in H.
  cbn [self trace] in H.
  match type of H with
  | while _ _ _ _ ?w3 = _ =>
      destruct (while_steady BrainFlow.cycle brainflow_cycle_spec fuel env w3 r w') as
        (d3 & Ht3 & Hs3 & Hc3 & Hn3 & Hd3); [ exact Hconn | exact H | ]
  end.
  cbn [self trace set_running robot_config] in *.
  eexists. split; [ rewrite Ht3, <- app_assoc; reflexivity | ].
  rewrite cleanups_app, connections_app, dispatches_app, Hc3, Hn3, Hs3.
  repeat split. exact Hd3.
Qed.

Lemma emotiv_monitor_spec fuel env w r w' :
  robot_conn (self w) = true -> emotiv_monitor fuel env w = (r, w') ->
  exists d, trace w' = trace w ++ d /\ cleanups d = 0%nat /\ connections d = 0%nat /\
    move_blocks (robot_config (self w)) (dispatches d) /\
    robot_config (self w') = robot_config (self w).
Proof.
  intros Hconn H. unfold emotiv_monitor in H.
  unfold bind at 1, modify at 1 in H. unfold bind at 1, info at 1, emit at 1 in H.
  cbn [self trace] in H. unfold bind at 1 in H.
  set (w1 := World (set_running true (self w))
                   (trace w ++ [Logged INFO "Starting mental command monitoring..." no_arg]))
    in *.
  assert (Hs : silent (via (fun s : Emotiv.BCIRobotController => Emotiv.cortex (bci s))
                           (subscribe ["com"])))
    by (apply silent_via; reflexivity).
  destruct (Hs env w1) as (d2 & Ht2 & Hs2 & (Hd2 & Hc2 & Hn2) & Hf2).
  destruct (via _ (subscribe ["com"]) env w1) as [[[] | e | ] w2]; cbn [fst snd] in *;
    [ | injection H as <- <- | contradiction ].
  - destruct (while_steady Emotiv.cycle emotiv_cycle_spec fuel env w2 r w') as
      (d3 & Ht3 & Hs3 & Hc3 & Hn3 & Hd3); [ rewrite Hs2; exact Hconn | exact H | ].
    rewrite Hs2 in Hd3. cbn [self trace set_running robot_config w1] in *.
    eexists. split; [ rewrite Ht3, Ht2, <- !app_assoc; reflexivity | ].
    rewrite !cleanups_app, !connections_app, !dispatches_app, Hc3, Hn3, Hc2, Hn2, Hd2, Hs3, Hs2.
    repeat split. exact Hd3.
  - cbn [self trace set_running robot_config w1] in *.
    eexists. split; [ rewrite Ht2, <- !app_assoc; reflexivity | ].
    rewrite !cleanups_app, !connections_app, !dispatches_app, Hc2, Hn2, Hd2, Hs2.
    repeat split. constructor.
Qed.

Lemma brainflow_program_spec fuel env w r w' :
  BrainFlow.program fuel env w = (r, w') ->
  exists d, trace w' = trace w ++ d /\
    protocol (robot_config (self w)) d /\
    cleanups d = match fst (BrainFlow.__init__ env w) with
                 | Done _ => cleanups_due r 2
                 | _ => 0%nat
                 end.
Proof.
  rewrite brainflow_program_shape.
  apply (lifecycle_program_spec _ _ _ _ brainflow_init_spec brainflow_source_spec
           brainflow_monitor_spec brainflow_teardown_spec).
Qed.

Lemma emotiv_program_spec fuel env w r w' :
  Emotiv.program fuel env w = (r, w') ->
  exists d, trace w' = trace w ++ d /\
    protocol (robot_config (self w)) d /\
    cleanups d = match fst (Emotiv.__init__ env w) with
                 | Done _ => cleanups_due r 2
                 | _ => 0%nat
                 end.
Proof.
  rewrite emotiv_program_shape.
  apply (lifecycle_program_spec _ _ _ _ emotiv_init_spec emotiv_source_spec
           emotiv_monitor_spec emotiv_teardown_spec).
Qed.

(** ** Consequences of the protocol *)

Lemma move_blocks_mode_sets cfg bl : move_blocks cfg bl -> mode_sets bl = [].
Proof.
  induction 1 as [ | b ds Hb Hds IH]; [ reflexivity | ].
  unfold mode_sets in *. rewrite omap_app, IH, app_nil_r.
  destruct Hb as [-> | ->]; reflexivity.
Qed.

Lemma move_blocks_stop_follows_move cfg bl :
  move_blocks cfg bl ->
  forall pre post, bl = pre ++ (SPORT_MOD, stop_request) :: post ->
  exists pre', pre = pre' ++ [(SPORT_MOD, move_request cfg)].
Proof.
  induction 1 as [ | b ds Hb Hds IH]; intros pre post E.
  - destruct pre; discriminate E.
  - destruct Hb as [-> | ->]; cbn [app] in E.
    + destruct pre as [ | x pre1]; cbn [app] in E; [ discriminate E | ].
      injection E as <- E. destruct (IH _ _ E) as [p ->].
      exists ((SPORT_MOD, move_request cfg) :: p). reflexivity.
    + destruct pre as [ | x [ | y pre2]]; cbn [app] in E; [ discriminate E | | ].
      * injection E as <- _. exists []. reflexivity.
      * injection E as <- <- E. destruct (IH _ _ E) as [p ->].
        exists ((SPORT_MOD, move_request cfg) :: (SPORT_MOD, stop_request) :: p). reflexivity.
Qed.

Lemma protocol_mode_sets cfg d :
  protocol cfg d ->
  mode_sets (dispatches d) = repeat (mode_request "normal") (connections d).
Proof.
  intros (Hle & bl & -> & Hb & _). unfold mode_sets. rewrite omap_app.
  fold (mode_sets bl). rewrite (move_blocks_mode_sets _ _ Hb), app_nil_r.
  destruct (connections d) as [ | [ | n]]; [ reflexivity | reflexivity | lia ].
Qed.

Lemma protocol_mode_first cfg d pre r post :
  protocol cfg d ->
  dispatches d = pre ++ (SPORT_MOD, r) :: post -> In mode_dispatch pre.
Proof.
  intros (Hle & bl & Hd & Hb & H0) E. rewrite Hd in E.
  destruct (connections d) as [ | [ | n]]; [ | | lia ].
  - rewrite (H0 eq_refl) in E. destruct pre; discriminate E.
  - cbn [repeat app] in E. destruct pre as [ | x pre1]; cbn [app] in E.
    + discriminate E.
    + injection E as <- _. left. reflexivity.
Qed.

Lemma protocol_stop_follows_move cfg d pre post :
  protocol cfg d ->
  dispatches d = pre ++ (SPORT_MOD, stop_request) :: post ->
  exists pre', pre = pre' ++ [(SPORT_MOD, move_request cfg)].
Proof.
  intros (Hle & bl & Hd & Hb & H0) E. rewrite Hd in E.
  destruct (connections d) as [ | [ | n]]; [ | | lia ].
  - cbn [repeat app] in E. exact (move_blocks_stop_follows_move _ _ Hb _ _ E).
  - cbn [repeat app] in E. destruct pre as [ | x pre1]; cbn [app] in E.
    + discriminate E.
    + injection E as <- E.
      destruct (move_blocks_stop_follows_move _ _ Hb _ _ E) as [p ->].
      exists (mode_dispatch :: p). reflexivity.
Qed.

Lemma protocol_discipline cfg d :
  protocol cfg d ->
  (connections d <= 1)%nat /\
  mode_sets (dispatches d) = repeat (mode_request "normal") (connections d) /\
  (forall pre r post,
     dispatches d = pre ++ (SPORT_MOD, r) :: post -> In mode_dispatch pre) /\
  (forall pre post,
     dispatches d = pre ++ (SPORT_MOD, stop_request) :: post ->
     exists pre', pre = pre' ++ [(SPORT_MOD, move_request cfg)]).
Proof.
  intros Hp. split; [ apply Hp | ]. split; [ apply (protocol_mode_sets _ _ Hp) | ]. split.
  - intros pre r0 post. apply (protocol_mode_first _ _ _ _ _ Hp).
  - intros pre post. apply (protocol_stop_follows_move _ _ _ _ Hp).
Qed.

(** C7: in every run of either program there is at most one robot
    connection, the motion mode is switched (to "normal") once for each
    connection made, every movement dispatch comes after that switch, and a
    stop dispatch comes directly after its move dispatch. *)
Theorem mode_set_once_before_movement :
  (forall bci_cfg robot_cfg fuel env,
     let tr := trace (snd (BrainFlow.program fuel env (BrainFlow.start bci_cfg robot_cfg))) in
     (connections tr <= 1)%nat /\
     mode_sets (dispatches tr) = repeat (mode_request "normal") (connections tr) /\
     (forall pre r post,
        dispatches tr = pre ++ (SPORT_MOD, r) :: post -> In mode_dispatch pre) /\
     (forall pre post,
        dispatches tr = pre ++ (SPORT_MOD, stop_request) :: post ->
        exists pre', pre = pre' ++ [(SPORT_MOD, move_request robot_cfg)])) /\
  (forall bci_cfg robot_cfg fuel env,
     let tr := trace (snd (Emotiv.program fuel env (Emotiv.start bci_cfg robot_cfg))) in
     (connections tr <= 1)%nat /\
     mode_sets (dispatches tr) = repeat (mode_request "normal") (connections tr) /\
     (forall pre r post,
        dispatches tr = pre ++ (SPORT_MOD, r) :: post -> In mode_dispatch pre) /\
     (forall pre post,
        dispatches tr = pre ++ (SPORT_MOD, stop_request) :: post ->
        exists pre', pre = pre' ++ [(SPORT_MOD, move_request robot_cfg)])).
Proof.
  split; intros bci_cfg robot_cfg fuel env.
  - destruct (BrainFlow.program fuel env (BrainFlow.start bci_cfg robot_cfg)) as [r w'] eqn:E.
    destruct (brainflow_program_spec _ _ _ _ _ E) as (d & Ht & Hp & _).
    cbn [snd]. cbn in Ht. rewrite Ht. exact (protocol_discipline _ _ Hp).
  - destruct (Emotiv.program fuel env (Emotiv.start bci_cfg robot_cfg)) as [r w'] eqn:E.
    destruct (emotiv_program_spec _ _ _ _ _ E) as (d & Ht & Hp & _).
    cbn [snd]. cbn in Ht. rewrite Ht. exact (protocol_discipline _ _ Hp).
Qed.

(** C3, as the code has it: once the controller is constructed, a run of
    either program that comes to an end enters [cleanup] twice, from the
    [finally] of [run] and again from the [finally] of [main] (and not at
    all when the constructor raises).  [cleanup] only clears [running]: the
    board, model, session and connection handles stay set, so its second
    invocation has the same teardown steps to take. *)
Theorem cleanup_entered_twice :
  (forall bci_cfg robot_cfg fuel env,
     let w := BrainFlow.start bci_cfg robot_cfg in
     cleanups (trace (snd (BrainFlow.program fuel env w))) =
       match fst (BrainFlow.__init__ env w) with
       | Done _ => cleanups_due (fst (BrainFlow.program fuel env w)) 2
       | _ => 0%nat
       end) /\
  (forall bci_cfg robot_cfg fuel env,
     let w := Emotiv.start bci_cfg robot_cfg in
     cleanups (trace (snd (Emotiv.program fuel env w))) =
       match fst (Emotiv.__init__ env w) with
       | Done _ => cleanups_due (fst (Emotiv.program fuel env w)) 2
       | _ => 0%nat
       end) /\
  (forall env w,
     self (snd (BrainFlow.cleanup env w)) = set_running false (self w) /\
     brainflow_plan (self (snd (BrainFlow.cleanup env w))) = brainflow_plan (self w)) /\
  (forall env w,
     self (snd (Emotiv.cleanup env w)) = set_running false (self w) /\
     emotiv_plan (self (snd (Emotiv.cleanup env w))) = emotiv_plan (self w)).
Proof.
  split; [ | split; [ | split ] ].
  - intros bci_cfg robot_cfg fuel env w.
    destruct (BrainFlow.program fuel env w) as [r w'] eqn:E.
    destruct (brainflow_program_spec _ _ _ _ _ E) as (d & Ht & _ & Hc).
    cbn [fst snd]. cbn in Ht. rewrite Ht. exact Hc.
  - intros bci_cfg robot_cfg fuel env w.
    destruct (Emotiv.program fuel env w) as [r w'] eqn:E.
    destruct (emotiv_program_spec _ _ _ _ _ E) as (d & Ht & _ & Hc).
    cbn [fst snd]. cbn in Ht. rewrite Ht. exact Hc.
  - intros env w. destruct (BrainFlow.cleanup env w) as [r w'] eqn:E.
    destruct (brainflow_cleanup_spec _ _ _ _ E) as (d & _ & _ & _ & _ & _ & Hs & _).
    cbn [snd]. rewrite Hs. split; reflexivity.
  - intros env w. destruct (Emotiv.cleanup env w) as [r w'] eqn:E.
    destruct (emotiv_cleanup_spec _ _ _ _ E) as (d & _ & _ & _ & _ & _ & Hs & _).
    cbn [snd]. rewrite Hs. split; reflexivity.
Qed.

(** C3 fails as stated: in scenario A, ended by an interrupt at the fifth
    poll, [cleanup] is entered twice and every teardown operation is called
    a second time. *)
Lemma scenario_A_cleans_up_twice :
  cleanups (trace (snd (BrainFlow.main 5 scenario_A))) = 2%nat /\
  teardown (trace (snd (BrainFlow.main 5 scenario_A)))
    = [StopStreaming; CloseSession; ReleaseExtractor; DisconnectActuator;
       StopStreaming; CloseSession; ReleaseExtractor; DisconnectActuator] /\
  fst (BrainFlow.main 5 scenario_A) = Done tt.
Proof. vm_compute. auto. Qed.

(** * Further properties of the single functions *)

(** ** move_forward *)

(** X1: [move_forward] never lets an [Exception] out and never changes the
    controller: it returns normally, or passes on a KeyboardInterrupt or a
    cancellation.  Called without a robot connection it makes no call at
    all: looking up [datachannel] on [None] raises the AttributeError, which
    is logged as a failed movement, and [move_forward] returns. *)
Theorem move_forward_absorbs_exceptions :
  forall B env (w : world (controller B)),
    self (snd (move_forward env w)) = self w /\
    not_an_exception (fst (move_forward env w)) /\
    (robot_conn (self w) = false ->
     move_forward env w =
       (Done tt, logged_error w "Movement execution failed: "
                              "'NoneType' object has no attribute 'datachannel'")).
Proof.
  intros B env w. split; [ | split ].
  - destruct (move_forward_extends env w) as (d & _ & Hs & _). exact Hs.
  - destruct (robot_conn (self w)) eqn:Hc.
    + destruct (move_forward env w) as [r w'] eqn:E.
      destruct (move_forward_spec _ _ _ _ Hc E) as (d & _ & _ & _ & _ & _ & _ & Hr).
      exact Hr.
    + destruct (move_forward_unconnected env w Hc) as (d & _ & _ & _ & Hr).
      rewrite Hr. exact I.
  - destruct w as [[b rc conn run] tr]. cbn [self robot_conn]. intros ->. reflexivity.
Qed.

(** X2: on a connected robot, a [move_forward] in which no call raises
    does exactly this, in this order: publish the move command with the
    configured speed, log it, sleep for the configured [move_duration],
    publish the stop command.  When a call raises an [Exception], that
    call is the last one: the error is logged and nothing is published
    after it. *)
Theorem move_forward_waits_then_stops :
  forall B env (w : world (controller B)),
    robot_conn (self w) = true ->
    exists d, trace (snd (move_forward env w)) = trace w ++ d /\
      match raises d with
      | [] =>
          d = [Called (publish_request_new SPORT_MOD (move_request (robot_config (self w))))
                      (Returns tt);
               Logged INFO "Moving forward" no_arg;
               Called (sleep (move_duration (robot_config (self w)))) (Returns tt);
               Called (publish_request_new SPORT_MOD stop_request) (Returns tt)] /\
          fst (move_forward env w) = Done tt
      | [Exception msg] =>
          exists R (c : call R) before,
            d = before ++ [Called c (Raises (Exception msg));
                           Logged ERROR "Movement execution failed: " (arg_str msg)] /\
            fst (move_forward env w) = Done tt
      | [e] => fst (move_forward env w) = Raised e
      | _ => False
      end.
Proof.
  intros B env w. destruct w as [[b rc conn run] tr]. cbn [self robot_conn]. intros ->.
  destruct (move_forward env _) as [r w'] eqn:H.
  unfold move_forward, publish in H. unfold_monad_in H. split_answers H;
    injection H as <- <-; cbn [fst snd self trace robot_config];
    (eexists; split; [ finish_trace | ]);
    cbn; repeat match goal with u : unit |- _ => destruct u end;
    try (split; reflexivity); try reflexivity;
    first [ eexists _, _, []; split; reflexivity
          | eexists _, _, [_; _]; split; reflexivity
          | eexists _, _, [_; _; _]; split; reflexivity ].
Qed.

Lemma move_forward_waits_then_stops_witness :
  exists d,
    trace (snd (move_forward (obliging 0.7) brainflow_ready)) = trace brainflow_ready ++ d /\
    external_calls d = 3%nat.
Proof.
  destruct (move_forward_waits_then_stops _ (obliging 0.7) brainflow_ready eq_refl)
    as (d & Ht & Hd).
  exists d. split; [ exact Ht | ].
  cbn in Ht. subst d. reflexivity.
Defined.

(** ** process_brain_data *)

Lemma for_range_bandpass {St} (cfg : BrainFlow.BCIConfig) n :
  forall start env (w : world St) r w',
    for_range start n
      (fun channel =>
         ext (perform_bandpass channel (BrainFlow.sampling_rate cfg) 8 30 3 "BUTTERWORTH" 0))
      env w = (r, w') ->
    self w' = self w /\
    exists d, trace w' = trace w ++ d /\
      match r with
      | Done _ => d = map (bandpass_event cfg) (seq start n)
      | Raised _ => True
      | OutOfFuel => False
      end.
Proof.
  induction n as [ | n IH]; intros start env w r w' H; cbn [for_range] in H.
  - injection H as <- <-. split; [ reflexivity | ]. exists []. rewrite app_nil_r. auto.
  - unfold bind at 1, ext at 1 in H. cbv zeta in H.
    destruct (env (trace w) unit _) as [[] | e] eqn:E.
    + apply IH in H. destruct H as (Hs & d & Ht & Hr). cbn [self trace] in *.
      split; [ exact Hs | ]. exists (bandpass_event cfg start :: d).
      split; [ rewrite Ht, <- app_assoc; reflexivity | ].
      destruct r; auto. cbn [seq map]. rewrite Hr. reflexivity.
    + injection H as <- <-. split; [ reflexivity | ]. eexists. split; [ reflexivity | exact I ].
Qed.

Lemma brainflow_compute_score_spec env w data r w' :
  BrainFlow.compute_score data env w = (r, w') ->
  let cfg := BrainFlow.bci_config (bci (self w)) in
  self w' = self w /\
  exists d, trace w' = trace w ++ d /\
    match r with
    | Done s =>
        exists channels eeg_data,
          d = [Called (get_eeg_channels (BrainFlow.board_id cfg)) (Returns channels);
               Called (ndarray_getitem data channels) (Returns eeg_data)] ++
              map (bandpass_event cfg) (seq 0 (rows eeg_data)) ++
              [Called (get_avg_band_powers eeg_data (BrainFlow.sampling_rate cfg) true)
                      (Returns tt);
               Called model_predict (Returns s)]
    | Raised _ => True
    | OutOfFuel => False
    end.
Proof.
  intros H cfg.
  destruct (brainflow_compute_score_silent data env w) as (d & Ht & Hs & _ & Hf).
  rewrite H in Ht, Hs, Hf. cbn [fst snd] in *.
  split; [ exact Hs | ]. exists d. split; [ exact Ht | ].
  destruct r as [s | e | ]; [ | exact I | contradiction ].
  unfold BrainFlow.compute_score in H. unfold bind at 1, get at 1 in H.
  unfold bind at 1, ext at 1 in H. cbv zeta in H.
  destruct (env (trace w) _ _) as [channels | e]; [ | discriminate H ].
  unfold bind at 1, ext at 1 in H. cbv zeta in H. cbn [self trace] in H.
  match type of H with
  | context [match ?env0 ?tr0 ?R0 ?c0 with Returns _ => _ | Raises _ => _ end] =>
      destruct (env0 tr0 R0 c0) as [eeg_data | e]; [ | discriminate H ]
  end.
  unfold bind at 1 in H.
  match type of H with
  | context [for_range 0 ?n ?body env ?w2] =>
      destruct (for_range 0 n body env w2) as [r3 w3] eqn:E3;
      apply (for_range_bandpass cfg) in E3; destruct E3 as (Hs3 & d3 & Ht3 & Hr3)
  end.
  destruct r3 as [[] | e | ]; [ | discriminate H | contradiction ].
  unfold bind at 1, ext at 1 in H. cbv zeta in H.
  destruct (env (trace w3) _ _) as [[] | e]; [ | discriminate H ].
  unfold via, ext in H. cbv zeta in H. cbn [self trace] in H. rewrite Hs3 in H. cbn [self] in H.
  destruct (BrainFlow.concentration_model (bci (self w))); [ | discriminate H ].
  match type of H with
  | context [match ?env0 ?tr0 ?R0 ?c0 with Returns _ => _ | Raises _ => _ end] =>
      destruct (env0 tr0 R0 c0) as [s' | e]; [ | discriminate H ]
  end.
  injection H as <- <-. cbn [trace] in Ht. rewrite Ht3 in Ht. cbn [trace] in Ht.
  exists channels, eeg_data. subst d3.
  rewrite <- !app_assoc in Ht. apply app_inv_head in Ht. subst d.
  reflexivity.
Qed.

(** X3: [process_brain_data] never lets an [Exception] out and leaves the
    controller as it is.  The score it returns is the classifier's
    prediction, obtained after reading the EEG rows of the window,
    band-pass filtering (8-30 Hz, order 3, Butterworth) every row once in
    order, and computing the band powers; or it is 0.0, right after the
    error was logged. *)
Theorem process_brain_data_outcomes :
  forall env (w : world BrainFlow.BrainFlowRobotController) data,
    let cfg := BrainFlow.bci_config (bci (self w)) in
    self (snd (BrainFlow.process_brain_data data env w)) = self w /\
    exists d, trace (snd (BrainFlow.process_brain_data data env w)) = trace w ++ d /\
      match fst (BrainFlow.process_brain_data data env w) with
      | Done s =>
          (exists channels eeg_data,
             d = [Called (get_eeg_channels (BrainFlow.board_id cfg)) (Returns channels);
                  Called (ndarray_getitem data channels) (Returns eeg_data)] ++
                 map (bandpass_event cfg) (seq 0 (rows eeg_data)) ++
                 [Called (get_avg_band_powers eeg_data (BrainFlow.sampling_rate cfg) true)
                         (Returns tt);
                  Called model_predict (Returns s)]) \/
          (s = 0%float /\
           exists msg before,
             d = before ++ [Logged ERROR "Error processing brain data: " (arg_str msg)])
      | Raised e => e = KeyboardInterrupt \/ e = CancelledError
      | OutOfFuel => False
      end.
Proof.
  intros env w data cfg. unfold BrainFlow.process_brain_data, try_except.
  destruct (BrainFlow.compute_score data env w) as [r w1] eqn:E.
  destruct (brainflow_compute_score_spec _ _ _ _ _ E) as (Hs & d & Ht & Hr).
  destruct r as [s | [msg | | ] | ]; cbn [fst snd]; try contradiction.
  - split; [ exact Hs | ]. exists d. split; [ exact Ht | ]. left. exact Hr.
  - unfold bind, error, emit, ret. cbn [fst snd self trace].
    split; [ exact Hs | ]. eexists. split; [ rewrite Ht, <- app_assoc; reflexivity | ].
    right. split; [ reflexivity | ]. exists msg, d. reflexivity.
  - split; [ exact Hs | ]. exists d. auto.
  - split; [ exact Hs | ]. exists d. auto.
Qed.

(** ** One cycle, and the loop around it *)

Lemma move_forward_dispatch_connected {B} env (w : world (controller B)) :
  exists d, trace (snd (move_forward env w)) = trace w ++ d /\
    self (snd (move_forward env w)) = self w /\
    fst (move_forward env w) <> OutOfFuel /\
    (dispatches d <> [] -> robot_conn (self w) = true).
Proof.
  destruct (robot_conn (self w)) eqn:Hc.
  - destruct (move_forward_extends env w) as (d & Ht & Hs & _ & _ & _ & Hf).
    exists d. auto.
  - destruct (move_forward_unconnected env w Hc) as (d & Ht & Hs & (Hd & _) & Hr).
    exists d. four_parts.
    + exact Ht.
    + exact Hs.
    + rewrite Hr. discriminate.
    + intros Hne. contradiction.
Qed.

Lemma brainflow_cycle_any env w r w' :
  BrainFlow.cycle env w = (r, w') ->
  exists d, trace w' = trace w ++ d /\ self w' = self w /\ r <> OutOfFuel /\
    (dispatches d <> [] ->
     robot_conn (self w) = true /\
     exists data s,
       fst (BrainFlow.poll env w) = Done data /\ (0 < size data)%nat /\
       fst (BrainFlow.process_brain_data data env (snd (BrainFlow.poll env w))) = Done s /\
       (BrainFlow.command_threshold (BrainFlow.bci_config (bci (self w))) <=? s)%float = true).
Proof.
  intros H.
  destruct (brainflow_poll_silent env w) as (d0 & Ht0 & Hs0 & (Hd0 & _) & Hf0).
  unfold BrainFlow.cycle in H. unfold bind at 1 in H.
  destruct (BrainFlow.poll env w) as [[data | e | ] w0] eqn:Ep; cbn [fst snd] in *;
    [ | injection H as <- <-; exists d0; four_parts;
          [ exact Ht0 | exact Hs0 | discriminate | intros Hne; contradiction ]
      | contradiction ].
  unfold bind at 1 in H.
  destruct (0 <? size data)%nat eqn:Hsz; cbn [when] in H.
  - apply Nat.ltb_lt in Hsz. unfold bind at 1 in H.
    destruct (brainflow_process_brain_data_silent data env w0)
      as (d1 & Ht1 & Hs1 & (Hd1 & _) & Hf1).
    destruct (BrainFlow.process_brain_data data env w0) as [[s | e | ] w1] eqn:E1;
      cbn [fst snd] in *;
      [ | injection H as <- <-; exists (d0 ++ d1); four_parts;
          [ rewrite Ht1, Ht0, app_assoc; reflexivity | congruence | discriminate
          | rewrite dispatches_app, Hd0, Hd1; intros Hne; contradiction ]
        | contradiction ].
    unfold bind at 1, get at 1 in H. cbn beta iota in H. rewrite Hs1, Hs0 in H.
    destruct (BrainFlow.command_threshold (BrainFlow.bci_config (bci (self w))) <=? s)%float
      eqn:Hthr; cbn [when] in H.
    + unfold bind at 1, info at 1, emit at 1 in H.
      cbn beta iota in H. cbn [self trace] in H.
      set (hi := Logged INFO "High concentration detected: " (arg_float s)) in *.
      destruct (move_forward_dispatch_connected env (World (self w1) (trace w1 ++ [hi])))
        as (d2 & Ht2 & Hs2 & Hf2 & Hc2).
      cbn [self trace] in *. rewrite Hs1, Hs0 in Hc2.
      assert (Hfront : forall dz, dispatches dz = [] ->
                dispatches (d0 ++ d1 ++ [hi] ++ d2 ++ dz) <> [] ->
                robot_conn (self w) = true /\
                exists data' s',
                  Done data = Done data' /\ (0 < size data')%nat /\
                  fst (BrainFlow.process_brain_data data' env w0) = Done s' /\
                  (BrainFlow.command_threshold (BrainFlow.bci_config (bci (self w))) <=? s')%float
                    = true).
      { intros dz Hdz. rewrite !dispatches_app, Hd0, Hd1, Hdz, app_nil_r.
        cbn [app dispatches omap hi dispatch_of].
        intros Hne. split; [ apply Hc2; exact Hne | ].
        exists data, s. rewrite E1. auto. }
      destruct (move_forward env (World (self w1) (trace w1 ++ [hi]))) as [[[] | e | ] w2];
        cbn [fst snd] in *; cbn beta iota in H; [ | | contradiction ].
      * destruct (sleep_silent 0.1 env w2) as (d3 & Ht3 & Hs3 & (Hd3 & _) & Hf3).
        rewrite H in *. cbn [fst snd] in *.
        exists (d0 ++ d1 ++ [hi] ++ d2 ++ d3). four_parts.
        -- rewrite Ht3, Ht2, Ht1, Ht0, <- !app_assoc. reflexivity.
        -- congruence.
        -- exact Hf3.
        -- apply Hfront, Hd3.
      * injection H as <- <-. exists (d0 ++ d1 ++ [hi] ++ d2 ++ []). four_parts.
        -- rewrite app_nil_r, Ht2, Ht1, Ht0, <- !app_assoc. reflexivity.
        -- congruence.
        -- discriminate.
        -- apply Hfront. reflexivity.
    + unfold ret at 1 in H. cbn beta iota in H.
      destruct (sleep_silent 0.1 env w1) as (d3 & Ht3 & Hs3 & (Hd3 & _) & Hf3).
      rewrite H in *. cbn [fst snd] in *.
      exists (d0 ++ d1 ++ d3). four_parts.
      * rewrite Ht3, Ht1, Ht0, <- !app_assoc. reflexivity.
      * congruence.
      * exact Hf3.
      * rewrite !dispatches_app, Hd0, Hd1, Hd3. intros Hne. contradiction.
  - unfold ret at 1 in H. cbn beta iota in H.
    destruct (sleep_silent 0.1 env w0) as (d3 & Ht3 & Hs3 & (Hd3 & _) & Hf3).
    rewrite H in *. cbn [fst snd] in *.
    exists (d0 ++ d3). four_parts.
    + rewrite Ht3, Ht0, <- !app_assoc. reflexivity.
    + congruence.
    + exact Hf3.
    + rewrite !dispatches_app, Hd0, Hd3. intros Hne. contradiction.
Qed.

(** X4: a cycle of the BrainFlow loop publishes something only if all of
    this holds: the robot is connected, the poll returned a window that is
    not empty, [process_brain_data] returned a score, and that score is at
    least the threshold.  In particular an empty window, a failed poll and
    a score below the threshold publish nothing. *)
Theorem cycle_dispatches_only_above_threshold :
  forall env (w : world BrainFlow.BrainFlowRobotController),
    exists d, trace (snd (BrainFlow.cycle env w)) = trace w ++ d /\
      (dispatches d <> [] ->
       robot_conn (self w) = true /\
       exists data s,
         fst (BrainFlow.poll env w) = Done data /\ (0 < size data)%nat /\
         fst (BrainFlow.process_brain_data data env (snd (BrainFlow.poll env w))) = Done s /\
         (BrainFlow.command_threshold (BrainFlow.bci_config (bci (self w))) <=? s)%float = true).
Proof.
  intros env w. destruct (BrainFlow.cycle env w) as [r w'] eqn:E.
  destruct (brainflow_cycle_any _ _ _ _ E) as (d & Ht & _ & _ & Hd).
  exists d. auto.
Qed.

Lemma emotiv_cycle_any env w r w' :
  Emotiv.cycle env w = (r, w') -> self w' = self w /\ r <> OutOfFuel.
Proof.
  intros H. unfold Emotiv.cycle in H. unfold bind in H.
  assert (Hs : silent (via (fun s : Emotiv.BCIRobotController => Emotiv.cortex (bci s))
                           receive_data))
    by (apply silent_via; reflexivity).
  destruct (Hs env w) as (d0 & _ & Hs0 & _ & Hf0).
  destruct (via _ receive_data env w) as [[mc | e | ] w0]; cbn [fst snd] in *;
    [ | injection H as <- <-; split; [ exact Hs0 | discriminate ] | contradiction ].
  destruct (emotiv_process_spec env w0 mc) as (d1 & _ & Hs1 & _ & Hf1).
  rewrite H in *. cbn [fst snd] in *. split; [ congruence | exact Hf1 ].
Qed.

Lemma while_keeps_condition {St} (cond : St -> bool) (body : M St unit) :
  (forall env w r w', body env w = (r, w') -> self w' = self w /\ r <> OutOfFuel) ->
  forall fuel env w r w',
    while fuel cond body env w = (r, w') ->
    self w' = self w /\ (cond (self w) = true -> r <> Done tt).
Proof.
  intros Hbody. induction fuel as [ | fuel IH]; intros env w r w' H.
  - cbn in H. destruct (cond (self w)); injection H as <- <-;
      (split; [ reflexivity | intros Hc; discriminate ]).
  - cbn [while] in H. unfold bind at 1, get at 1 in H.
    destruct (cond (self w)) eqn:Hc.
    + unfold bind in H. destruct (body env w) as [rb wb] eqn:Eb.
      destruct (Hbody _ _ _ _ Eb) as (Hs & Hf).
      destruct rb as [[] | e | ]; [ | | contradiction ].
      * destruct (IH _ _ _ _ H) as (Hs' & Hr'). rewrite Hs in Hs', Hr'.
        split; [ exact Hs' | intros _; apply Hr'; exact Hc ].
      * injection H as <- <-. split; [ exact Hs | discriminate ].
    + cbn in H. injection H as <- <-. split; [ reflexivity | discriminate ].
Qed.

(** X5: the monitoring loop never ends by itself.  Nothing in a cycle of
    either loop changes the controller, so [running], once set, stays set
    while the loop runs: the loop does not return normally, it ends only
    when an exception leaves a cycle. *)
Theorem loop_never_ends_by_itself :
  (forall fuel env (w : world BrainFlow.BrainFlowRobotController),
     running (self w) = true ->
     self (snd (while fuel running BrainFlow.cycle env w)) = self w /\
     fst (while fuel running BrainFlow.cycle env w) <> Done tt) /\
  (forall fuel env (w : world Emotiv.BCIRobotController),
     running (self w) = true ->
     self (snd (while fuel running Emotiv.cycle env w)) = self w /\
     fst (while fuel running Emotiv.cycle env w) <> Done tt).
Proof.
  split; intros fuel env w Hrun.
  - destruct (while fuel running BrainFlow.cycle env w) as [r w'] eqn:E.
    apply while_keeps_condition in E.
    + cbn [fst snd]. destruct E as (Hs & Hr). auto.
    + intros env0 w0 r0 w0' H0.
      destruct (brainflow_cycle_any _ _ _ _ H0) as (d & _ & Hs & Hf & _). auto.
  - destruct (while fuel running Emotiv.cycle env w) as [r w'] eqn:E.
    apply while_keeps_condition in E.
    + cbn [fst snd]. destruct E as (Hs & Hr). auto.
    + apply emotiv_cycle_any.
Qed.

Lemma loop_never_ends_by_itself_witness :
  fst (while 3 running BrainFlow.cycle (failing is_sleep (Exception "cancelled") (obliging 0.7))
             brainflow_ready) <> Done tt /\
  fst (while 3 running Emotiv.cycle (obliging 0.7) emotiv_ready) <> Done tt.
Proof.
  split.
  - exact (proj2 (proj1 loop_never_ends_by_itself 3%nat _ brainflow_ready eq_refl)).
  - exact (proj2 (proj2 loop_never_ends_by_itself 3%nat _ emotiv_ready eq_refl)).
Defined.

Lemma brainflow_cycle_obliging bci_cfg robot_cfg s tr :
  (BrainFlow.command_threshold bci_cfg <=? s)%float = true ->
  exists d,
    BrainFlow.cycle (obliging s) (brainflow_ready_with bci_cfg robot_cfg tr)
      = (Done tt, brainflow_ready_with bci_cfg robot_cfg (tr ++ d)) /\
    polls d = 1%nat /\ scores d = [s] /\ dispatches d = move_stop_pair robot_cfg.
Proof.
  intros Hthr.
  unfold brainflow_ready_with, BrainFlow.cycle, BrainFlow.poll, BrainFlow.process_brain_data,
    BrainFlow.compute_score, move_forward, publish.
  unfold when, info, error, via.
  unfold bind, ret, raise, emit, get, ext, try_except.
  lazy -[app PrimFloat.leb BrainFlow.command_threshold]. rewrite Hthr. lazy -[app].
  eexists. split; [ repeat rewrite <- app_assoc; reflexivity | ].
  repeat split.
Qed.

(** X6: the loop does not debounce.  While every call succeeds and the
    classifier keeps returning a score at or above the threshold, each
    cycle polls once and dispatches its own move and stop: after n cycles
    there are n polls and n move/stop pairs, and the loop is still going. *)
Theorem every_cycle_above_threshold_moves :
  forall bci_cfg robot_cfg s n tr,
    (BrainFlow.command_threshold bci_cfg <=? s)%float = true ->
    exists d,
      while n running BrainFlow.cycle (obliging s) (brainflow_ready_with bci_cfg robot_cfg tr)
        = (OutOfFuel, brainflow_ready_with bci_cfg robot_cfg (tr ++ d)) /\
      polls d = n /\ scores d = repeat s n /\
      dispatches d = concat (repeat (move_stop_pair robot_cfg) n).
Proof.
  intros bci_cfg robot_cfg s n. induction n as [ | n IH]; intros tr Hthr.
  - exists []. rewrite app_nil_r. repeat split.
  - destruct (brainflow_cycle_obliging bci_cfg robot_cfg s tr Hthr) as (d & Hc & Hp & Hs & Hd).
    destruct (IH (tr ++ d) Hthr) as (d' & Hw & Hp' & Hs' & Hd').
    exists (d ++ d'). split; [ | split; [ | split ] ].
    + cbn [while]. unfold bind at 1, get at 1. cbn [brainflow_ready_with self running].
      unfold bind at 1. fold (brainflow_ready_with bci_cfg robot_cfg tr).
      rewrite Hc, Hw, app_assoc. reflexivity.
    + rewrite polls_app, Hp, Hp'. reflexivity.
    + unfold scores in *. rewrite omap_app, Hs, Hs'. reflexivity.
    + rewrite dispatches_app, Hd, Hd'. reflexivity.
Qed.

Lemma every_cycle_above_threshold_moves_witness :
  exists d,
    while 3 running BrainFlow.cycle (obliging 0.7) brainflow_ready
      = (OutOfFuel, brainflow_ready_with BrainFlow.main_bci_config BrainFlow.main_robot_config
                      ([] ++ d)) /\
    length (dispatches d) = 6%nat.
Proof.
  destruct (every_cycle_above_threshold_moves BrainFlow.main_bci_config
              BrainFlow.main_robot_config 0.7%float 3%nat [] eq_refl)
    as (d & Hw & _ & _ & Hd).
  exists d. split; [ exact Hw | rewrite Hd; reflexivity ].
Defined.

(** ** run and main *)

Lemma brainflow_cleanup_raise env w e w' :
  BrainFlow.cleanup env w = (Raised e, w') ->
  exists step R (c : call R),
    last (trace w') = Some (Called c (Raises e)) /\
    teardown_of (Called c (Raises e)) = Some step.
Proof.
  destruct w as [[[cfg board model] rc conn run] tr].
  unfold BrainFlow.cleanup. intros H.
  destruct board, model, conn; unfold_monad_in H; split_answers H;
    try discriminate H; injection H as <- <-; cbn [trace];
    rewrite last_snoc; eexists _, _, _; split; reflexivity.
Qed.

Lemma emotiv_cleanup_raise env w e w' :
  Emotiv.cleanup env w = (Raised e, w') ->
  exists step R (c : call R),
    last (trace w') = Some (Called c (Raises e)) /\
    teardown_of (Called c (Raises e)) = Some step.
Proof.
  destruct w as [[[cfg cortex] rc conn run] tr].
  unfold Emotiv.cleanup. intros H.
  destruct cortex, conn; unfold_monad_in H; split_answers H;
    try discriminate H; injection H as <- <-; cbn [trace];
    rewrite last_snoc; eexists _, _, _; split; reflexivity.
Qed.

(** [try: body except Exception as e: log(e) finally: fin]: once it has
    ended, [fin] ran last, an exception of [fin] is the outcome, and no
    [Exception] of [body] is. *)
Lemma try_except_finally_outcome {St} (body : M St unit) what (fin : M St unit)
    env (w : world St) r w' :
  try_finally (try_except body (fun msg => error what (arg_str msg))) fin env w = (r, w') ->
  r = OutOfFuel \/
  exists w1 r2, fin env w1 = (r2, w') /\
    match r2 with
    | Done _ => forall msg, r <> Raised (Exception msg)
    | Raised e => r = Raised e
    | OutOfFuel => r = OutOfFuel
    end.
Proof.
  unfold try_finally, try_except. intros H.
  destruct (body env w) as [[[] | [msg | | ] | ] wb]; cbn in H;
    [ | | | | left; injection H as <- <-; reflexivity ];
    right;
    match type of H with context [fin env ?wl] =>
      destruct (fin env wl) as [[[] | e | ] w2] eqn:E
    end;
    cbn in H; injection H as <- <-;
    eexists _, _; (split; [ exact E | ]); cbn beta iota;
    try reflexivity; intros; discriminate.
Qed.

(** X7: an [Exception] leaves [run] only when a teardown call of its own
    [cleanup] raised it, and that call is then the last thing that
    happened.  Every [Exception] of the setup and of the loop is absorbed by
    [run]'s handler. *)
Theorem run_raises_only_cleanup_errors :
  (forall fuel env (w : world BrainFlow.BrainFlowRobotController) msg,
     fst (BrainFlow.run fuel env w) = Raised (Exception msg) ->
     exists step R (c : call R),
       last (trace (snd (BrainFlow.run fuel env w)))
         = Some (Called c (Raises (Exception msg))) /\
       teardown_of (Called c (Raises (Exception msg))) = Some step) /\
  (forall fuel env (w : world Emotiv.BCIRobotController) msg,
     fst (Emotiv.run fuel env w) = Raised (Exception msg) ->
     exists step R (c : call R),
       last (trace (snd (Emotiv.run fuel env w)))
         = Some (Called c (Raises (Exception msg))) /\
       teardown_of (Called c (Raises (Exception msg))) = Some step).
Proof.
  split; intros fuel env w msg H.
  - destruct (BrainFlow.run fuel env w) as [r w'] eqn:E. cbn [fst snd] in *. subst r.
    apply try_except_finally_outcome in E.
    destruct E as [E | (w1 & r2 & E & Hr)]; [ discriminate E | ].
    destruct r2 as [[] | e | ]; [ contradiction (Hr msg); reflexivity | | discriminate Hr ].
    injection Hr as <-. exact (brainflow_cleanup_raise _ _ _ _ E).
  - destruct (Emotiv.run fuel env w) as [r w'] eqn:E. cbn [fst snd] in *. subst r.
    apply try_except_finally_outcome in E.
    destruct E as [E | (w1 & r2 & E & Hr)]; [ discriminate E | ].
    destruct r2 as [[] | e | ]; [ contradiction (Hr msg); reflexivity | | discriminate Hr ].
    injection Hr as <-. exact (emotiv_cleanup_raise _ _ _ _ E).
Qed.

Lemma run_raises_only_cleanup_errors_witness :
  let env := failing is_stop_stream (Exception "stream is not running")
               (failing is_connect (Exception "robot unreachable") (obliging 0.7)) in
  let w := BrainFlow.start BrainFlow.main_bci_config BrainFlow.main_robot_config in
  exists step R (c : call R),
    last (trace (snd (BrainFlow.run 3 env w)))
      = Some (Called c (Raises (Exception "stream is not running"))) /\
    teardown_of (Called c (Raises (Exception "stream is not running"))) = Some step.
Proof.
  intros env w.
  exact (proj1 run_raises_only_cleanup_errors 3%nat env w "stream is not running" eq_refl).
Defined.

(** X8: however [run] ends, it leaves [running] cleared: its [finally]
    runs [cleanup], whose first step resets the flag, also when a later
    teardown step raises. *)
Theorem run_leaves_running_cleared :
  (forall fuel env (w : world BrainFlow.BrainFlowRobotController),
     fst (BrainFlow.run fuel env w) <> OutOfFuel ->
     running (self (snd (BrainFlow.run fuel env w))) = false) /\
  (forall fuel env (w : world Emotiv.BCIRobotController),
     fst (Emotiv.run fuel env w) <> OutOfFuel ->
     running (self (snd (Emotiv.run fuel env w))) = false).
Proof.
  split; intros fuel env w H.
  - destruct (BrainFlow.run fuel env w) as [r w'] eqn:E. cbn [fst snd] in *.
    apply try_except_finally_outcome in E.
    destruct E as [E | (w1 & r2 & E & Hr)]; [ contradiction | ].
    destruct (brainflow_cleanup_spec _ _ _ _ E) as (d & _ & _ & _ & _ & _ & Hs & _).
    rewrite Hs. reflexivity.
  - destruct (Emotiv.run fuel env w) as [r w'] eqn:E. cbn [fst snd] in *.
    apply try_except_finally_outcome in E.
    destruct E as [E | (w1 & r2 & E & Hr)]; [ contradiction | ].
    destruct (emotiv_cleanup_spec _ _ _ _ E) as (d & _ & _ & _ & _ & _ & Hs & _).
    rewrite Hs. reflexivity.
Qed.

Lemma run_leaves_running_cleared_witness :
  running (self (snd (BrainFlow.run 5 scenario_A
                        (BrainFlow.start BrainFlow.main_bci_config
                                         BrainFlow.main_robot_config)))) = false.
Proof.
  apply (proj1 run_leaves_running_cleared 5%nat scenario_A). vm_compute. discriminate.
Defined.

(** ** The setup functions *)

Ltac pick_before :=
  first [ eexists [], _, _; reflexivity
        | eexists [_], _, _; reflexivity
        | eexists [_; _], _, _; reflexivity
        | eexists [_; _; _], _, _; reflexivity
        | eexists [_; _; _; _], _, _; reflexivity
        | eexists [_; _; _; _; _], _, _; reflexivity
        | eexists [_; _; _; _; _; _], _, _; reflexivity
        | eexists [_; _; _; _; _; _; _], _, _; reflexivity
        | eexists [_; _; _; _; _; _; _; _], _, _; reflexivity
        | eexists [_; _; _; _; _; _; _; _; _], _, _; reflexivity
        | eexists [_; _; _; _; _; _; _; _; _; _], _, _; reflexivity
        | eexists [_; _; _; _; _; _; _; _; _; _; _], _, _; reflexivity ].

(** X10: [setup_robot] returns normally exactly when none of its calls
    raised, and then it has constructed the connection, connected,
    published the switch to mode "normal", slept two seconds and logged, in
    this order.  An [Exception] of a call ends it: it is logged as "Robot
    setup failed" and raised again unchanged.  The connection handle is set
    as soon as the constructor has returned, so also when [connect] or the
    mode switch fails afterwards; nothing else of the controller changes. *)
Theorem setup_robot_outcomes :
  forall B env (w : world (controller B)),
    let cfg := robot_config (self w) in
    exists d, trace (snd (setup_robot env w)) = trace w ++ d /\
      self (snd (setup_robot env w))
        = set_robot_conn (robot_conn (self w) || (0 <? robots_built d)%nat) (self w) /\
      match raises d with
      | [] =>
          fst (setup_robot env w) = Done tt /\
          d = [Called (Go2WebRTCConnection_new (connection_method cfg) (ip cfg)) (Returns tt);
               Called connect (Returns tt);
               Called (publish_request_new MOTION_SWITCHER (mode_request "normal")) (Returns tt);
               Called (sleep 2) (Returns tt);
               Logged INFO "Robot connection established" no_arg]
      | [Exception msg] =>
          fst (setup_robot env w) = Raised (Exception msg) /\
          exists before R (c : call R),
            d = before ++ [Called c (Raises (Exception msg));
                           Logged ERROR "Robot setup failed: " (arg_str msg)]
      | [e] => fst (setup_robot env w) = Raised e
      | _ => False
      end.
Proof.
  intros B env w cfg. subst cfg. destruct w as [[b rc conn run] tr].
  destruct (setup_robot env _) as [r w'] eqn:H.
  unfold setup_robot, _set_motion_mode, publish in H. unfold_monad_in H. split_answers H;
    injection H as <- <-; cbn [fst snd self trace robot_config];
    (eexists; split; [ finish_trace | ]);
    cbn; unfold set_robot_conn; cbn; rewrite ?orb_true_r, ?orb_false_r;
    repeat match goal with u : unit |- _ => destruct u end;
    (split; [ reflexivity | ]); try reflexivity;
    (split; [ reflexivity | ]); try reflexivity; pick_before.
Qed.

(** X11: [setup_bci] of the BrainFlow controller returns normally exactly
    when none of its calls raised, and then it has constructed the board,
    prepared the session, started the stream, constructed the
    "CONCENTRATION" model and prepared it, in this order.  An [Exception]
    of a call ends it: it is logged as "BCI setup failed" and raised again
    unchanged.  The board and model handles are set as soon as their
    constructors have returned, so also when [prepare_session],
    [start_stream] or the model's [prepare] fails afterwards. *)
Theorem brainflow_setup_bci_outcomes :
  forall env (w : world BrainFlow.BrainFlowRobotController),
    let cfg := BrainFlow.bci_config (bci (self w)) in
    exists d, trace (snd (BrainFlow.setup_bci env w)) = trace w ++ d /\
      self (snd (BrainFlow.setup_bci env w))
        = set_bci (fun f =>
            BrainFlow.Fields (BrainFlow.bci_config f)
              (BrainFlow.board f || (0 <? boards_built d)%nat)
              (BrainFlow.concentration_model f || (0 <? models_built d)%nat)) (self w) /\
      match raises d with
      | [] =>
          fst (BrainFlow.setup_bci env w) = Done tt /\
          d = [Called (BoardShim_new (BrainFlow.board_id cfg) (BrainFlow.serial_port cfg)
                                     (BrainFlow.ip_address cfg)) (Returns tt);
               Called prepare_session (Returns tt);
               Called start_stream (Returns tt);
               Called (MLModel_new "CONCENTRATION") (Returns tt);
               Called model_prepare (Returns tt);
               Logged INFO "BCI setup completed successfully" no_arg]
      | [Exception msg] =>
          fst (BrainFlow.setup_bci env w) = Raised (Exception msg) /\
          exists before R (c : call R),
            d = before ++ [Called c (Raises (Exception msg));
                           Logged ERROR "BCI setup failed: " (arg_str msg)]
      | [e] => fst (BrainFlow.setup_bci env w) = Raised e
      | _ => False
      end.
Proof.
  intros env w cfg. subst cfg. destruct w as [[[cfg board model] rc conn run] tr].
  destruct (BrainFlow.setup_bci env _) as [r w'] eqn:H.
  unfold BrainFlow.setup_bci in H. unfold_monad_in H. split_answers H;
    injection H as <- <-; cbn [fst snd self trace bci BrainFlow.bci_config];
    (eexists; split; [ finish_trace | ]);
    cbn; unfold set_bci; cbn; rewrite ?orb_true_r, ?orb_false_r;
    repeat match goal with u : unit |- _ => destruct u end;
    (split; [ reflexivity | ]); try reflexivity;
    (split; [ reflexivity | ]); try reflexivity; pick_before.
Qed.

(** ** setup_bci and setup_training of the Emotiv controller *)

Ltac read_trace :=
  cbv beta iota zeta delta
    [headsets_seen headsets_connected profiles_seen profiles_loaded profiles_set_up
     trainings error_logs raises raise_of omap list_omap app fst snd self trace bci
     Emotiv.bci_config].

(** X12: [setup_bci] of the Emotiv controller returns normally in two ways
    only.  Both open the Cortex connection, request access, authenticate,
    query the headsets, connect to the first headset of the answer (by its
    'id'), create an activated session and query the profiles.  Then, when
    the configured profile is among the stored ones, it is loaded;
    otherwise it is created, the command "push" is trained, and the profile
    is saved. *)
Theorem emotiv_setup_bci_success :
  forall env (w : world Emotiv.BCIRobotController),
    fst (Emotiv.setup_bci env w) = Done tt ->
    let name := Emotiv.profile_name (Emotiv.bci_config (bci (self w))) in
    exists headset others id profiles,
      headset !! "id" = Some id /\
      trace (snd (Emotiv.setup_bci env w)) = trace w ++
        [Called cortex_open (Returns tt); Called request_access (Returns tt);
         Called authenticate (Returns tt);
         Called query_headsets (Returns (headset :: others));
         Called (connect_headset id) (Returns tt);
         Called (create_session true) (Returns tt);
         Called query_profile (Returns profiles)] ++
        (if bool_decide (name ∈ profiles)
         then [Called (load_profile name) (Returns tt)]
         else [Called (setup_profile name) (Returns tt);
               Logged INFO "Starting mental command training for 'push'..." no_arg;
               Called (train_mc "push") (Returns tt);
               Called save_profile (Returns tt);
               Logged INFO "Training completed and profile saved" no_arg]) ++
        [Logged INFO "BCI setup completed successfully" no_arg].
Proof.
  intros env w Hd. destruct w as [[[cfg cortex] rc conn run] tr].
  destruct (Emotiv.setup_bci env _) as [r w'] eqn:H. cbn [fst] in Hd. subst r.
  unfold Emotiv.setup_bci, Emotiv.setup_training in H.
  destruct cortex; unfold_program_in H; explore H; try discriminate H;
    injection H as <-; cbn [snd self trace bci Emotiv.bci_config];
    repeat match goal with u : unit |- _ => destruct u end;
    match goal with
    | Eid : ?g !! "id" = Some ?s,
      Eq : env _ _ query_headsets = Returns (?g :: ?rest),
      Ep : env _ _ query_profile = Returns ?ps |- _ =>
        exists g, rest, s, ps; split; [ exact Eid | ]
    end;
    match goal with
    | Eb : bool_decide _ = _ |- _ => rewrite Eb
    end;
    repeat rewrite <- app_assoc; reflexivity.
Qed.

Lemma emotiv_setup_bci_success_witness :
  exists id,
    In id (headsets_connected
             (trace (snd (Emotiv.setup_bci no_profile
                            (emotiv_constructed Emotiv.main_bci_config
                                                Emotiv.main_robot_config))))).
Proof.
  destruct (emotiv_setup_bci_success no_profile
              (emotiv_constructed Emotiv.main_bci_config Emotiv.main_robot_config) eq_refl)
    as (headset & others & id & profiles & Hid & Ht).
  exists id. rewrite Ht. unfold headsets_connected. rewrite !omap_app.
  apply in_or_app. right. apply in_or_app. left. cbn. left. reflexivity.
Defined.

(** X13: [setup_bci] connects to no headset but the first one of the list
    [query_headsets] returned, and to at most one.  When that list is
    empty it raises "No headset detected" (logged as a failed BCI setup)
    without asking for a connection; when the first headset has no 'id' it
    raises the KeyError, also without asking for a connection. *)
Theorem emotiv_setup_bci_headsets :
  forall env (w : world Emotiv.BCIRobotController),
    exists d, trace (snd (Emotiv.setup_bci env w)) = trace w ++ d /\
      (headsets_seen d = [[]] ->
       fst (Emotiv.setup_bci env w) = Raised (Exception "No headset detected") /\
       headsets_connected d = [] /\
       error_logs d = [("BCI setup failed: ", arg_str "No headset detected")]) /\
      (forall headset others,
         headsets_seen d = [headset :: others] -> headset !! "id" = None ->
         fst (Emotiv.setup_bci env w) = Raised (Exception "'id'") /\
         headsets_connected d = []) /\
      (forall id,
         In id (headsets_connected d) ->
         headsets_connected d = [id] /\
         exists headset others,
           headsets_seen d = [headset :: others] /\ headset !! "id" = Some id).
Proof.
  intros env w. destruct w as [[[cfg cortex] rc conn run] tr].
  destruct (Emotiv.setup_bci env _) as [r w'] eqn:H.
  unfold Emotiv.setup_bci, Emotiv.setup_training in H.
  destruct cortex; unfold_program_in H; explore H;
    injection H as <- <-; cbn [fst snd self trace];
    (eexists; split; [ finish_trace | ]);
    read_trace.
  all: (split; [ intros Hh; try discriminate Hh; repeat split | ]).
  all: split.
  all: try (intros headset others Hh Hid; try discriminate Hh;
       injection Hh as -> ->; try congruence; repeat split; fail).
  all: try (intros id Hin; try contradiction;
       destruct Hin as [<- | []]; (split; [ reflexivity | ]);
       eexists _, _; (split; [ reflexivity | assumption ]); fail).
Qed.

(** X14: the training profile.  [setup_bci] loads a profile only if it is
    the configured one and [query_profile] listed it, and then it creates
    none; it creates a profile only if it is the configured one and
    [query_profile] did not list it, and then it loads none; and the only
    command it ever trains is "push", after creating that profile. *)
Theorem emotiv_setup_bci_profile :
  forall env (w : world Emotiv.BCIRobotController),
    let name := Emotiv.profile_name (Emotiv.bci_config (bci (self w))) in
    exists d, trace (snd (Emotiv.setup_bci env w)) = trace w ++ d /\
      (forall n, In n (profiles_loaded d) ->
         n = name /\ profiles_set_up d = [] /\
         exists stored, profiles_seen d = [stored] /\ name ∈ stored) /\
      (forall n, In n (profiles_set_up d) ->
         n = name /\ profiles_loaded d = [] /\
         exists stored, profiles_seen d = [stored] /\ name ∉ stored) /\
      (forall action, In action (trainings d) ->
         action = "push" /\ profiles_set_up d = [name]).
Proof.
  intros env w name. subst name. destruct w as [[[cfg cortex] rc conn run] tr].
  destruct (Emotiv.setup_bci env _) as [r w'] eqn:H.
  unfold Emotiv.setup_bci, Emotiv.setup_training in H.
  destruct cortex; unfold_program_in H; explore H;
    injection H as <- <-; cbn [fst snd self trace];
    (eexists; split; [ finish_trace | ]);
    read_trace.
  all: split; [ | split ].
  all: try (intros n Hin; try contradiction;
       destruct Hin as [<- | []]; (split; [ reflexivity | ]); (split; [ reflexivity | ]);
       eexists; (split; [ reflexivity | ]);
       match goal with
       | E : bool_decide ?P = true |- _ => exact (proj1 (bool_decide_eq_true P) E)
       | E : bool_decide ?P = false |- _ => exact (proj1 (bool_decide_eq_false P) E)
       end).
  all: try (intros action Hin; try contradiction;
       destruct Hin as [<- | []]; split; reflexivity).
Qed.

(** X15: how the Emotiv setup reports a failure.  [setup_bci] logs an
    error only when it ends with an [Exception], which it raises again
    unchanged after logging "BCI setup failed".  When the failure happened
    during the training of a new profile, it is logged twice: first by
    [setup_training] as "Training setup failed", then by [setup_bci].  The
    controller is left as it was. *)
Theorem emotiv_setup_bci_error_logs :
  forall env (w : world Emotiv.BCIRobotController),
    exists d, trace (snd (Emotiv.setup_bci env w)) = trace w ++ d /\
      self (snd (Emotiv.setup_bci env w)) = self w /\
      match fst (Emotiv.setup_bci env w) with
      | Done _ => error_logs d = [] /\ raises d = []
      | Raised (Exception msg) =>
          error_logs d =
            match profiles_set_up d with
            | [] => []
            | _ :: _ => [("Training setup failed: ", arg_str msg)]
            end ++ [("BCI setup failed: ", arg_str msg)]
      | Raised e => error_logs d = [] /\ raises d = [e]
      | OutOfFuel => False
      end.
Proof.
  intros env w. destruct w as [[[cfg cortex] rc conn run] tr].
  destruct (Emotiv.setup_bci env _) as [r w'] eqn:H.
  unfold Emotiv.setup_bci, Emotiv.setup_training in H.
  destruct cortex; unfold_program_in H; explore H;
    injection H as <- <-; cbn [fst snd self trace];
    (eexists; split; [ finish_trace | ]);
    read_trace; (split; [ reflexivity | ]); try reflexivity; split; reflexivity.
Qed.

(** ** process_mental_commands and the event loop *)

Lemma py_eq_str_other (ev : gmap string pyval) :
  ev !! "command" <> Some (PyStr "push") ->
  py_eq_str (default PyNone (ev !! "command")) "push" = false.
Proof.
  intros Hne. destruct (py_eq_str _ _) eqn:E; [ | reflexivity ].
  apply py_eq_str_push in E. contradiction.
Qed.

(** X16: [process_mental_commands] compares the power with the threshold
    only for a 'push' command ([and] short-circuits).  An event with any
    other command, whatever its power field holds, does nothing at all: no
    log, no call, no exception.  A 'push' event whose power is a string or
    None raises the TypeError of the comparison, before anything is logged
    or published. *)
Theorem process_mental_commands_compares_push_only :
  forall env (w : world Emotiv.BCIRobotController) (ev : gmap string pyval),
    (ev !! "command" <> Some (PyStr "push") ->
     Emotiv.process_mental_commands (Some ev) env w = (Done tt, w)) /\
    (ev !! "command" = Some (PyStr "push") ->
     (exists text, ev !! "power" = Some (PyStr text)) \/ ev !! "power" = Some PyNone ->
     exists msg,
       Emotiv.process_mental_commands (Some ev) env w = (Raised (Exception msg), w)).
Proof.
  intros env w ev. split.
  - intros Hne. rewrite emotiv_process_unfold.
    destruct (Emotiv.falsy (Some ev)); [ reflexivity | ].
    change (default (∅ : gmap string pyval) (Some ev)) with ev. cbv zeta.
    rewrite (py_eq_str_other _ Hne). reflexivity.
  - intros Hcmd Hpow. rewrite emotiv_process_unfold.
    assert (Hf : Emotiv.falsy (Some ev) = false).
    { cbn. apply bool_decide_eq_false. intros ->. rewrite lookup_empty in Hcmd. discriminate. }
    rewrite Hf. change (default (∅ : gmap string pyval) (Some ev)) with ev. cbv zeta.
    rewrite Hcmd. cbn [default from_option id py_eq_str String.eqb Ascii.eqb Bool.eqb].
    destruct Hpow as [[text ->] | ->]; cbn [default from_option id py_ge];
      eexists; reflexivity.
Qed.

Lemma process_mental_commands_compares_push_only_witness :
  (exists msg,
     Emotiv.process_mental_commands
       (Some {["command" := PyStr "push"; "power" := PyStr "high"]}) (obliging 0.7) emotiv_ready
     = (Raised (Exception msg), emotiv_ready)) /\
  Emotiv.process_mental_commands
    (Some {["command" := PyStr "lift"; "power" := PyStr "high"]}) (obliging 0.7) emotiv_ready
  = (Done tt, emotiv_ready).
Proof.
  split.
  - apply (proj2 (process_mental_commands_compares_push_only (obliging 0.7) emotiv_ready
                    {["command" := PyStr "push"; "power" := PyStr "high"]})).
    + reflexivity.
    + left. exists "high". reflexivity.
  - apply (proj1 (process_mental_commands_compares_push_only (obliging 0.7) emotiv_ready
                    {["command" := PyStr "lift"; "power" := PyStr "high"]})).
    vm_compute. discriminate.
Defined.

Lemma emotiv_cycle_unfold env w :
  Emotiv.cortex (bci (self w)) = true ->
  Emotiv.cycle env w =
    let received := World (self w) (trace w ++ [Called receive_data (env (trace w) _ receive_data)]) in
    match env (trace w) _ receive_data with
    | Returns mental_command => Emotiv.process_mental_commands mental_command env received
    | Raises e => (Raised e, received)
    end.
Proof.
  intros Hc. unfold Emotiv.cycle, bind, via, ext. rewrite Hc. cbv zeta.
  destruct (env (trace w) _ receive_data); reflexivity.
Qed.

(** X17: the Emotiv loop has no handler of its own.  An [Exception] of
    [receive_data], and the TypeError of a 'push' event whose power is not
    a number, end the cycle right after the event was received; such an
    exception ends the loop, and the handler of [run] logs it as a runtime
    error. *)
Theorem emotiv_loop_ends_on_event_error :
  (forall (env : oracle) (w : world Emotiv.BCIRobotController) msg,
     Emotiv.cortex (bci (self w)) = true ->
     env (trace w) _ receive_data = Raises (Exception msg) ->
     Emotiv.cycle env w =
       (Raised (Exception msg),
        World (self w) (trace w ++ [Called receive_data (Raises (Exception msg))]))) /\
  (forall (env : oracle) (w : world Emotiv.BCIRobotController) (ev : gmap string pyval) text,
     Emotiv.cortex (bci (self w)) = true ->
     env (trace w) _ receive_data = Returns (Some ev) ->
     ev !! "command" = Some (PyStr "push") ->
     ev !! "power" = Some (PyStr text) ->
     exists msg,
       Emotiv.cycle env w =
         (Raised (Exception msg),
          World (self w) (trace w ++ [Called receive_data (Returns (Some ev))]))) /\
  (forall fuel env (w : world Emotiv.BCIRobotController) msg,
     running (self w) = true ->
     fst (Emotiv.cycle env w) = Raised (Exception msg) ->
     while (S fuel) running Emotiv.cycle env w
       = (Raised (Exception msg), snd (Emotiv.cycle env w)) /\
     try_except (while (S fuel) running Emotiv.cycle)
                (fun msg => error "Runtime error: " (arg_str msg)) env w
       = (Done tt, logged_error (snd (Emotiv.cycle env w)) "Runtime error: " msg)).
Proof.
  split; [ | split ].
  - intros env w msg Hc He. rewrite (emotiv_cycle_unfold _ _ Hc). cbv zeta. rewrite He.
    reflexivity.
  - intros env w ev text Hc He Hcmd Hpow. rewrite (emotiv_cycle_unfold _ _ Hc). cbv zeta.
    rewrite He.
    destruct (proj2 (process_mental_commands_compares_push_only env
                (World (self w) (trace w ++ [Called receive_data (Returns (Some ev))])) ev)
                Hcmd (or_introl (ex_intro _ text Hpow))) as [msg Hm].
    exists msg. exact Hm.
  - intros fuel env w msg Hrun H.
    assert (Hw : while (S fuel) running Emotiv.cycle env w
                 = (Raised (Exception msg), snd (Emotiv.cycle env w))).
    { cbn [while]. unfold bind at 1, get at 1. rewrite Hrun. unfold bind at 1.
      destruct (Emotiv.cycle env w) as [r w1]. cbn [fst snd] in *. subst r. reflexivity. }
    split; [ exact Hw | ]. unfold try_except. rewrite Hw. reflexivity.
Qed.

Lemma emotiv_loop_ends_on_event_error_witness :
  polls (trace (snd (while 3 running Emotiv.cycle (push_with_text "high") emotiv_ready)))
    = 1%nat.
Proof.
  destruct (proj1 (proj2 emotiv_loop_ends_on_event_error) (push_with_text "high") emotiv_ready
              {["command" := PyStr "push"; "power" := PyStr "high"]} "high"
              eq_refl eq_refl eq_refl eq_refl) as [msg Hc].
  rewrite (proj1 (proj2 (proj2 emotiv_loop_ends_on_event_error) 2%nat (push_with_text "high")
                    emotiv_ready msg eq_refl ltac:(rewrite Hc; reflexivity))).
  rewrite Hc. reflexivity.
Defined.

(** ** cleanup *)

(** X18: [cleanup] calls nothing but its teardown operations, and only
    for the handles that are set: on a controller that holds no board, no
    model, no session and no robot connection it only clears [running] and
    logs "Cleanup completed". *)
Theorem cleanup_without_handles :
  (forall env (w : world BrainFlow.BrainFlowRobotController),
     exists d, trace (snd (BrainFlow.cleanup env w)) = trace w ++ d /\
       external_calls d = length (teardown d) /\
       (brainflow_plan (self w) = [] ->
        fst (BrainFlow.cleanup env w) = Done tt /\
        d = [Entered "cleanup"; Logged INFO "Cleanup completed" no_arg])) /\
  (forall env (w : world Emotiv.BCIRobotController),
     exists d, trace (snd (Emotiv.cleanup env w)) = trace w ++ d /\
       external_calls d = length (teardown d) /\
       (emotiv_plan (self w) = [] ->
        fst (Emotiv.cleanup env w) = Done tt /\
        d = [Entered "cleanup"; Logged INFO "Cleanup completed" no_arg])).
Proof.
  split; intros env w.
  - destruct w as [[[cfg board model] rc conn run] tr].
    destruct (BrainFlow.cleanup env _) as [r w'] eqn:H. unfold BrainFlow.cleanup in H.
    destruct board, model, conn; unfold_monad_in H; split_answers H;
      injection H as <- <-; cbn [fst snd self trace];
      (eexists; split; [ finish_trace | ]);
      (split; [ reflexivity | ]); intros Hp; try discriminate Hp; split; reflexivity.
  - destruct w as [[[cfg cortex] rc conn run] tr].
    destruct (Emotiv.cleanup env _) as [r w'] eqn:H. unfold Emotiv.cleanup in H.
    destruct cortex, conn; unfold_monad_in H; split_answers H;
      injection H as <- <-; cbn [fst snd self trace];
      (eexists; split; [ finish_trace | ]);
      (split; [ reflexivity | ]); intros Hp; try discriminate Hp; split; reflexivity.
Qed.

Lemma cleanup_without_handles_witness :
  fst (BrainFlow.cleanup (obliging 0.7)
         (BrainFlow.start BrainFlow.main_bci_config BrainFlow.main_robot_config)) = Done tt.
Proof.
  destruct (proj1 cleanup_without_handles (obliging 0.7)
              (BrainFlow.start BrainFlow.main_bci_config BrainFlow.main_robot_config))
    as (d & _ & _ & Hp).
  exact (proj1 (Hp eq_refl)).
Defined.

(** ** What a run has done when it polls, and when it returns *)

Lemma setup_robot_polls {B} env (w : world (controller B)) :
  exists d, trace (snd (setup_robot env w)) = trace w ++ d /\
    polls d = 0%nat /\ fst (setup_robot env w) <> OutOfFuel.
Proof.
  destruct w as [[b rc conn run] tr].
  destruct (setup_robot env _) as [r w'] eqn:H.
  unfold setup_robot, _set_motion_mode, publish in H. unfold_monad_in H. split_answers H;
    injection H as <- <-; cbn [fst snd self trace];
    (eexists; split; [ finish_trace | ]); (split; [ reflexivity | discriminate ]).
Qed.

Lemma brainflow_setup_bci_polls env w :
  exists d, trace (snd (BrainFlow.setup_bci env w)) = trace w ++ d /\
    polls d = 0%nat /\ fst (BrainFlow.setup_bci env w) <> OutOfFuel.
Proof.
  destruct w as [[[cfg board model] rc conn run] tr].
  destruct (BrainFlow.setup_bci env _) as [r w'] eqn:H.
  unfold BrainFlow.setup_bci in H. unfold_monad_in H. split_answers H;
    injection H as <- <-; cbn [fst snd self trace];
    (eexists; split; [ finish_trace | ]); (split; [ reflexivity | discriminate ]).
Qed.

Lemma emotiv_setup_bci_polls env w :
  exists d, trace (snd (Emotiv.setup_bci env w)) = trace w ++ d /\
    polls d = 0%nat /\ fst (Emotiv.setup_bci env w) <> OutOfFuel.
Proof.
  destruct w as [[[cfg cortex] rc conn run] tr].
  destruct (Emotiv.setup_bci env _) as [r w'] eqn:H.
  unfold Emotiv.setup_bci, Emotiv.setup_training in H.
  destruct cortex; unfold_program_in H; explore H;
    injection H as <- <-; cbn [fst snd self trace];
    (eexists; split; [ finish_trace | ]); (split; [ reflexivity | discriminate ]).
Qed.

Lemma while_extends {St} (cond : St -> bool) (body : M St unit) :
  (forall env w, exists d, trace (snd (body env w)) = trace w ++ d) ->
  forall fuel env w, exists d, trace (snd (while fuel cond body env w)) = trace w ++ d.
Proof.
  intros Hbody. induction fuel as [ | fuel IH]; intros env w.
  - cbn. exists []. rewrite app_nil_r. destruct (cond (self w)); reflexivity.
  - cbn [while]. unfold bind at 1, get at 1. destruct (cond (self w)).
    + unfold bind. destruct (Hbody env w) as (d & Ht).
      destruct (body env w) as [[[] | e | ] wb]; cbn [snd] in *; try (exists d; exact Ht).
      destruct (IH env wb) as (d' & Ht'). exists (d ++ d').
      rewrite Ht', Ht, app_assoc. reflexivity.
    + cbn. exists []. rewrite app_nil_r. reflexivity.
Qed.

Section RunAnatomy.
Context {F : Type}.
Variable setup_source : M (controller F) unit.
Variable monitor : nat -> M (controller F) unit.
Variable teardown : M (controller F) unit.

Hypothesis setup_source_polls :
  forall env w, exists d, trace (snd (setup_source env w)) = trace w ++ d /\
    polls d = 0%nat /\ fst (setup_source env w) <> OutOfFuel.

Hypothesis monitor_goes_on :
  forall fuel env w,
    (exists d, trace (snd (monitor fuel env w)) = trace w ++ d) /\
    fst (monitor fuel env w) <> Done tt.

Hypothesis teardown_polls :
  forall env w, exists d, trace (snd (teardown env w)) = trace w ++ d /\
    polls d = 0%nat /\ fst (teardown env w) <> OutOfFuel.

(** The [try ... except Exception] of [run], before its [finally]. *)
Lemma lifecycle_body_anatomy fuel env w r w' :
  try_except (lifecycle_session setup_source monitor fuel)
             (fun msg => error "Runtime error: " (arg_str msg)) env w = (r, w') ->
  exists d, trace w' = trace w ++ d /\
    (polls d <> 0%nat ->
     fst (setup_source env w) = Done tt /\
     fst (setup_robot env (snd (setup_source env w))) = Done tt) /\
    (r = Done tt -> exists msg, In ("Runtime error: ", arg_str msg) (error_logs d)).
Proof.
  intros H. unfold try_except, lifecycle_session in H. unfold bind at 1 in H.
  destruct (setup_source_polls env w) as (dA & HtA & HpA & HfA).
  destruct (setup_source env w) as [[[] | [msg | | ] | ] wA]; cbn [fst snd] in *;
    [ | unfold bind, error, emit in H; cbn [fst snd self trace] in H; injection H as <- <-;
        exists (dA ++ [Logged ERROR "Runtime error: " (arg_str msg)]);
        (split; [ cbn [trace]; rewrite HtA, app_assoc; reflexivity | ]);
        (split; [ rewrite polls_app, HpA; intros Hne; contradiction Hne; reflexivity | ]);
        intros _; exists msg; rewrite error_logs_app; apply in_or_app; right; left; reflexivity
      | injection H as <- <-; exists dA; (split; [ exact HtA | ]);
        (split; [ rewrite HpA; intros Hne; contradiction Hne; reflexivity | discriminate ])
      | injection H as <- <-; exists dA; (split; [ exact HtA | ]);
        (split; [ rewrite HpA; intros Hne; contradiction Hne; reflexivity | discriminate ])
      | contradiction ].
  unfold bind at 1 in H.
  destruct (setup_robot_polls env wA) as (dB & HtB & HpB & HfB).
  destruct (setup_robot env wA) as [[[] | [msg | | ] | ] wB]; cbn [fst snd] in *;
    [ | unfold bind, error, emit in H; cbn [fst snd self trace] in H; injection H as <- <-;
        exists (dA ++ dB ++ [Logged ERROR "Runtime error: " (arg_str msg)]);
        (split; [ cbn [trace]; rewrite HtB, HtA, <- !app_assoc; reflexivity | ]);
        (split; [ rewrite !polls_app, HpA, HpB; intros Hne; contradiction Hne; reflexivity | ]);
        intros _; exists msg; rewrite !error_logs_app;
        apply in_or_app; right; apply in_or_app; right; left; reflexivity
      | injection H as <- <-;
        exists (dA ++ dB); (split; [ rewrite HtB, HtA, app_assoc; reflexivity | ]);
        (split; [ rewrite polls_app, HpA, HpB; intros Hne; contradiction Hne; reflexivity
                | discriminate ])
      | injection H as <- <-;
        exists (dA ++ dB); (split; [ rewrite HtB, HtA, app_assoc; reflexivity | ]);
        (split; [ rewrite polls_app, HpA, HpB; intros Hne; contradiction Hne; reflexivity
                | discriminate ])
      | contradiction ].
  destruct (monitor_goes_on fuel env wB) as ((dC & HtC) & HrC).
  destruct (monitor fuel env wB) as [[[] | [msg | | ] | ] wC]; cbn [fst snd] in *;
    [ contradiction HrC; reflexivity
    | unfold bind, error, emit in H; cbn [fst snd self trace] in H; injection H as <- <-;
      exists (dA ++ dB ++ dC ++ [Logged ERROR "Runtime error: " (arg_str msg)]);
      (split; [ cbn [trace]; rewrite HtC, HtB, HtA, <- !app_assoc; reflexivity | ]);
      (split; [ intros _; split; reflexivity | ]);
      intros _; exists msg; rewrite !error_logs_app;
      apply in_or_app; right; apply in_or_app; right; apply in_or_app; right; left; reflexivity
    | | | ];
    (injection H as <- <-;
     exists (dA ++ dB ++ dC); (split; [ rewrite HtC, HtB, HtA, <- !app_assoc; reflexivity | ]);
     (split; [ intros _; split; reflexivity | discriminate ])).
Qed.

Lemma lifecycle_run_anatomy fuel env w :
  exists d, trace (snd (lifecycle_run setup_source monitor teardown fuel env w)) = trace w ++ d /\
    (polls d <> 0%nat ->
     fst (setup_source env w) = Done tt /\
     fst (setup_robot env (snd (setup_source env w))) = Done tt) /\
    (fst (lifecycle_run setup_source monitor teardown fuel env w) = Done tt ->
     exists msg, In ("Runtime error: ", arg_str msg) (error_logs d)).
Proof.
  destruct (lifecycle_run setup_source monitor teardown fuel env w) as [r w'] eqn:H.
  cbn [fst snd]. unfold lifecycle_run, try_finally in H.
  destruct (try_except _ _ env w) as [rb wb] eqn:Eb.
  destruct (lifecycle_body_anatomy _ _ _ _ _ Eb) as (d & Ht & Hp & Hr).
  assert (Hfin : forall rk : result unit,
            (rk = Done tt -> rb = Done tt) ->
            match teardown env wb with
            | (Done _, w2) => (rk, w2)
            | (Raised e, w2) => (Raised e, w2)
            | (OutOfFuel, w2) => (OutOfFuel, w2)
            end = (r, w') ->
            exists d', trace w' = trace w ++ d' /\
              (polls d' <> 0%nat ->
               fst (setup_source env w) = Done tt /\
               fst (setup_robot env (snd (setup_source env w))) = Done tt) /\
              (r = Done tt -> exists msg, In ("Runtime error: ", arg_str msg) (error_logs d'))).
  { intros rk Hrb Hk. destruct (teardown_polls env wb) as (dF & HtF & HpF & HfF).
    destruct (teardown env wb) as [[[] | e | ] wF]; cbn [fst snd] in *; try contradiction;
      injection Hk as <- <-;
      exists (d ++ dF);
      (split; [ rewrite HtF, Ht, app_assoc; reflexivity | ]);
      (split; [ rewrite polls_app, HpF, Nat.add_0_r; exact Hp | ]).
    - intros Hd. destruct (Hr (Hrb Hd)) as [msg Hin]. exists msg.
      rewrite error_logs_app. apply in_or_app. left. exact Hin.
    - discriminate. }
  destruct rb as [[] | e | ].
  - apply (Hfin (Done tt)); auto.
  - apply (Hfin (Raised e)); [ discriminate | exact H ].
  - injection H as <- <-. exists d. split; [ exact Ht | ]. split; [ exact Hp | discriminate ].
Qed.

End RunAnatomy.

Lemma brainflow_monitor_goes_on fuel env w :
  (exists d, trace (snd (brainflow_monitor fuel env w)) = trace w ++ d) /\
  fst (brainflow_monitor fuel env w) <> Done tt.
Proof.
  set (w1 := World (set_running true (self w))
                   (trace w ++ [Logged INFO "Starting brain activity monitoring..." no_arg])).
  assert (E0 : brainflow_monitor fuel env w = while fuel running BrainFlow.cycle env w1)
    by reflexivity.
  rewrite E0. clear E0. split.
  - destruct (while_extends running BrainFlow.cycle) with (fuel := fuel) (env := env) (w := w1)
      as (d & Ht).
    + intros env0 w0. destruct (BrainFlow.cycle env0 w0) as [r0 w0'] eqn:E.
      destruct (brainflow_cycle_any _ _ _ _ E) as (d & Ht & _). exists d. exact Ht.
    + eexists. rewrite Ht. cbn [w1 trace]. rewrite <- app_assoc. reflexivity.
  - destruct (while fuel running BrainFlow.cycle env w1) as [r w'] eqn:E.
    apply while_keeps_condition in E.
    + cbn [fst]. apply (proj2 E). reflexivity.
    + intros env0 w0 r0 w0' H0.
      destruct (brainflow_cycle_any _ _ _ _ H0) as (d & _ & Hs & Hf & _). auto.
Qed.

Lemma emotiv_cycle_extends env w :
  exists d, trace (snd (Emotiv.cycle env w)) = trace w ++ d.
Proof.
  unfold Emotiv.cycle, bind.
  assert (Hs : silent (via (fun s : Emotiv.BCIRobotController => Emotiv.cortex (bci s))
                           receive_data))
    by (apply silent_via; reflexivity).
  destruct (Hs env w) as (d0 & Ht0 & _).
  destruct (via _ receive_data env w) as [[mc | e | ] w0]; cbn [fst snd] in *;
    try (exists d0; exact Ht0).
  destruct (emotiv_process_spec env w0 mc) as (d1 & Ht1 & _).
  exists (d0 ++ d1). rewrite Ht1, Ht0, app_assoc. reflexivity.
Qed.

Lemma emotiv_monitor_goes_on fuel env w :
  (exists d, trace (snd (emotiv_monitor fuel env w)) = trace w ++ d) /\
  fst (emotiv_monitor fuel env w) <> Done tt.
Proof.
  set (w1 := World (set_running true (self w))
                   (trace w ++ [Logged INFO "Starting mental command monitoring..." no_arg])).
  assert (E0 : emotiv_monitor fuel env w =
               (via (fun s : Emotiv.BCIRobotController => Emotiv.cortex (bci s))
                    (subscribe ["com"]) ;;
                while fuel running Emotiv.cycle) env w1)
    by reflexivity.
  rewrite E0. clear E0. unfold bind.
  assert (Hs : silent (via (fun s : Emotiv.BCIRobotController => Emotiv.cortex (bci s))
                           (subscribe ["com"])))
    by (apply silent_via; reflexivity).
  destruct (Hs env w1) as (d2 & Ht2 & Hs2 & _ & Hf2).
  destruct (via _ (subscribe ["com"]) env w1) as [[[] | e | ] w2]; cbn [fst snd] in *;
    [ | split; [ | discriminate ] | contradiction ].
  - split.
    + destruct (while_extends running Emotiv.cycle emotiv_cycle_extends fuel env w2) as (d & Ht).
      eexists. rewrite Ht, Ht2. cbn [w1 trace]. rewrite <- !app_assoc. reflexivity.
    + destruct (while fuel running Emotiv.cycle env w2) as [r w'] eqn:E.
      apply while_keeps_condition in E; [ | apply emotiv_cycle_any ].
      cbn [fst]. apply (proj2 E). rewrite Hs2. reflexivity.
  - eexists. rewrite Ht2. cbn [w1 trace]. rewrite <- !app_assoc. reflexivity.
Qed.

Lemma brainflow_teardown_polls env w :
  exists d, trace (snd (BrainFlow.cleanup env w)) = trace w ++ d /\
    polls d = 0%nat /\ fst (BrainFlow.cleanup env w) <> OutOfFuel.
Proof.
  destruct (BrainFlow.cleanup env w) as [r w'] eqn:E.
  destruct (brainflow_cleanup_spec _ _ _ _ E) as (d & Ht & _ & _ & Hp & _ & _ & _ & Hr).
  exists d. cbn [fst snd]. repeat split; auto. intros ->. exact Hr.
Qed.

Lemma emotiv_teardown_polls env w :
  exists d, trace (snd (Emotiv.cleanup env w)) = trace w ++ d /\
    polls d = 0%nat /\ fst (Emotiv.cleanup env w) <> OutOfFuel.
Proof.
  destruct (Emotiv.cleanup env w) as [r w'] eqn:E.
  destruct (emotiv_cleanup_spec _ _ _ _ E) as (d & Ht & _ & _ & Hp & _ & _ & _ & Hr).
  exists d. cbn [fst snd]. repeat split; auto. intros ->. exact Hr.
Qed.

(** X19: [run] polls the signal source only after both setups have
    returned normally: a run in which the setup of the source or of the
    robot failed contains no poll at all. *)
Theorem run_polls_only_after_setup :
  (forall fuel env (w : world BrainFlow.BrainFlowRobotController),
     exists d, trace (snd (BrainFlow.run fuel env w)) = trace w ++ d /\
       (polls d <> 0%nat ->
        fst (BrainFlow.setup_bci env w) = Done tt /\
        fst (setup_robot env (snd (BrainFlow.setup_bci env w))) = Done tt)) /\
  (forall fuel env (w : world Emotiv.BCIRobotController),
     exists d, trace (snd (Emotiv.run fuel env w)) = trace w ++ d /\
       (polls d <> 0%nat ->
        fst (Emotiv.setup_bci env w) = Done tt /\
        fst (setup_robot env (snd (Emotiv.setup_bci env w))) = Done tt)).
Proof.
  split; intros fuel env w.
  - destruct (lifecycle_run_anatomy BrainFlow.setup_bci brainflow_monitor BrainFlow.cleanup
                brainflow_setup_bci_polls brainflow_monitor_goes_on brainflow_teardown_polls
                fuel env w) as (d & Ht & Hp & _).
    exists d. split; [ exact Ht | exact Hp ].
  - destruct (lifecycle_run_anatomy Emotiv.setup_bci emotiv_monitor Emotiv.cleanup
                emotiv_setup_bci_polls emotiv_monitor_goes_on emotiv_teardown_polls
                fuel env w) as (d & Ht & Hp & _).
    exists d. split; [ exact Ht | exact Hp ].
Qed.

Lemma run_polls_only_after_setup_witness :
  fst (BrainFlow.setup_bci (obliging 0.7)
         (BrainFlow.start BrainFlow.main_bci_config BrainFlow.main_robot_config)) = Done tt.
Proof.
  destruct (proj1 run_polls_only_after_setup 3%nat (obliging 0.7)
              (BrainFlow.start BrainFlow.main_bci_config BrainFlow.main_robot_config))
    as (d & Ht & Hp).
  apply Hp. cbn [app BrainFlow.start trace] in Ht. rewrite <- Ht. vm_compute. discriminate.
Defined.

(** X20: [run] returns normally only through its error handler.  The
    loop does not end by itself, so a [run] that has returned has absorbed
    an [Exception] of the setup or of the loop and logged it as "Runtime
    error": for the caller a normal return of [run] means that something
    failed. *)
Theorem run_returns_only_after_runtime_error :
  (forall fuel env (w : world BrainFlow.BrainFlowRobotController),
     fst (BrainFlow.run fuel env w) = Done tt ->
     exists d msg, trace (snd (BrainFlow.run fuel env w)) = trace w ++ d /\
       In ("Runtime error: ", arg_str msg) (error_logs d)) /\
  (forall fuel env (w : world Emotiv.BCIRobotController),
     fst (Emotiv.run fuel env w) = Done tt ->
     exists d msg, trace (snd (Emotiv.run fuel env w)) = trace w ++ d /\
       In ("Runtime error: ", arg_str msg) (error_logs d)).
Proof.
  split; intros fuel env w Hd.
  - destruct (lifecycle_run_anatomy BrainFlow.setup_bci brainflow_monitor BrainFlow.cleanup
                brainflow_setup_bci_polls brainflow_monitor_goes_on brainflow_teardown_polls
                fuel env w) as (d & Ht & _ & Hr).
    destruct (Hr Hd) as [msg Hin]. exists d, msg. split; [ exact Ht | exact Hin ].
  - destruct (lifecycle_run_anatomy Emotiv.setup_bci emotiv_monitor Emotiv.cleanup
                emotiv_setup_bci_polls emotiv_monitor_goes_on emotiv_teardown_polls
                fuel env w) as (d & Ht & _ & Hr).
    destruct (Hr Hd) as [msg Hin]. exists d, msg. split; [ exact Ht | exact Hin ].
Qed.

Lemma run_returns_only_after_runtime_error_witness :
  let env := failing is_connect (Exception "robot unreachable") (obliging 0.7) in
  let w := BrainFlow.start BrainFlow.main_bci_config BrainFlow.main_robot_config in
  exists d msg, trace (snd (BrainFlow.run 3 env w)) = trace w ++ d /\
    In ("Runtime error: ", arg_str msg) (error_logs d).
Proof.
  intros env w.
  exact (proj1 run_returns_only_after_runtime_error 3%nat env w eq_refl).
Defined.

(** ** The properties above, at concrete inputs *)

Lemma move_forward_absorbs_exceptions_witness :
  let w := BrainFlow.start BrainFlow.main_bci_config BrainFlow.main_robot_config in
  move_forward (obliging 0.7) w =
    (Done tt, logged_error w "Movement execution failed: "
                           "'NoneType' object has no attribute 'datachannel'").
Proof.
  intros w.
  exact (proj2 (proj2 (move_forward_absorbs_exceptions _ (obliging 0.7) w)) eq_refl).
Defined.

Lemma cycle_dispatches_only_above_threshold_witness :
  exists data s,
    fst (BrainFlow.poll (obliging 0.7) brainflow_ready) = Done data /\ (0 < size data)%nat /\
    fst (BrainFlow.process_brain_data data (obliging 0.7)
           (snd (BrainFlow.poll (obliging 0.7) brainflow_ready))) = Done s /\
    (BrainFlow.command_threshold (BrainFlow.bci_config (bci (self brainflow_ready))) <=? s)%float
      = true.
Proof.
  destruct (cycle_dispatches_only_above_threshold (obliging 0.7) brainflow_ready)
    as (d & Ht & Hd).
  apply Hd. cbn [app brainflow_ready trace] in Ht. rewrite <- Ht. vm_compute. discriminate.
Defined.

Lemma emotiv_setup_bci_headsets_witness :
  fst (Emotiv.setup_bci no_headset
         (emotiv_constructed Emotiv.main_bci_config Emotiv.main_robot_config))
    = Raised (Exception "No headset detected").
Proof.
  destruct (emotiv_setup_bci_headsets no_headset
              (emotiv_constructed Emotiv.main_bci_config Emotiv.main_robot_config))
    as (d & Ht & Hnone & _).
  apply Hnone. cbn [app emotiv_constructed trace] in Ht. rewrite <- Ht. vm_compute. reflexivity.
Defined.

Lemma emotiv_setup_bci_profile_witness :
  exists d,
    trace (snd (Emotiv.setup_bci no_profile
                  (emotiv_constructed Emotiv.main_bci_config Emotiv.main_robot_config)))
      = [] ++ d /\
    profiles_set_up d = ["Go2Control"].
Proof.
  destruct (emotiv_setup_bci_profile no_profile
              (emotiv_constructed Emotiv.main_bci_config Emotiv.main_robot_config))
    as (d & Ht & _ & _ & Htrain).
  exists d. split; [ exact Ht | ].
  apply (Htrain "push"). cbn [app emotiv_constructed trace] in Ht. rewrite <- Ht.
  vm_compute. left. reflexivity.
Defined.

(** ** main *)

Section ProgramAnatomy.
Context {St : Type}.
Variable construct : M St unit.
Variable run_ : M St unit.
Variable teardown_ : M St unit.

Hypothesis construct_ends :
  forall env w, exists d, trace (snd (construct env w)) = trace w ++ d /\
    forall e, fst (construct env w) = Raised e ->
              exists R (c : call R), last d = Some (Called c (Raises e)).

Hypothesis run_returns :
  forall env w, exists d, trace (snd (run_ env w)) = trace w ++ d /\
    (fst (run_ env w) = Done tt ->
     exists msg, In ("Runtime error: ", arg_str msg) (error_logs d)).

Hypothesis teardown_ends :
  forall env w, exists d, trace (snd (teardown_ env w)) = trace w ++ d /\
    forall e, fst (teardown_ env w) = Raised e ->
              exists R (c : call R), last d = Some (Called c (Raises e)).


End ProgramAnatomy.








